(** * A shallow embedding of the timetable scheduling engine

    The development follows the Python sources module by module:
    [models/*] (days, time slots, rooms, staff, blocks),
    [utils/room_utils.py], [managers/constraint_manager.py],
    [managers/resource_manager.py] and [scheduler.py].

    Conventions of the embedding.
    - Python [int] is [Z]; [str] is [string]; [list] is [list];
      a [dict] that is only looked up is a [gmap]; the assignments [dict],
      whose insertion order is observable through [.items()] and
      [.values()], is an association list with the update of a Python dict.
    - A Python dataclass is a record kept in a module of the class's name, so
      that fields keep their names ([Hall.capacity], [Block.id], ...);
      dataclass equality [==] is structural equality, decided by [decide].
    - An exception is a [Raise] in the [result] type; code that mutates the
      manager before raising returns the mutated manager together with the
      exception, and the handler decides what survives.
    - The capacity ratio is a binary64 [float], and the capacity gate rounds
      its product as the interpreter does; priorities and soft scores are
      exact rationals [Q].
    - The iteration order of a Python [set] is an explicit parameter
      [set_order] of the functions that iterate over one. *)

From stdpp Require Import gmap strings list fin_maps pretty sorting.
From Stdlib Require Import ZArith QArith Lia Lqa.
From Stdlib Require Import Floats.PrimFloat Floats.SpecFloat Floats.FloatOps Floats.FloatAxioms.

Close Scope Q_scope.
Open Scope Z_scope.

(** ** Exceptions *)

Inductive exn :=
| ValueError (msg : string)
| KeyError
| ZeroDivisionError
| Exception (msg : string).

Inductive result (A : Type) :=
| Ok (a : A)
| Raise (e : exn).
Arguments Ok {A} a.
Arguments Raise {A} e.

Definition bind {A B} (r : result A) (k : A -> result B) : result B :=
  match r with
  | Ok a => k a
  | Raise e => Raise e
  end.

Notation "x <- r ;; k" := (bind r (fun x => k))
  (at level 100, r at next level, right associativity).

(** [for x in l: f x], stopping at the first exception. *)
Fixpoint mapM {A B} (f : A -> result B) (l : list A) : result (list B) :=
  match l with
  | [] => Ok []
  | x :: l' => y <- f x ;; ys <- mapM f l' ;; Ok (y :: ys)
  end.

(** ** Python dictionaries whose order is observable *)

Section dict.
Context {V : Type}.

Fixpoint dict_get (k : string) (d : list (string * V)) : option V :=
  match d with
  | [] => None
  | (k', v) :: d' => if decide (k' = k) then Some v else dict_get k d'
  end.

Definition dict_mem (k : string) (d : list (string * V)) : bool :=
  bool_decide (is_Some (dict_get k d)).

(** [d[k] = v]: an existing key keeps its position, a new key goes last. *)
Fixpoint dict_set (k : string) (v : V) (d : list (string * V)) : list (string * V) :=
  match d with
  | [] => [(k, v)]
  | (k', v') :: d' =>
      if decide (k' = k) then (k', v) :: d' else (k', v') :: dict_set k v d'
  end.

Definition dict_values (d : list (string * V)) : list V := map snd d.
Definition dict_keys (d : list (string * V)) : list string := map fst d.
End dict.

(** [{x.id: x for x in xs}] for integer keys: first position, last value. *)
Fixpoint zdict_set {V} (k : Z) (v : V) (d : list (Z * V)) : list (Z * V) :=
  match d with
  | [] => [(k, v)]
  | (k', v') :: d' =>
      if decide (k' = k) then (k', v) :: d' else (k', v') :: zdict_set k v d'
  end.

Definition zdict_of_list {V} (key : V -> Z) (xs : list V) : list (Z * V) :=
  fold_left (fun d x => zdict_set (key x) x d) xs [].

(** ** [sorted]: a stable sort by key

    [sorted_by gt key l] is [sorted(l, key=key)] when [gt a b] decides
    [a > b] on keys, and [sorted(l, key=key, reverse=True)] when it decides
    [a < b]: both keep elements with equal keys in their original order. *)

Section sorted.
Context {A K : Type} (gt : K -> K -> bool) (key : A -> K).

Fixpoint sorted_insert (x : A) (l : list A) : list A :=
  match l with
  | [] => [x]
  | y :: l' => if gt (key x) (key y) then y :: sorted_insert x l' else x :: l
  end.

Definition sorted_by (l : list A) : list A := foldr sorted_insert [] l.
End sorted.

(** ** models/time_preferences.py *)

Inductive Day := SUNDAY | MONDAY | TUESDAY | WEDNESDAY | THURSDAY | FRIDAY | SATURDAY.

Definition Day_value (d : Day) : Z :=
  match d with
  | SUNDAY => 0 | MONDAY => 1 | TUESDAY => 2 | WEDNESDAY => 3
  | THURSDAY => 4 | FRIDAY => 5 | SATURDAY => 6
  end.

Global Instance Day_eq_dec : EqDecision Day.
Proof. solve_decision. Defined.

Global Instance Day_countable : Countable Day.
Proof.
  refine (inj_countable' (fun d => Z.to_nat (Day_value d))
            (fun n => match n with
                      | 0 => SUNDAY | 1 => MONDAY | 2 => TUESDAY | 3 => WEDNESDAY
                      | 4 => THURSDAY | 5 => FRIDAY | _ => SATURDAY
                      end%nat) _).
  by intros [].
Defined.

(** [datetime.time]; the engine only ever builds [time(h, m)]. *)
Record time := mk_time { hour : Z; minute : Z }.

Global Instance time_eq_dec : EqDecision time.
Proof. solve_decision. Defined.

Global Instance time_countable : Countable time.
Proof.
  refine (inj_countable' (fun t => (hour t, minute t)) (fun p => mk_time p.1 p.2) _).
  by intros [].
Defined.

(** The constructor [time(h, m)] raises [ValueError] outside [0..23], [0..59]. *)
Definition time_new (h m : Z) : result time :=
  if negb ((0 <=? h) && (h <=? 23)) then Raise (ValueError "hour must be in 0..23")
  else if negb ((0 <=? m) && (m <=? 59)) then Raise (ValueError "minute must be in 0..59")
  else Ok (mk_time h m).

Definition time_leb (a b : time) : bool :=
  (hour a <? hour b) || ((hour a =? hour b) && (minute a <=? minute b)).

Definition time_ltb (a b : time) : bool :=
  (hour a <? hour b) || ((hour a =? hour b) && (minute a <? minute b)).

Record TimePreference := mk_TimePreference {
  day : Day;
  start_time : time;
  end_time : time
}.

Global Instance TimePreference_eq_dec : EqDecision TimePreference.
Proof. solve_decision. Defined.

(** The identity [(day, start_time)] of a slot. *)
Abbreviation SlotKey := (Day * time)%type.

Definition slot_key (s : TimePreference) : SlotKey := (day s, start_time s).

(** *** BaseAvailability.generate_base_availability

    The [while] loop runs on [fuel]; [None] is a loop that would not stop. *)

Fixpoint base_availability_day (fuel : nat) (slot_duration : Z) (d : Day) (current_time : time)
    : option (result (list TimePreference)) :=
  match fuel with
  | O => None
  | S fuel' =>
      if hour current_time + slot_duration <=? 19 then
        if (bool_decide (d = MONDAY) && (hour current_time =? 13))
           || (bool_decide (d = MONDAY) && (hour current_time =? 12)) then
          match time_new (hour current_time + slot_duration) 0 with
          | Raise e => Some (Raise e)
          | Ok t => base_availability_day fuel' slot_duration d t
          end
        else
          match time_new (hour current_time + slot_duration) 0 with
          | Raise e => Some (Raise e)
          | Ok slot_end =>
              match base_availability_day fuel' slot_duration d slot_end with
              | Some (Ok rest) =>
                  Some (Ok (mk_TimePreference d current_time slot_end :: rest))
              | other => other
              end
          end
      else Some (Ok [])
  end.

Definition working_days : list Day := [SUNDAY; MONDAY; TUESDAY; WEDNESDAY; THURSDAY].

Fixpoint for_days (f : Day -> option (result (list TimePreference))) (ds : list Day)
    : option (result (list TimePreference)) :=
  match ds with
  | [] => Some (Ok [])
  | d :: ds' =>
      match f d with
      | Some (Ok l) =>
          match for_days f ds' with
          | Some (Ok l') => Some (Ok (l ++ l'))
          | other => other
          end
      | other => other
      end
  end.

Definition generate_base_availability : option (result (list TimePreference)) :=
  for_days (fun d => base_availability_day 24 2 d (mk_time 9 0)) working_days.

(** ** models/halls.py, models/labs.py, models/room.py *)

Module Hall.
Record t := mk {
  id : Z;
  name : string;
  capacity : Z;
  availability : list TimePreference
}.
End Hall.
Abbreviation Hall := Hall.t.

Inductive LabType := GENERAL | SPECIALIST.

Module Lab.
Record t := mk {
  id : Z;
  name : string;
  capacity : Z;
  availability : list TimePreference;
  lab_type : LabType;
  used_in_non_specialist_courses : bool
}.
End Lab.
Abbreviation Lab := Lab.t.

(** [Room = Union[Hall, Lab]] *)
Inductive Room :=
| RHall (h : Hall)
| RLab (l : Lab).

Global Instance Hall_eq_dec : EqDecision Hall.
Proof. solve_decision. Defined.
Global Instance LabType_eq_dec : EqDecision LabType.
Proof. solve_decision. Defined.
Global Instance Lab_eq_dec : EqDecision Lab.
Proof. solve_decision. Defined.
Global Instance Room_eq_dec : EqDecision Room.
Proof. solve_decision. Defined.

Definition capacity (r : Room) : Z :=
  match r with RHall h => Hall.capacity h | RLab l => Lab.capacity l end.

Definition availability (r : Room) : list TimePreference :=
  match r with RHall h => Hall.availability h | RLab l => Lab.availability l end.

Definition room_id (r : Room) : Z :=
  match r with RHall h => Hall.id h | RLab l => Lab.id l end.

(** [isinstance(room, Hall)] and [isinstance(room, Lab)] *)
Definition is_Hall (r : Room) : bool := match r with RHall _ => true | RLab _ => false end.
Definition is_Lab (r : Room) : bool := match r with RHall _ => false | RLab _ => true end.

(** ** utils/room_utils.py *)

Abbreviation RoomKey := (string * Z)%type.

Definition get_room_key (room : Room) : RoomKey :=
  let room_type := if is_Hall room then "hall" else "lab" in
  (room_type, room_id room).

(** ** models/department.py, models/staff_members.py *)

Record Department := mk_Department { dept_id : Z; dept_name : string }.
Record AcademicDegree := mk_AcademicDegree { degree_id : Z; degree_name : string; prefix : string }.

Module StaffMember.
Record t := mk {
  id : Z;
  name : string;
  department : Department;
  timing_preferences : list TimePreference;
  academic_degree : AcademicDegree;
  is_permanent : bool
}.
End StaffMember.

(** The two subclasses of [StaffMember]. *)
Inductive Staff :=
| Lecturer (s : StaffMember.t)
| TeachingAssistant (s : StaffMember.t).

Definition staff_record (s : Staff) : StaffMember.t :=
  match s with Lecturer r => r | TeachingAssistant r => r end.

Definition staff_id (s : Staff) : Z := StaffMember.id (staff_record s).
Definition timing_preferences (s : Staff) : list TimePreference :=
  StaffMember.timing_preferences (staff_record s).

Definition is_Lecturer (s : Staff) : bool :=
  match s with Lecturer _ => true | TeachingAssistant _ => false end.
Definition is_TeachingAssistant (s : Staff) : bool :=
  match s with Lecturer _ => false | TeachingAssistant _ => true end.

(** ** models/academic_list.py, models/study_plan.py *)

Module AcademicList.
Record t := mk { id : Z; name : string; department : Department }.
End AcademicList.

(** The typed dictionaries [LecturerAssignment] and [TAAssignment]. At run
    time they are plain dictionaries: [utils/api_study_plans.py] also builds
    entries that hold only an id next to ["num_of_groups"], so the staff
    object is optional ([None]: the key is absent, or its value is [None]). *)
Record LecturerAssignment := mk_LecturerAssignment {
  lecturer : option StaffMember.t;
  lecturer_num_of_groups : Z
}.

Record TAAssignment := mk_TAAssignment {
  teaching_assistant : option StaffMember.t;
  ta_num_of_groups : Z
}.

Module CourseAssignment.
Record t := mk {
  course_id : Z;
  course_code : string;
  lecture_groups : Z;
  lecturers : list LecturerAssignment;
  lab_groups : option Z;
  teaching_assistants : option (list TAAssignment);
  practical_in_lab : bool;
  preferred_labs : option (list Lab);
  is_common : bool
}.
End CourseAssignment.
Abbreviation CourseAssignment := CourseAssignment.t.

Module StudyPlan.
Record t := mk {
  name : string;
  academic_list : AcademicList.t;
  academic_level : Z;
  expected_students : Z;
  course_assignments : list CourseAssignment
}.
End StudyPlan.
Abbreviation StudyPlan := StudyPlan.t.

(** ** models/block.py *)

Inductive BlockType := LECTURE | LAB.

Global Instance BlockType_eq_dec : EqDecision BlockType.
Proof. solve_decision. Defined.

Module Block.
Record t := mk {
  id : string;
  course_code : string;
  course_object : CourseAssignment;
  block_type : BlockType;
  staff_member : Staff;
  student_count : Z;
  required_room_type : string;
  group_number : Z;
  total_groups : Z;
  is_single_group_course : bool;
  academic_list : string;
  academic_list_object : AcademicList.t;
  academic_level : Z;
  practical_in_lab : bool;
  preferred_rooms : option (list Room)
}.
End Block.
Abbreviation Block := Block.t.

Module Assignment.
Record t := mk {
  block : Block;
  time_slot : TimePreference;
  room : Room
}.
End Assignment.
Abbreviation Assignment := Assignment.t.

(** A list that is [None] or empty is falsy. *)
Definition truthy {A} (o : option (list A)) : bool :=
  match o with
  | Some (_ :: _) => true
  | _ => false
  end.

(** ** managers/constraint_manager.py *)

Record SchedulerState := mk_SchedulerState {
  room_bookings : gmap RoomKey (gmap SlotKey string);
  staff_bookings : gmap Z (gmap SlotKey string);
  course_slots : gmap string (gmap SlotKey Z);
  level_slots : gmap (string * Z) (gmap Day (list time));
  study_plan_slots : gmap (string * Day * time) (list string)
}.

Definition create_empty : SchedulerState :=
  mk_SchedulerState ∅ ∅ ∅ ∅ ∅.

(** The mutable part of a [ConstraintManager]; its two constraint lists are
    fixed by [setup_constraints] and appear below as [hard_constraints] and
    [soft_constraints]. *)
Record ConstraintManager := mk_ConstraintManager {
  state : SchedulerState;
  current_assignments : list (string * Assignment)
}.

Definition initialize_fresh_state : ConstraintManager :=
  mk_ConstraintManager create_empty [].

Definition get_all_assignments (self : ConstraintManager) : list (string * Assignment) :=
  current_assignments self.

Definition assignment_slot_key (a : Assignment) : SlotKey :=
  (day (Assignment.time_slot a), start_time (Assignment.time_slot a)).

Definition assignment_staff_id (a : Assignment) : Z :=
  staff_id (Block.staff_member (Assignment.block a)).

(** *** _verify_no_conflicts_before_commit *)

Fixpoint verify_loop (room_key : RoomKey) (staff : Z) (d : Day) (t : time)
    (items : list (string * Assignment)) : result unit :=
  match items with
  | [] => Ok tt
  | (_, assignment) :: items' =>
      if bool_decide (day (Assignment.time_slot assignment) = d)
         && bool_decide (start_time (Assignment.time_slot assignment) = t) then
        if bool_decide (get_room_key (Assignment.room assignment) = room_key) then
          Raise (Exception "Room already booked")
        else if bool_decide (assignment_staff_id assignment = staff) then
          Raise (Exception "Staff already booked")
        else verify_loop room_key staff d t items'
      else verify_loop room_key staff d t items'
  end.

Definition _verify_no_conflicts_before_commit (self : ConstraintManager)
    (new_assignment : Assignment) : result unit :=
  let d := day (Assignment.time_slot new_assignment) in
  let t := start_time (Assignment.time_slot new_assignment) in
  let room_key := get_room_key (Assignment.room new_assignment) in
  let staff := assignment_staff_id new_assignment in
  verify_loop room_key staff d t (current_assignments self).

(** *** _add_to_state

    Each [with_*] below is one in-place update of the manager.  When the
    method raises, the manager it leaves behind is returned with the
    exception: the updates made so far are not undone here. *)

Definition with_assignments (self : ConstraintManager) (d : list (string * Assignment))
    : ConstraintManager :=
  mk_ConstraintManager (state self) d.

Definition with_room_bookings (self : ConstraintManager)
    (m : gmap RoomKey (gmap SlotKey string)) : ConstraintManager :=
  let s := state self in
  mk_ConstraintManager
    (mk_SchedulerState m (staff_bookings s) (course_slots s) (level_slots s)
       (study_plan_slots s))
    (current_assignments self).

Definition with_staff_bookings (self : ConstraintManager)
    (m : gmap Z (gmap SlotKey string)) : ConstraintManager :=
  let s := state self in
  mk_ConstraintManager
    (mk_SchedulerState (room_bookings s) m (course_slots s) (level_slots s)
       (study_plan_slots s))
    (current_assignments self).

Definition with_course_slots (self : ConstraintManager)
    (m : gmap string (gmap SlotKey Z)) : ConstraintManager :=
  let s := state self in
  mk_ConstraintManager
    (mk_SchedulerState (room_bookings s) (staff_bookings s) m (level_slots s)
       (study_plan_slots s))
    (current_assignments self).

Definition with_level_slots (self : ConstraintManager)
    (m : gmap (string * Z) (gmap Day (list time))) : ConstraintManager :=
  let s := state self in
  mk_ConstraintManager
    (mk_SchedulerState (room_bookings s) (staff_bookings s) (course_slots s) m
       (study_plan_slots s))
    (current_assignments self).

Definition with_study_plan_slots (self : ConstraintManager)
    (m : gmap (string * Day * time) (list string)) : ConstraintManager :=
  let s := state self in
  mk_ConstraintManager
    (mk_SchedulerState (room_bookings s) (staff_bookings s) (course_slots s)
       (level_slots s) m)
    (current_assignments self).

(** [d.setdefault]-like step [if k not in d: d[k] = v0], then the entry. *)
Definition ensure `{Countable K} {V} (k : K) (v0 : V) (m : gmap K V) : gmap K V :=
  match m !! k with
  | Some _ => m
  | None => <[k := v0]> m
  end.

Definition entry `{Countable K} {V} (k : K) (v0 : V) (m : gmap K V) : V :=
  default v0 (m !! k).

Definition update_course_slots (self : ConstraintManager) (code : string) (sk : SlotKey)
    : ConstraintManager :=
  let m := ensure code ∅ (course_slots (state self)) in
  let inner := entry code ∅ m in
  with_course_slots self (<[code := <[sk := default 0 (inner !! sk) + 1]> inner]> m).

Definition update_level_slots (self : ConstraintManager) (level_key : string * Z)
    (d : Day) (t : time) : ConstraintManager :=
  let m := ensure level_key ∅ (level_slots (state self)) in
  let inner := ensure d [] (entry level_key ∅ m) in
  with_level_slots self (<[level_key := <[d := entry d [] inner ++ [t]]> inner]> m).

Definition update_study_plan_slots (self : ConstraintManager)
    (study_plan_key : string * Day * time) (block_id : string) : ConstraintManager :=
  let m := ensure study_plan_key [] (study_plan_slots (state self)) in
  with_study_plan_slots self (<[study_plan_key := entry study_plan_key [] m ++ [block_id]]> m).

Definition _add_to_state (self : ConstraintManager) (block_id : string)
    (assignment : Assignment) : result unit * ConstraintManager :=
  match _verify_no_conflicts_before_commit self assignment with
  | Raise e => (Raise e, self)
  | Ok _ =>
      let block := Assignment.block assignment in
      let sk := assignment_slot_key assignment in
      let room_key := get_room_key (Assignment.room assignment) in
      if dict_mem block_id (current_assignments self) then
        (Raise (Exception "Block already assigned - invalid state"), self)
      else
        (* self.current_assignments[block_id] = assignment *)
        let self := with_assignments self (dict_set block_id assignment (current_assignments self)) in
        (* room bookings *)
        let self := with_room_bookings self (ensure room_key ∅ (room_bookings (state self))) in
        let room_slots := entry room_key ∅ (room_bookings (state self)) in
        if bool_decide (is_Some (room_slots !! sk)) then
          (Raise (Exception "Room conflict"), self)
        else
          let self := with_room_bookings self
                        (<[room_key := <[sk := block_id]> room_slots]> (room_bookings (state self))) in
          (* staff bookings *)
          let staff := staff_id (Block.staff_member block) in
          let self := with_staff_bookings self (ensure staff ∅ (staff_bookings (state self))) in
          let staff_slots := entry staff ∅ (staff_bookings (state self)) in
          if bool_decide (is_Some (staff_slots !! sk)) then
            (Raise (Exception "Staff conflict"), self)
          else
            let self := with_staff_bookings self
                          (<[staff := <[sk := block_id]> staff_slots]> (staff_bookings (state self))) in
            (* other state tracking *)
            let self := update_course_slots self
                          (CourseAssignment.course_code (Block.course_object block)) sk in
            let self := update_level_slots self
                          (Block.academic_list block, Block.academic_level block)
                          (day (Assignment.time_slot assignment))
                          (start_time (Assignment.time_slot assignment)) in
            let self := update_study_plan_slots self
                          (Block.academic_list block,
                           day (Assignment.time_slot assignment),
                           start_time (Assignment.time_slot assignment)) block_id in
            (Ok tt, self)
  end.

(** *** make_assignment

    The snapshots are taken first; the handler puts them back. *)
Definition make_assignment (self : ConstraintManager) (block_id : string)
    (assignment : Assignment) : bool * ConstraintManager :=
  let current_state_snapshot := state self in
  let current_assignments_snapshot := current_assignments self in
  if dict_mem block_id (current_assignments self) then (false, self)
  else
    match _add_to_state self block_id assignment with
    | (Ok _, self') => (true, self')
    | (Raise _, _) =>
        (false, mk_ConstraintManager current_state_snapshot current_assignments_snapshot)
    end.

(** *** Hard constraints *)

Definition check_room_booking (self : ConstraintManager) (block : Block)
    (slot : TimePreference) (room : Room) : bool :=
  let sk := (day slot, start_time slot) in
  let room_key := get_room_key room in
  match room_bookings (state self) !! room_key with
  | None => true
  | Some slots => negb (bool_decide (is_Some (slots !! sk)))
  end.

Definition check_staff_booking (self : ConstraintManager) (block : Block)
    (slot : TimePreference) (room : Room) : bool :=
  let sk := (day slot, start_time slot) in
  let staff := staff_id (Block.staff_member block) in
  match staff_bookings (state self) !! staff with
  | None => true
  | Some slots => negb (bool_decide (is_Some (slots !! sk)))
  end.

Definition check_room_availability (self : ConstraintManager) (block : Block)
    (slot : TimePreference) (room : Room) : bool :=
  existsb (fun pref =>
             bool_decide (day pref = day slot)
             && time_leb (start_time pref) (start_time slot)
             && time_leb (end_time slot) (end_time pref))
    (availability room).

(** The inner lookup loop of [check_single_group_conflict]: the first
    stored assignment whose block carries the given id. *)
Definition lookup_block (self : ConstraintManager) (block_id : string) : option Block :=
  Assignment.block <$>
    List.find (fun a => bool_decide (Block.id (Assignment.block a) = block_id))
      (dict_values (current_assignments self)).

Fixpoint existing_blocks_ok (block : Block) (existing_blocks : list Block) : bool :=
  match existing_blocks with
  | [] => true
  | existing_block :: rest =>
      if Block.is_single_group_course existing_block then false
      else if bool_decide (Block.course_code existing_block
                           = CourseAssignment.course_code (Block.course_object block))
              && ((Block.total_groups block =? 1)
                  || (Block.total_groups existing_block =? 1)) then false
      else existing_blocks_ok block rest
  end.

Definition check_single_group_conflict (self : ConstraintManager) (block : Block)
    (slot : TimePreference) (room : Room) : bool :=
  let sk := (Block.academic_list block, day slot, start_time slot) in
  match study_plan_slots (state self) !! sk with
  | Some block_ids =>
      let existing_blocks := omap (lookup_block self) block_ids in
      if Block.is_single_group_course block then false
      else existing_blocks_ok block existing_blocks
  | None => true
  end.

(** [room in block.preferred_rooms] *)
Definition room_in (room : Room) (rooms : list Room) : bool :=
  existsb (fun r => bool_decide (room = r)) rooms.

Definition check_lab_requirements (self : ConstraintManager) (block : Block)
    (slot : TimePreference) (room : Room) : bool :=
  if bool_decide (Block.required_room_type block = "lab") then
    if negb (is_Lab room) then false
    else if truthy (Block.preferred_rooms block) then
      room_in room (default [] (Block.preferred_rooms block))
    else
      match room with
      | RLab l => Lab.used_in_non_specialist_courses l
      | RHall _ => false
      end
  else if bool_decide (Block.required_room_type block = "hall") && negb (is_Hall room) then false
  else true.

(** The stricter stateless check that the class also defines; it is not
    among the constraints registered by [setup_constraints]. *)
Fixpoint check_student_schedule_conflict (block : Block) (slot : TimePreference)
    (room : Room) (assignments : list Assignment) : bool :=
  match assignments with
  | [] => true
  | existing_assignment :: rest =>
      let existing_block := Assignment.block existing_assignment in
      if bool_decide (Block.academic_list existing_block = Block.academic_list block)
         && bool_decide (Block.academic_level existing_block = Block.academic_level block)
         && bool_decide (day (Assignment.time_slot existing_assignment) = day slot)
         && bool_decide (start_time (Assignment.time_slot existing_assignment) = start_time slot)
      then
        if negb (bool_decide (Block.course_code existing_block
                              = CourseAssignment.course_code (Block.course_object block)))
        then false
        else if negb (bool_decide (Block.block_type existing_block = Block.block_type block))
        then false
        else if bool_decide (Block.group_number existing_block = Block.group_number block)
        then false
        else check_student_schedule_conflict block slot room rest
      else check_student_schedule_conflict block slot room rest
  end.

Abbreviation constraint_func :=
  (ConstraintManager -> Block -> TimePreference -> Room -> bool).

(** [setup_constraints]: the registered hard constraints, in order. *)
Definition hard_constraints : list (constraint_func * string) :=
  [ (check_room_booking, "No double room booking");
    (check_staff_booking, "No double staff booking");
    (check_room_availability, "Room must be available in the given time slot");
    (check_single_group_conflict, "Single group courses cannot have parallel sessions");
    (check_lab_requirements, "Lab specialization and preferences must be met") ].

Fixpoint can_assign_loop (self : ConstraintManager) (block : Block) (slot : TimePreference)
    (room : Room) (cs : list (constraint_func * string)) : bool * option string :=
  match cs with
  | [] => (true, None)
  | (func, description) :: cs' =>
      if func self block slot room then can_assign_loop self block slot room cs'
      else (false, Some description)
  end.

Definition can_assign (self : ConstraintManager) (block : Block) (slot : TimePreference)
    (room : Room) : bool * option string :=
  can_assign_loop self block slot room hard_constraints.

(** *** Soft constraints *)

Definition Qltb (a b : Q) : bool := negb (Qle_bool b a).

Definition prefers (prefs : list TimePreference) (slot : TimePreference) : bool :=
  existsb (fun pref => bool_decide (day pref = day slot)
                       && bool_decide (start_time pref = start_time slot)) prefs.

Definition evaluate_lecturer_preferences (self : ConstraintManager) (block : Block)
    (slot : TimePreference) (room : Room) : Q :=
  if negb (is_Lecturer (Block.staff_member block)) then 0%Q
  else if prefers (timing_preferences (Block.staff_member block)) slot then 1%Q
  else 0%Q.

Definition evaluate_ta_preferences (self : ConstraintManager) (block : Block)
    (slot : TimePreference) (room : Room) : Q :=
  if negb (is_TeachingAssistant (Block.staff_member block)) then 0%Q
  else if prefers (timing_preferences (Block.staff_member block)) slot then 1%Q
  else 0%Q.

(** [max(max_gap, day_slots[i+1].hour - day_slots[i].hour)] over [i]. *)
Fixpoint consecutive_max_gap (day_slots : list time) (max_gap : Z) : Z :=
  match day_slots with
  | a :: ((b :: _) as rest) => consecutive_max_gap rest (Z.max max_gap (hour b - hour a))
  | _ => max_gap
  end.

Definition min_hour (ts : list time) : Z :=
  match ts with
  | [] => 0
  | t :: ts' => fold_left (fun m u => Z.min m (hour u)) ts' (hour t)
  end.

Definition max_hour (ts : list time) : Z :=
  match ts with
  | [] => 0
  | t :: ts' => fold_left (fun m u => Z.max m (hour u)) ts' (hour t)
  end.

Definition evaluate_gaps (self : ConstraintManager) (block : Block)
    (slot : TimePreference) (room : Room) : Q :=
  let level_key := (Block.academic_list block, Block.academic_level block) in
  match level_slots (state self) !! level_key with
  | None => 1%Q
  | Some days =>
      match days !! day slot with
      | None => 1%Q
      | Some times =>
          let day_slots := sorted_by (fun a b => time_ltb b a) (fun t => t) times in
          let max_gap := consecutive_max_gap day_slots 0 in
          let max_gap :=
            match day_slots with
            | [] => max_gap
            | _ =>
                let before_gap := Z.abs (hour (start_time slot) - min_hour day_slots) in
                let after_gap := Z.abs (hour (start_time slot) - max_hour day_slots) in
                Z.max (Z.max max_gap before_gap) after_gap
            end in
          if max_gap <=? 2 then 1%Q
          else if max_gap <=? 4 then (1 # 2)%Q
          else 0%Q
      end
  end.

(** [room.capacity] is positive by the constructors of [Hall] and [Lab]. *)
Definition evaluate_room_capacity (self : ConstraintManager) (block : Block)
    (slot : TimePreference) (room : Room) : Q :=
  let required_capacity := Block.student_count block in
  let utilization := (inject_Z required_capacity / inject_Z (capacity room))%Q in
  if Qle_bool (1 # 2) utilization && Qle_bool utilization (9 # 10) then 1%Q
  else if Qle_bool (3 # 10) utilization && Qltb utilization (1 # 2) then (7 # 10)%Q
  else if Qltb (9 # 10) utilization && Qle_bool utilization 1 then (7 # 10)%Q
  else if Qltb utilization (3 # 10) then (3 # 10)%Q
  else 0%Q.

Abbreviation soft_func :=
  (ConstraintManager -> Block -> TimePreference -> Room -> Q).

Definition soft_constraints : list (soft_func * Q) :=
  [ (evaluate_lecturer_preferences, 5%Q);
    (evaluate_ta_preferences, 3%Q);
    (evaluate_gaps, 2%Q);
    (evaluate_room_capacity, (3 # 2)%Q) ].

Definition evaluate_soft_constraints (self : ConstraintManager) (block : Block)
    (slot : TimePreference) (room : Room) : Q :=
  fold_left (fun total_score '(func, weight) =>
               (total_score + func self block slot room * weight)%Q)
    soft_constraints 0%Q.

(** ** managers/resource_manager.py *)

Record ResourceManager := mk_ResourceManager {
  halls : list (Z * Hall);
  labs : list (Z * Lab);
  time_slot_duration : Z;
  break_duration : Z;
  general_labs : list Z;
  time_slots : list TimePreference
}.

(** *** _generate_time_slots

    As above the [while] loop runs on [fuel], and [None] is a loop that
    would not stop. *)

Fixpoint time_slots_day (fuel : nat) (duration break : Z) (d : Day) (current_time : time)
    : option (result (list TimePreference)) :=
  match fuel with
  | O => None
  | S fuel' =>
      if hour current_time + duration <=? 19 then
        if bool_decide (d = MONDAY)
           && ((hour current_time =? 13) || (hour current_time =? 14)) then
          match time_new (hour current_time + 1) 0 with
          | Raise e => Some (Raise e)
          | Ok t => time_slots_day fuel' duration break d t
          end
        else
          match time_new (hour current_time + duration) 0 with
          | Raise e => Some (Raise e)
          | Ok slot_end =>
              let next :=
                if 0 <? break then time_new (hour current_time + duration + break) 0
                else time_new (hour current_time + duration) 0 in
              match next with
              | Raise e => Some (Raise e)
              | Ok t =>
                  match time_slots_day fuel' duration break d t with
                  | Some (Ok rest) =>
                      Some (Ok (mk_TimePreference d current_time slot_end :: rest))
                  | other => other
                  end
              end
          end
      else Some (Ok [])
  end.

Definition _generate_time_slots (duration break : Z) : option (result (list TimePreference)) :=
  for_days (fun d => time_slots_day 64 duration break d (mk_time 9 0)) working_days.

(** [_categorize_labs] *)
Definition _categorize_labs (labs : list (Z * Lab)) : list Z :=
  map fst (filter (fun p => Lab.used_in_non_specialist_courses p.2 = true) labs).

(** [ResourceManager(halls, labs, time_slot_duration, break_duration)] *)
Definition ResourceManager_init (hs : list Hall) (ls : list Lab)
    (duration break : Z) : option (result ResourceManager) :=
  let halls := zdict_of_list Hall.id hs in
  let labs := zdict_of_list Lab.id ls in
  match _generate_time_slots duration break with
  | Some (Ok slots) =>
      Some (Ok (mk_ResourceManager halls labs duration break (_categorize_labs labs) slots))
  | Some (Raise e) => Some (Raise e)
  | None => None
  end.

(** *** get_suitable_rooms

    [float(z)], to which [int * float] converts its integer operand: the
    binary64 float nearest to [z], ties to even.  (From [2 ^ 1024] on, where
    this is an infinity, the interpreter raises [OverflowError]; the facts
    below on the gate are for counts far below that.) *)
Definition float_of_int (z : Z) : float := SF2Prim (binary_normalize prec emax z 0 false).

(** [i >= x] for an integer [i] and a float [x]: Python compares the two
    exact values. *)
Definition int_ge_float (i : Z) (x : float) : bool :=
  match Prim2SF x with
  | S754_zero _ => 0 <=? i
  | S754_infinity s => s
  | S754_nan => false
  | S754_finite s m e =>
      let v := if s then Z.neg m else Z.pos m in
      if 0 <=? e then v * 2 ^ e <=? i else v <=? i * 2 ^ (- e)
  end.

(** [cap >= required_capacity * preferred_capacity_ratio] *)
Definition capacity_ok (ratio : float) (required_capacity cap : Z) : bool :=
  int_ge_float cap (float_of_int required_capacity * ratio)%float.

(** The literal [0.8]: the binary64 float nearest to it. *)
Definition default_ratio : float := 0x1.999999999999ap-1%float.

Definition get_suitable_rooms_with (self : ResourceManager) (block : Block)
    (preferred_capacity_ratio : float) : list Room :=
  let required_capacity := Block.student_count block in
  let suitable_rooms :=
    if bool_decide (Block.required_room_type block = "lab") then
      if truthy (Block.preferred_rooms block) then
        filter (fun lab => capacity_ok preferred_capacity_ratio required_capacity (capacity lab) = true)
          (default [] (Block.preferred_rooms block))
      else
        map RLab
          (filter (fun lab =>
                     Lab.used_in_non_specialist_courses lab
                     && capacity_ok preferred_capacity_ratio required_capacity (Lab.capacity lab) = true)
             (map snd (labs self)))
    else
      map RHall
        (filter (fun hall =>
                   capacity_ok preferred_capacity_ratio required_capacity (Hall.capacity hall) = true)
           (map snd (halls self))) in
  sorted_by Z.gtb (fun r => Z.abs (capacity r - required_capacity)) suitable_rooms.

Definition get_suitable_rooms (self : ResourceManager) (block : Block) : list Room :=
  get_suitable_rooms_with self block default_ratio.

(** [set(...)] of a list, as the list of its distinct elements. *)
Definition set_of (l : list SlotKey) : list SlotKey := remove_dups l.

Section engine.
(** The order in which Python iterates over a set of slot identities,
    given the distinct elements of the set.  (The interpreter's order also
    depends on how the set was built; what is proved of the candidate slots
    uses only that every element comes once.) *)
Variable set_order : list SlotKey -> list SlotKey.

(** *** get_available_slots *)

Definition free_slot_keys (room : Room) (existing_assignments : list (string * Assignment))
    : list SlotKey :=
  let base_slots := set_of (map slot_key (availability room)) in
  let used_slots :=
    set_of (map assignment_slot_key
              (filter (fun a => Assignment.room a = room) (dict_values existing_assignments))) in
  filter (fun k => k ∉ used_slots) base_slots.

Definition get_available_slots (self : ResourceManager) (block : Block) (room : Room)
    (existing_assignments : list (string * Assignment)) : result (list TimePreference) :=
  let staff_slots := set_of (map slot_key (timing_preferences (Block.staff_member block))) in
  let available_slot_tuples := free_slot_keys room existing_assignments in
  let available_slot_tuples :=
    if is_TeachingAssistant (Block.staff_member block) then
      sorted_by (fun a b : bool => negb a && b)
        (fun x => bool_decide (x ∈ staff_slots)) (set_order available_slot_tuples)
    else
      set_order (filter (fun k => k ∈ staff_slots) available_slot_tuples) in
  mapM (fun '(d, start) =>
          finish <- time_new (hour start + time_slot_duration self) 0 ;;
          Ok (mk_TimePreference d start finish))
    available_slot_tuples.

End engine.

(** ** scheduler.py *)

(** *** _convert_course_assignments_to_blocks *)

Definition lecture_block (course : CourseAssignment) (study_plan : StudyPlan)
    (lecturer : StaffMember.t) (lecture_group_count : Z) : Block :=
  Block.mk
    ("L_" +:+ CourseAssignment.course_code course +:+ "_"
       +:+ pretty (StaffMember.id lecturer) +:+ "_" +:+ pretty lecture_group_count)
    (CourseAssignment.course_code course)
    course
    LECTURE
    (Lecturer lecturer)
    (StudyPlan.expected_students study_plan / CourseAssignment.lecture_groups course)
    "hall"
    lecture_group_count
    (CourseAssignment.lecture_groups course)
    (bool_decide (CourseAssignment.lecture_groups course = 1))
    (AcademicList.name (StudyPlan.academic_list study_plan))
    (StudyPlan.academic_list study_plan)
    (StudyPlan.academic_level study_plan)
    true
    None.

Definition lab_block (course : CourseAssignment) (study_plan : StudyPlan)
    (ta : StaffMember.t) (lab_groups lab_group_count : Z) : Block :=
  Block.mk
    ("P_" +:+ CourseAssignment.course_code course +:+ "_"
       +:+ pretty (StaffMember.id ta) +:+ "_" +:+ pretty lab_group_count)
    (CourseAssignment.course_code course)
    course
    LAB
    (TeachingAssistant ta)
    (StudyPlan.expected_students study_plan / lab_groups)
    (if CourseAssignment.practical_in_lab course then "lab" else "hall")
    lab_group_count
    lab_groups
    (bool_decide (lab_groups = 1))
    (AcademicList.name (StudyPlan.academic_list study_plan))
    (StudyPlan.academic_list study_plan)
    (StudyPlan.academic_level study_plan)
    (CourseAssignment.practical_in_lab course)
    (option_map (map RLab) (CourseAssignment.preferred_labs course)).

(** [a // b] *)
Definition floordiv (a b : Z) : result Z :=
  if b =? 0 then Raise ZeroDivisionError else Ok (a / b).

(** [Block(...)] as the loop bodies evaluate it: the floor division in the
    argument [student_count] comes first. *)
Definition new_lecture_block (course : CourseAssignment) (study_plan : StudyPlan)
    (lecturer : StaffMember.t) (lecture_group_count : Z) : result Block :=
  _ <- floordiv (StudyPlan.expected_students study_plan)
         (CourseAssignment.lecture_groups course) ;;
  Ok (lecture_block course study_plan lecturer lecture_group_count).

Definition new_lab_block (course : CourseAssignment) (study_plan : StudyPlan)
    (ta : StaffMember.t) (lab_groups lab_group_count : Z) : result Block :=
  _ <- floordiv (StudyPlan.expected_students study_plan) lab_groups ;;
  Ok (lab_block course study_plan ta lab_groups lab_group_count).

(** [for group_idx in range(num_groups)] inside the [try] of one entry: the
    blocks appended and the counter, either when the loop ends or when a
    block raises and [except Exception] abandons the entry. *)
Fixpoint group_blocks (mk : Z -> result Block) (num_groups : nat) (count : Z)
    : list Block * Z :=
  match num_groups with
  | O => ([], count)
  | S n =>
      match mk count with
      | Ok block => let '(bs, c) := group_blocks mk n (count + 1) in (block :: bs, c)
      | Raise _ => ([], count)
      end
  end.

(** [for lecturer_assignment in course.lecturers]: an entry without a
    lecturer is skipped. *)
Fixpoint lecture_blocks (course : CourseAssignment) (study_plan : StudyPlan)
    (ls : list LecturerAssignment) (count : Z) : list Block :=
  match ls with
  | [] => []
  | la :: ls' =>
      match lecturer la with
      | None => lecture_blocks course study_plan ls' count
      | Some lecturer =>
          let '(bs, c) :=
            group_blocks (new_lecture_block course study_plan lecturer)
              (Z.to_nat (lecturer_num_of_groups la)) count in
          bs ++ lecture_blocks course study_plan ls' c
      end
  end.

(** [for ta_assignment in course.teaching_assistants]: an entry without a
    teaching assistant is skipped. *)
Fixpoint lab_blocks (course : CourseAssignment) (study_plan : StudyPlan) (lab_groups : Z)
    (tas : list TAAssignment) (count : Z) : list Block :=
  match tas with
  | [] => []
  | ta_assignment :: tas' =>
      match teaching_assistant ta_assignment with
      | None => lab_blocks course study_plan lab_groups tas' count
      | Some ta =>
          let '(bs, c) :=
            group_blocks (new_lab_block course study_plan ta lab_groups)
              (Z.to_nat (ta_num_of_groups ta_assignment)) count in
          bs ++ lab_blocks course study_plan lab_groups tas' c
      end
  end.

Definition course_blocks (course : CourseAssignment) (study_plan : StudyPlan) : list Block :=
  lecture_blocks course study_plan (CourseAssignment.lecturers course) 1
  ++ match CourseAssignment.lab_groups course with
     | Some lab_groups =>
         if (0 <? lab_groups) && truthy (CourseAssignment.teaching_assistants course) then
           lab_blocks course study_plan lab_groups
             (default [] (CourseAssignment.teaching_assistants course)) 1
         else []
     | None => []
     end.

Fixpoint convert_from (i : nat) (course_assignments : list CourseAssignment)
    (study_plan_mapping : gmap nat StudyPlan) : result (list Block) :=
  match course_assignments with
  | [] => Ok []
  | course :: rest =>
      match study_plan_mapping !! i with
      | None => Raise KeyError
      | Some study_plan =>
          bs <- convert_from (S i) rest study_plan_mapping ;;
          Ok (course_blocks course study_plan ++ bs)
      end
  end.

Definition _convert_course_assignments_to_blocks
    (course_assignments : list CourseAssignment) (study_plan_mapping : gmap nat StudyPlan)
    : result (list Block) :=
  convert_from 0 course_assignments study_plan_mapping.

(** One finished attempt: the assignments of the manager, the number of
    committed blocks and the mean soft score. *)
Record Attempt := mk_Attempt {
  attempt_assignments : list (string * Assignment);
  scheduled_count : Z;
  attempt_score : Q
}.

(** The three [best_*] variables of [schedule_blocks]. *)
Record Best := mk_Best {
  best_assignments : list (string * Assignment);
  best_score : Q;
  best_count : Z
}.

Definition initial_best : Best := mk_Best [] 0%Q 0.

(** The priority tuple of a block and the order [<] of Python on it. *)
Abbreviation block_score := (bool * Z * Z * Q)%type.

Definition bool_ltb (a b : bool) : bool := negb a && b.

Definition block_score_ltb (a b : block_score) : bool :=
  let '(a1, a2, a3, a4) := a in
  let '(b1, b2, b3, b4) := b in
  if negb (bool_decide (a1 = b1)) then bool_ltb a1 b1
  else if negb (a2 =? b2) then a2 <? b2
  else if negb (a3 =? b3) then a3 <? b3
  else Qltb a4 b4.

Section scheduler.
Variable set_order : list SlotKey -> list SlotKey.
Variable resource_manager : ResourceManager.

(** *** _schedule_single_block *)

Fixpoint schedule_in_rooms (cm : ConstraintManager) (block : Block) (possible_rooms : list Room)
    : result (option Assignment) :=
  match possible_rooms with
  | [] => Ok None
  | room :: rest =>
      available_slots <-
        get_available_slots set_order resource_manager block room (get_all_assignments cm) ;;
      match List.find (fun slot => (can_assign cm block slot room).1) available_slots with
      | Some slot => Ok (Some (Assignment.mk block slot room))
      | None => schedule_in_rooms cm block rest
      end
  end.

Definition _schedule_single_block (cm : ConstraintManager) (block : Block)
    : result (option Assignment) :=
  schedule_in_rooms cm block (get_suitable_rooms resource_manager block).

(** *** _calculate_block_priority

    The sum is taken on exact rationals.  The code adds binary64 floats,
    whose rounding can tell apart two scores that are equal here. *)

Definition _calculate_block_priority (block : Block) : Q :=
  let score := 0%Q in
  let score := if truthy (Block.preferred_rooms block) then (score + 10)%Q else score in
  let score := if Block.is_single_group_course block then (score + 20)%Q else score in
  let score := if is_Lecturer (Block.staff_member block) then (score + 15)%Q else score in
  let score :=
    if bool_decide (Block.required_room_type block = "lab") then (score + 8)%Q else score in
  (score + inject_Z (Block.student_count block) / 100)%Q.

(** *** _sort_blocks_by_priority *)

Fixpoint total_available (cm : ConstraintManager) (block : Block) (rooms : list Room)
    (total_available_slots : Z) : result Z :=
  match rooms with
  | [] => Ok total_available_slots
  | room :: rest =>
      available_slots <-
        get_available_slots set_order resource_manager block room (get_all_assignments cm) ;;
      total_available cm block rest (total_available_slots + Z.of_nat (length available_slots))
  end.

Definition get_block_score (cm : ConstraintManager) (block : Block) : result block_score :=
  let possible_rooms := get_suitable_rooms resource_manager block in
  total_available_slots <- total_available cm block possible_rooms 0 ;;
  let priority_score := _calculate_block_priority block in
  Ok (Block.is_single_group_course block,
      - Z.of_nat (length possible_rooms),
      - total_available_slots,
      priority_score).

(** [sorted(blocks, key=get_block_score, reverse=True)]: every key is
    computed before the sort. *)
Definition _sort_blocks_by_priority (cm : ConstraintManager) (blocks : list Block)
    : result (list Block) :=
  keyed <- mapM (fun block => score <- get_block_score cm block ;; Ok (score, block)) blocks ;;
  Ok (map snd (sorted_by block_score_ltb fst keyed)).

(** *** _evaluate_schedule *)

Definition _evaluate_schedule (cm : ConstraintManager)
    (assignments : list (string * Assignment)) : Q :=
  match assignments with
  | [] => 0%Q
  | _ =>
      let total_score :=
        fold_left (fun total a =>
                     (total + evaluate_soft_constraints cm (Assignment.block a)
                                (Assignment.time_slot a) (Assignment.room a))%Q)
          (dict_values assignments) 0%Q in
      (total_score / inject_Z (Z.of_nat (length assignments)))%Q
  end.

(** *** schedule_blocks: the body of one attempt *)

Fixpoint place_blocks (cm : ConstraintManager) (sorted_blocks : list Block) (count : Z)
    : result (ConstraintManager * Z) :=
  match sorted_blocks with
  | [] => Ok (cm, count)
  | block :: rest =>
      assignment <- _schedule_single_block cm block ;;
      match assignment with
      | Some assignment =>
          let '(success, cm') := make_assignment cm (Block.id block) assignment in
          if success then place_blocks cm' rest (count + 1)
          else place_blocks cm' rest count
      | None => place_blocks cm rest count
      end
  end.

Definition run_attempt (blocks : list Block) : result Attempt :=
  let cm := initialize_fresh_state in
  sorted_blocks <- _sort_blocks_by_priority cm blocks ;;
  placed <- place_blocks cm sorted_blocks 0 ;;
  let '(cm, count) := placed in
  let current_assignments := get_all_assignments cm in
  Ok (mk_Attempt current_assignments count (_evaluate_schedule cm current_assignments)).
End scheduler.

(** *** schedule_blocks: the loop over attempts

    [attempt_body k] is the body of attempt [k]; [remaining] counts the
    attempts still to run. *)

Definition update_best (best : Best) (a : Attempt) : Best :=
  if (best_count best <? scheduled_count a)
     || ((scheduled_count a =? best_count best) && Qltb (best_score best) (attempt_score a))
  then mk_Best (attempt_assignments a) (attempt_score a) (scheduled_count a)
  else best.

Definition perfect (total_blocks : Z) (a : Attempt) : bool :=
  (scheduled_count a =? total_blocks) && Qle_bool (95 # 100) (attempt_score a).

Fixpoint attempts_loop (attempt_body : nat -> result Attempt) (total_blocks : Z)
    (remaining : nat) (attempt : nat) (best : Best) : result Best :=
  match remaining with
  | O => Ok best
  | S remaining' =>
      a <- attempt_body attempt ;;
      let best := update_best best a in
      if perfect total_blocks a then Ok best
      else attempts_loop attempt_body total_blocks remaining' (S attempt) best
  end.

Definition select_best (attempt_body : nat -> result Attempt) (total_blocks : Z)
    (max_attempts : Z) : result (list (string * Assignment)) :=
  best <- attempts_loop attempt_body total_blocks (Z.to_nat max_attempts) 0%nat initial_best ;;
  match best_assignments best with
  | [] => Raise (ValueError "Could not find a valid schedule")
  | _ => Ok (best_assignments best)
  end.

Definition schedule_blocks (set_order : list SlotKey -> list SlotKey)
    (resource_manager : ResourceManager)
    (course_assignments : list CourseAssignment) (study_plan_mapping : gmap nat StudyPlan)
    (max_attempts : Z) : result (list (string * Assignment)) :=
  blocks <- _convert_course_assignments_to_blocks course_assignments study_plan_mapping ;;
  let total_blocks := Z.of_nat (length blocks) in
  select_best (fun _ => run_attempt set_order resource_manager blocks) total_blocks max_attempts.

(** * Further functions of the managers, the engine and its callers *)

(** ** Grouping into a dictionary of lists

    [d[k].append(v)] after [if k not in d: d[k] = []], and the same step on a
    [defaultdict(list)]: a known key keeps its position, a new key goes
    last. *)

Fixpoint group_append {K V} `{EqDecision K} (k : K) (v : V) (d : list (K * list V))
    : list (K * list V) :=
  match d with
  | [] => [(k, [v])]
  | (k', vs) :: d' =>
      if decide (k' = k) then (k', vs ++ [v]) :: d' else (k', vs) :: group_append k v d'
  end.

Definition group_by {A K V} `{EqDecision K} (key : A -> K) (val : A -> V) (items : list A)
    : list (K * list V) :=
  fold_left (fun d x => group_append (key x) (val x) d) items [].

(** ** managers/constraint_manager.py: _verify_no_conflicts_in_slot *)

Definition repr_room_key (room_key : RoomKey) : string :=
  "('" +:+ room_key.1 +:+ "', " +:+ pretty room_key.2 +:+ ")".

Fixpoint slot_conflict_loop (rooms_used : gset RoomKey) (staff_used : gset Z)
    (assignments_in_slot : list (string * Assignment)) : result unit :=
  match assignments_in_slot with
  | [] => Ok tt
  | (_, assignment) :: rest =>
      let room_key := get_room_key (Assignment.room assignment) in
      let staff := assignment_staff_id assignment in
      if bool_decide (room_key ∈ rooms_used) then
        Raise (Exception ("Room conflict detected for " +:+ repr_room_key room_key))
      else if bool_decide (staff ∈ staff_used) then
        Raise (Exception ("Staff conflict detected for " +:+ pretty staff))
      else slot_conflict_loop ({[room_key]} ∪ rooms_used) ({[staff]} ∪ staff_used) rest
  end.

Definition _verify_no_conflicts_in_slot (self : ConstraintManager) (slot : TimePreference)
    : result unit :=
  let slot_key := (day slot, start_time slot) in
  let assignments_in_slot :=
    filter (fun item => assignment_slot_key item.2 = slot_key) (current_assignments self) in
  if (length assignments_in_slot <=? 1)%nat then Ok tt
  else slot_conflict_loop ∅ ∅ assignments_in_slot.

(** ** managers/resource_manager.py: usage counters

    The two [defaultdict(int)] attributes of a [ResourceManager], which the
    four methods below read and update. *)

Record ResourceUsage := mk_ResourceUsage {
  room_usage : gmap RoomKey Z;
  staff_workload : gmap Z Z
}.

(** The counters of a new [ResourceManager]. *)
Definition no_usage : ResourceUsage := mk_ResourceUsage ∅ ∅.

(** [d[k]] on a [defaultdict(int)]: a missing key is entered with [0]. *)
Definition counter_get `{Countable K} (d : gmap K Z) (k : K) : Z * gmap K Z :=
  match d !! k with
  | Some n => (n, d)
  | None => (0, <[k := 0]> d)
  end.

(** [d[k] += 1] *)
Definition counter_incr `{Countable K} (d : gmap K Z) (k : K) : gmap K Z :=
  let '(n, d) := counter_get d k in <[k := n + 1]> d.

Definition update_resource_usage (self : ResourceUsage) (assignment : Assignment)
    : ResourceUsage :=
  let room_key := get_room_key (Assignment.room assignment) in
  let self := mk_ResourceUsage (counter_incr (room_usage self) room_key) (staff_workload self) in
  mk_ResourceUsage (room_usage self)
    (counter_incr (staff_workload self) (assignment_staff_id assignment)).

(** [get_resource_usage_stats]: copies of the two dictionaries. *)
Definition get_resource_usage_stats (self : ResourceUsage) : gmap RoomKey Z * gmap Z Z :=
  (room_usage self, staff_workload self).

(** [min(xs, key=...)]: the keys are computed once, in order; the first
    element with the least key wins.  On an empty list it raises
    [ValueError]; the wording of the message is the interpreter's. *)
Fixpoint counter_keys `{Countable K} {A} (key : A -> K) (d : gmap K Z) (xs : list A)
    : list (Z * A) * gmap K Z :=
  match xs with
  | [] => ([], d)
  | x :: xs' =>
      let '(n, d) := counter_get d (key x) in
      let '(keyed, d) := counter_keys key d xs' in
      ((n, x) :: keyed, d)
  end.

Definition min_keyed {A} (keyed : list (Z * A)) : result A :=
  match keyed with
  | [] => Raise (ValueError "min() arg is an empty sequence")
  | first :: rest =>
      Ok (fold_left (fun best item => if item.1 <? best.1 then item else best) rest first).2
  end.

Definition get_least_used_room (self : ResourceUsage) (suitable_rooms : list Room)
    : result Room * ResourceUsage :=
  let '(keyed, usage) := counter_keys get_room_key (room_usage self) suitable_rooms in
  (min_keyed keyed, mk_ResourceUsage usage (staff_workload self)).

Definition balance_staff_workload (self : ResourceUsage) (block : Block)
    (possible_staff : list Staff) : result Staff * ResourceUsage :=
  let '(keyed, workload) := counter_keys staff_id (staff_workload self) possible_staff in
  (min_keyed keyed, mk_ResourceUsage (room_usage self) workload).

(** ** scheduler.py: the two verifications of a finished schedule *)

Definition by_time_slot (assignments : list (string * Assignment))
    : list (SlotKey * list (string * Assignment)) :=
  group_by (fun item => assignment_slot_key item.2) (fun item => item) assignments.

(** *** _verify_no_conflicts_in_assignments *)

Fixpoint slot_free_loop (rooms_used : gset RoomKey) (staff_used : gset Z)
    (time_assignments : list (string * Assignment)) : bool :=
  match time_assignments with
  | [] => true
  | (_, assignment) :: rest =>
      let room_key := get_room_key (Assignment.room assignment) in
      let staff := assignment_staff_id assignment in
      if bool_decide (room_key ∈ rooms_used) then false
      else if bool_decide (staff ∈ staff_used) then false
      else slot_free_loop ({[room_key]} ∪ rooms_used) ({[staff]} ∪ staff_used) rest
  end.

Definition _verify_no_conflicts_in_assignments (assignments : list (string * Assignment))
    : bool :=
  forallb (fun group => slot_free_loop ∅ ∅ group.2) (by_time_slot assignments).

(** *** _verify_final_schedule

    Here a conflict sets a flag and the loops go on; the two dictionaries
    remember the first block seen for a room key and for a staff id. *)

Fixpoint final_slot_loop (rooms_used : gmap RoomKey string) (staff_used : gmap Z string)
    (conflicts_found : bool) (slot_assignments : list (string * Assignment)) : bool :=
  match slot_assignments with
  | [] => conflicts_found
  | (block_id, assignment) :: rest =>
      let room_key := get_room_key (Assignment.room assignment) in
      let staff := assignment_staff_id assignment in
      let '(conflicts_found, rooms_used) :=
        if bool_decide (is_Some (rooms_used !! room_key)) then (true, rooms_used)
        else (conflicts_found, <[room_key := block_id]> rooms_used) in
      let '(conflicts_found, staff_used) :=
        if bool_decide (is_Some (staff_used !! staff)) then (true, staff_used)
        else (conflicts_found, <[staff := block_id]> staff_used) in
      final_slot_loop rooms_used staff_used conflicts_found rest
  end.

Definition _verify_final_schedule (assignments : list (string * Assignment)) : bool :=
  let conflicts_found :=
    fold_left (fun conflicts_found group =>
                 if (1 <? length group.2)%nat then final_slot_loop ∅ ∅ conflicts_found group.2
                 else conflicts_found)
      (by_time_slot assignments) false in
  negb conflicts_found.

(** ** models/study_plan.py: CourseAssignment.__post_init__ *)

Inductive init_error :=
| InitValueError (msg : string)
| InitTypeError (msg : string).

(** The outcome of a dataclass constructor: the object, or what
    [__post_init__] raised. *)
Inductive constructed :=
| Constructed
| Rejected (e : init_error).

(** [sum(...)] of integers. *)
Definition sum_list (l : list Z) : Z := foldr Z.add 0 l.

Definition CourseAssignment_post_init (self : CourseAssignment) : constructed :=
  if CourseAssignment.lecture_groups self <=? 0 then
    Rejected (InitValueError "Must have at least one lecture group")
  else if bool_decide (CourseAssignment.lecturers self = []) then
    Rejected (InitValueError "Must have at least one lecturer assigned")
  else
    let total_lecturer_groups :=
      sum_list (map lecturer_num_of_groups (CourseAssignment.lecturers self)) in
    if negb (total_lecturer_groups =? CourseAssignment.lecture_groups self) then
      Rejected (InitValueError
                  ("Sum of lecturer groups (" +:+ pretty total_lecturer_groups
                     +:+ ") must equal total lecture groups ("
                     +:+ pretty (CourseAssignment.lecture_groups self) +:+ ")"))
    else
      match CourseAssignment.lab_groups self with
      | None =>
          Rejected (InitTypeError
                      "'>' not supported between instances of 'NoneType' and 'int'")
      | Some lab_groups =>
          if 0 <? lab_groups then
            if negb (truthy (CourseAssignment.teaching_assistants self)) then
              Rejected (InitValueError "Must assign teaching assistants if lab groups exist")
            else
              let total_ta_groups :=
                sum_list (map ta_num_of_groups
                            (default [] (CourseAssignment.teaching_assistants self))) in
              if negb (total_ta_groups =? lab_groups) then
                Rejected (InitValueError
                            ("Sum of teaching assistant groups (" +:+ pretty total_ta_groups
                               +:+ ") must equal total lab groups ("
                               +:+ pretty lab_groups +:+ ")"))
              else Constructed
          else Constructed
      end.

(** ** main.py: collecting the course assignments of all study plans *)

Definition collect_plan (study_plan : StudyPlan)
    (acc : list CourseAssignment * gmap nat StudyPlan)
    : list CourseAssignment * gmap nat StudyPlan :=
  fold_left (fun '(all_course_assignments, study_plan_mapping) course_assignment =>
               let course_index := length all_course_assignments in
               (all_course_assignments ++ [course_assignment],
                <[course_index := study_plan]> study_plan_mapping))
    (StudyPlan.course_assignments study_plan) acc.

Definition collect_course_assignments (study_plans : list StudyPlan)
    : list CourseAssignment * gmap nat StudyPlan :=
  fold_left (fun acc study_plan => collect_plan study_plan acc) study_plans ([], ∅).

(** ** schedule_validator.py: the comprehensive validation of a schedule *)

(** The values kept in the [details] dictionary of a report: integers,
    strings, lists of course codes and room keys. *)
Inductive detail :=
| DInt (z : Z)
| DStr (s : string)
| DStrList (l : list string)
| DRoomKey (room_key : RoomKey).

Record ConflictReport := mk_ConflictReport {
  conflict_type : string;
  description : string;
  affected_assignments : list string;
  details : list (string * detail)
}.

(** [day.name] *)
Definition Day_name (d : Day) : string :=
  match d with
  | SUNDAY => "SUNDAY" | MONDAY => "MONDAY" | TUESDAY => "TUESDAY"
  | WEDNESDAY => "WEDNESDAY" | THURSDAY => "THURSDAY" | FRIDAY => "FRIDAY"
  | SATURDAY => "SATURDAY"
  end.

(** Two digits, as [%02d] prints an hour or a minute. *)
Definition two_digits (z : Z) : string :=
  if z <? 10 then "0" +:+ pretty z else pretty z.

(** [str(t)] of a [datetime.time] without seconds: [HH:MM:00]. *)
Definition time_str (t : time) : string :=
  two_digits (hour t) +:+ ":" +:+ two_digits (minute t) +:+ ":00".

Definition room_name (room : Room) : string :=
  match room with RHall h => Hall.name h | RLab l => Lab.name l end.

(** [assignments[aid]] *)
Definition assignment_of (assignments : list (string * Assignment)) (aid : string)
    : result Assignment :=
  match dict_get aid assignments with
  | Some a => Ok a
  | None => Raise KeyError
  end.

Definition course_code_of (assignments : list (string * Assignment)) (aid : string)
    : result string :=
  a <- assignment_of assignments aid ;;
  Ok (CourseAssignment.course_code (Block.course_object (Assignment.block a))).

Section validator.
(** The order in which Python iterates over a set of course codes, given
    its distinct elements. *)
Variable code_order : list string -> list string.

(** *** _check_room_conflicts *)

Definition room_conflict_report (assignments : list (string * Assignment))
    (group : RoomKey * Day * time * list string) : result (list ConflictReport) :=
  let '(room_id, d, t, assignment_ids) := group in
  match assignment_ids with
  | first :: _ :: _ =>
      a <- assignment_of assignments first ;;
      let room_name := room_name (Assignment.room a) in
      courses <- mapM (course_code_of assignments) assignment_ids ;;
      Ok [mk_ConflictReport "ROOM_CONFLICT"
            ("Room " +:+ room_name +:+ " double-booked at " +:+ Day_name d +:+ " "
               +:+ time_str t)
            assignment_ids
            [("room_id", DRoomKey room_id);
             ("room_name", DStr room_name);
             ("day", DStr (Day_name d));
             ("time", DStr (time_str t));
             ("conflicting_courses", DStrList courses)]]
  | _ => Ok []
  end.

Definition _check_room_conflicts (assignments : list (string * Assignment))
    : result (list ConflictReport) :=
  let room_bookings :=
    group_by (fun item => (get_room_key (Assignment.room item.2),
                           day (Assignment.time_slot item.2),
                           start_time (Assignment.time_slot item.2)))
      fst assignments in
  reports <- mapM (room_conflict_report assignments) room_bookings ;;
  Ok (concat reports).

(** *** _check_staff_conflicts *)

Definition staff_conflict_report (assignments : list (string * Assignment))
    (group : Z * Day * time * list string) : result (list ConflictReport) :=
  let '(staff, d, t, assignment_ids) := group in
  match assignment_ids with
  | first :: _ :: _ =>
      a <- assignment_of assignments first ;;
      let staff_name := StaffMember.name (staff_record (Block.staff_member (Assignment.block a))) in
      courses <- mapM (course_code_of assignments) assignment_ids ;;
      Ok [mk_ConflictReport "STAFF_CONFLICT"
            ("Staff " +:+ staff_name +:+ " double-booked at " +:+ Day_name d +:+ " "
               +:+ time_str t)
            assignment_ids
            [("staff_id", DInt staff);
             ("staff_name", DStr staff_name);
             ("day", DStr (Day_name d));
             ("time", DStr (time_str t));
             ("conflicting_courses", DStrList courses)]]
  | _ => Ok []
  end.

Definition _check_staff_conflicts (assignments : list (string * Assignment))
    : result (list ConflictReport) :=
  let staff_bookings :=
    group_by (fun item => (assignment_staff_id item.2,
                           day (Assignment.time_slot item.2),
                           start_time (Assignment.time_slot item.2)))
      fst assignments in
  reports <- mapM (staff_conflict_report assignments) staff_bookings ;;
  Ok (concat reports).

(** *** _check_student_conflicts *)

Definition student_conflict_report (assignments : list (string * Assignment))
    (group : string * Z * Day * time * list string) : result (list ConflictReport) :=
  let '(academic_list, level, d, t, assignment_ids) := group in
  match assignment_ids with
  | _ :: _ :: _ =>
      codes <- mapM (course_code_of assignments) assignment_ids ;;
      let courses := remove_dups codes in
      if (1 <? length courses)%nat then
        Ok [mk_ConflictReport "STUDENT_CONFLICT"
              ("Student conflict for " +:+ academic_list +:+ " Level " +:+ pretty level
                 +:+ " at " +:+ Day_name d +:+ " " +:+ time_str t)
              assignment_ids
              [("academic_list", DStr academic_list);
               ("academic_level", DInt level);
               ("day", DStr (Day_name d));
               ("time", DStr (time_str t));
               ("conflicting_courses", DStrList (code_order courses))]]
      else Ok []
  | _ => Ok []
  end.

Definition _check_student_conflicts (assignments : list (string * Assignment))
    : result (list ConflictReport) :=
  let student_bookings :=
    group_by (fun item => (Block.academic_list (Assignment.block item.2),
                           Block.academic_level (Assignment.block item.2),
                           day (Assignment.time_slot item.2),
                           start_time (Assignment.time_slot item.2)))
      fst assignments in
  reports <- mapM (student_conflict_report assignments) student_bookings ;;
  Ok (concat reports).

(** *** _check_room_availability_conflicts *)

Definition room_availability_report (item : string * Assignment) : list ConflictReport :=
  let '(assignment_id, assignment) := item in
  let room := Assignment.room assignment in
  let time_slot := Assignment.time_slot assignment in
  let is_available :=
    existsb (fun availability =>
               bool_decide (day availability = day time_slot)
               && time_leb (start_time availability) (start_time time_slot)
               && time_leb (end_time time_slot) (end_time availability))
      (availability room) in
  if negb is_available then
    [mk_ConflictReport "ROOM_AVAILABILITY_CONFLICT"
       ("Room " +:+ room_name room +:+ " used outside availability")
       [assignment_id]
       [("room_name", DStr (room_name room));
        ("assigned_time",
         DStr (Day_name (day time_slot) +:+ " " +:+ time_str (start_time time_slot) +:+ "-"
                 +:+ time_str (end_time time_slot)));
        ("course",
         DStr (CourseAssignment.course_code (Block.course_object (Assignment.block assignment))))]]
  else [].

Definition _check_room_availability_conflicts (assignments : list (string * Assignment))
    : list ConflictReport :=
  concat (map room_availability_report assignments).

(** *** _check_capacity_violations *)

Definition capacity_report (item : string * Assignment) : list ConflictReport :=
  let '(assignment_id, assignment) := item in
  let room_capacity := capacity (Assignment.room assignment) in
  let student_count := Block.student_count (Assignment.block assignment) in
  if room_capacity <? student_count then
    [mk_ConflictReport "CAPACITY_VIOLATION"
       ("Room " +:+ room_name (Assignment.room assignment) +:+ " capacity exceeded")
       [assignment_id]
       [("room_name", DStr (room_name (Assignment.room assignment)));
        ("room_capacity", DInt room_capacity);
        ("student_count", DInt student_count);
        ("course",
         DStr (CourseAssignment.course_code (Block.course_object (Assignment.block assignment))))]]
  else [].

Definition _check_capacity_violations (assignments : list (string * Assignment))
    : list ConflictReport :=
  concat (map capacity_report assignments).

(** *** validate_schedule_comprehensive *)

Definition validate_schedule_comprehensive (assignments : list (string * Assignment))
    : result (bool * list ConflictReport) :=
  room_conflicts <- _check_room_conflicts assignments ;;
  staff_conflicts <- _check_staff_conflicts assignments ;;
  student_conflicts <- _check_student_conflicts assignments ;;
  let room_availability_conflicts := _check_room_availability_conflicts assignments in
  let capacity_conflicts := _check_capacity_violations assignments in
  let conflicts :=
    room_conflicts ++ staff_conflicts ++ student_conflicts ++ room_availability_conflicts
      ++ capacity_conflicts in
  Ok ((length conflicts =? 0)%nat, conflicts).
End validator.

(** ** utils/api_schedule.py: the schedule in the format of the backend *)

(** The values of the API dictionaries: [None], integers and strings; one
    level of nested dictionary; and, at the top, names and the list of
    entries. *)
Inductive api_scalar :=
| ANone
| AInt (z : Z)
| AStr (s : string).

Inductive api_value :=
| AScalar (v : api_scalar)
| ADict (d : list (string * api_scalar)).

Abbreviation api_entry := (list (string * api_value)).

Inductive api_field :=
| AName (s : string)
| AEntries (entries : list api_entry).

(** [s.lower()] on the upper-case names of the days. *)
Definition ascii_lower (c : Ascii.ascii) : Ascii.ascii :=
  let n := Ascii.nat_of_ascii c in
  if (65 <=? n)%nat && (n <=? 90)%nat then Ascii.ascii_of_nat (n + 32) else c.

Fixpoint str_lower (s : string) : string :=
  match s with
  | EmptyString => EmptyString
  | String c s' => String (ascii_lower c) (str_lower s')
  end.

(** [t.strftime("%H:%M")] *)
Definition time_HM (t : time) : string :=
  two_digits (hour t) +:+ ":" +:+ two_digits (minute t).

(** A room is a [Hall] or a [Lab], so the last branch of the source, which
    raises [ValueError] for any other object, has no counterpart here. *)
Definition convert_single_assignment (assignment : Assignment) : api_entry :=
  let block := Assignment.block assignment in
  let room := Assignment.room assignment in
  let time_slot := Assignment.time_slot assignment in
  let course_id := CourseAssignment.course_id (Block.course_object block) in
  let session_type :=
    if bool_decide (Block.block_type block = LECTURE) then "lecture" else "lab" in
  let group_info :=
    [("group_number", AInt (Block.group_number block));
     ("total_groups", AInt (Block.total_groups block))] in
  let '(hall_id, lab_id) :=
    match room with
    | RHall h => (AInt (Hall.id h), ANone)
    | RLab l => (ANone, AInt (Lab.id l))
    end in
  let lecturer_id := staff_id (Block.staff_member block) in
  let time_slot_info :=
    [("day", AStr (str_lower (Day_name (day time_slot))));
     ("start_time", AStr (time_HM (start_time time_slot)));
     ("end_time", AStr (time_HM (end_time time_slot)))] in
  let academic_id := AcademicList.id (Block.academic_list_object block) in
  let department_id := dept_id (AcademicList.department (Block.academic_list_object block)) in
  [("course_id", AScalar (AInt course_id));
   ("session_type", AScalar (AStr session_type));
   ("group_info", ADict group_info);
   ("hall_id", AScalar hall_id);
   ("lab_id", AScalar lab_id);
   ("lecturer_id", AScalar (AInt lecturer_id));
   ("time_slot", ADict time_slot_info);
   ("student_count", AScalar (AInt (Block.student_count block)));
   ("academic_id", AScalar (AInt academic_id));
   ("academic_level", AScalar (AInt (Block.academic_level block)));
   ("department_id", AScalar (AInt department_id))].

Definition convert_assignments_to_api_format (assignments : list (string * Assignment))
    (schedule_name_en schedule_name_ar : string) : list (string * api_field) :=
  [("nameEn", AName schedule_name_en);
   ("nameAr", AName schedule_name_ar);
   ("schedule", AEntries (map (fun item => convert_single_assignment item.2) assignments))].

(** ** backend/post_schedule.py: validate_schedule_data *)

Definition required_entry_fields : list string :=
  ["course_id"; "session_type"; "group_info"; "lecturer_id"; "time_slot"; "student_count";
   "academic_id"; "academic_level"; "department_id"].

(** [isinstance(entry.get(field), dict)] *)
Definition is_dict (entry : api_entry) (field : string) : bool :=
  match dict_get field entry with
  | Some (ADict _) => true
  | _ => false
  end.

(** [entry[field]], when it is a dictionary. *)
Definition dict_at (entry : api_entry) (field : string) : list (string * api_scalar) :=
  match dict_get field entry with
  | Some (ADict d) => d
  | _ => []
  end.

Definition validate_entry (entry : api_entry) : bool :=
  if negb (forallb (fun field => dict_mem field entry) required_entry_fields) then false
  else if negb (is_dict entry "group_info") then false
  else if negb (is_dict entry "time_slot") then false
  else
    let group_info := dict_at entry "group_info" in
    if negb (dict_mem "group_number" group_info) || negb (dict_mem "total_groups" group_info)
    then false
    else
      let time_slot := dict_at entry "time_slot" in
      forallb (fun field => dict_mem field time_slot) ["day"; "start_time"; "end_time"].

Definition validate_schedule_data (schedule_data : list (string * api_field)) : bool :=
  if negb (forallb (fun field => dict_mem field schedule_data) ["nameEn"; "nameAr"; "schedule"])
  then false
  else
    match dict_get "schedule" schedule_data with
    | Some (AName _) => false
    | Some (AEntries schedule_entries) =>
        if (length schedule_entries =? 0)%nat then false
        else forallb validate_entry schedule_entries
    | None => false
    end.

(** * Properties *)

(** ** Association-list dictionaries and index updates *)

Lemma dict_mem_false {V} k (d : list (string * V)) :
  dict_mem k d = false <-> dict_get k d = None.
Proof.
  unfold dict_mem. rewrite bool_decide_eq_false, <- eq_None_not_Some. done.
Qed.

Lemma dict_get_None {V} k (d : list (string * V)) :
  dict_get k d = None <-> k ∉ dict_keys d.
Proof.
  induction d as [|[k' v] d IH]; simpl.
  - split; [intros _; apply not_elem_of_nil | done].
  - rewrite not_elem_of_cons. destruct (decide (k' = k)) as [->|Hne].
    + split; [done | intros [? _]; done].
    + rewrite IH. split; [intros ?; split; [congruence | done] | intros [_ ?]; done].
Qed.

Lemma dict_set_fresh {V} k (v : V) d :
  dict_get k d = None -> dict_set k v d = d ++ [(k, v)].
Proof.
  induction d as [|[k' v'] d IH]; simpl; [done|].
  destruct (decide (k' = k)); [done|]. intros H. by rewrite IH.
Qed.

Lemma dict_get_elem_of {V} k (v : V) d :
  NoDup (dict_keys d) -> (k, v) ∈ d -> dict_get k d = Some v.
Proof.
  induction d as [|[k' v'] d IH]; simpl; intros Hnd Hin.
  - by apply elem_of_nil in Hin.
  - apply NoDup_cons in Hnd as [Hk Hnd]. apply elem_of_cons in Hin as [Heq|Hin].
    + inversion Heq; subst. by rewrite decide_True.
    + destruct (decide (k' = k)) as [->|]; [|by apply IH].
      exfalso. apply Hk. unfold dict_keys. apply list_elem_of_fmap.
      exists (k, v). done.
Qed.

Section index_updates.
Context `{Countable K} {V : Type}.
Implicit Types (m : gmap K V) (k : K).

Lemma insert_ensure k v v0 m : <[k := v]> (ensure k v0 m) = <[k := v]> m.
Proof. unfold ensure. destruct (m !! k); [done|]. apply insert_insert_eq. Qed.

Lemma entry_ensure k v0 m : entry k v0 (ensure k v0 m) = default v0 (m !! k).
Proof.
  unfold entry, ensure. destruct (m !! k) eqn:E; [by rewrite E|].
  by rewrite lookup_insert_eq.
Qed.
End index_updates.

(** ** Atomicity of [make_assignment] *)

(** The new assignment clashes with a stored one: same slot, and same room
    key or same staff member. *)
Definition clashes (a a' : Assignment) : Prop :=
  assignment_slot_key a' = assignment_slot_key a
  /\ (get_room_key (Assignment.room a') = get_room_key (Assignment.room a)
      \/ assignment_staff_id a' = assignment_staff_id a).

(** What a slot of an index holds. *)
Definition booked `{Countable K} {V} (index : gmap K (gmap SlotKey V)) (k : K) (sk : SlotKey)
    : option V :=
  index !! k ≫= (fun slots => slots !! sk).

(** The manager after a commit of [a] under [block_id], index by index. *)
Definition committed (self self' : ConstraintManager) (block_id : string) (a : Assignment)
    : Prop :=
  let s := state self in
  let block := Assignment.block a in
  let sk := assignment_slot_key a in
  let room_key := get_room_key (Assignment.room a) in
  let staff := assignment_staff_id a in
  let code := CourseAssignment.course_code (Block.course_object block) in
  let level_key := (Block.academic_list block, Block.academic_level block) in
  let plan_key := (Block.academic_list block, sk.1, sk.2) in
  current_assignments self' = current_assignments self ++ [(block_id, a)]
  /\ room_bookings (state self')
     = <[room_key := <[sk := block_id]> (default ∅ (room_bookings s !! room_key))]>
         (room_bookings s)
  /\ staff_bookings (state self')
     = <[staff := <[sk := block_id]> (default ∅ (staff_bookings s !! staff))]>
         (staff_bookings s)
  /\ course_slots (state self')
     = <[code := <[sk := default 0 (booked (course_slots s) code sk) + 1]>
                   (default ∅ (course_slots s !! code))]>
         (course_slots s)
  /\ level_slots (state self')
     = <[level_key := <[sk.1 := default [] (level_slots s !! level_key ≫= (.!! sk.1)) ++ [sk.2]]>
                        (default ∅ (level_slots s !! level_key))]>
         (level_slots s)
  /\ study_plan_slots (state self')
     = <[plan_key := default [] (study_plan_slots s !! plan_key) ++ [block_id]]>
         (study_plan_slots s).

Lemma verify_loop_Ok room_key staff d t items :
  verify_loop room_key staff d t items = Ok tt
  <-> (forall id a, (id, a) ∈ items ->
        assignment_slot_key a = (d, t) ->
        get_room_key (Assignment.room a) ≠ room_key /\ assignment_staff_id a ≠ staff).
Proof.
  induction items as [|[id0 a0] items IH]; simpl.
  - split; [intros _ ?? Hin; by apply elem_of_nil in Hin | done].
  - destruct (bool_decide (day (Assignment.time_slot a0) = d)
              && bool_decide (start_time (Assignment.time_slot a0) = t)) eqn:Eslot.
    + apply andb_true_iff in Eslot as [Hd Ht].
      apply bool_decide_eq_true in Hd. apply bool_decide_eq_true in Ht.
      assert (Hk : assignment_slot_key a0 = (d, t))
        by (unfold assignment_slot_key; congruence).
      case_bool_decide as Hr.
      { split; [done|]. intros Hall.
        destruct (Hall id0 a0 (list_elem_of_here _ _) Hk) as [Hne _]. done. }
      case_bool_decide as Hs.
      { split; [done|]. intros Hall.
        destruct (Hall id0 a0 (list_elem_of_here _ _) Hk) as [_ Hne]. done. }
      rewrite IH. split.
      * intros Hall id a Hin Hka. apply elem_of_cons in Hin as [Heq|Hin]; [|by eapply Hall].
        inversion Heq; subst. done.
      * intros Hall id a Hin. apply (Hall id). by apply list_elem_of_further.
    + rewrite IH. split.
      * intros Hall id a Hin Hka. apply elem_of_cons in Hin as [Heq|Hin]; [|by eapply Hall].
        inversion Heq; subst. exfalso. unfold assignment_slot_key in Hka.
        inversion Hka as [[Hd Ht]].
        rewrite !bool_decide_eq_true_2 in Eslot by done. done.
      * intros Hall id a Hin. apply (Hall id). by apply list_elem_of_further.
Qed.

Lemma verify_loop_result room_key staff d t items :
  verify_loop room_key staff d t items = Ok tt
  \/ exists e, verify_loop room_key staff d t items = Raise e.
Proof. destruct (verify_loop _ _ _ _ _) as [[]|e]; eauto. Qed.

(** No stored assignment clashes with [a], and the two booking indices have
    the slot of [a] free for its room and its staff member. *)
Definition unbooked (self : ConstraintManager) (a : Assignment) : Prop :=
  (forall id a', (id, a') ∈ current_assignments self -> ¬ clashes a a')
  /\ booked (room_bookings (state self)) (get_room_key (Assignment.room a))
       (assignment_slot_key a) = None
  /\ booked (staff_bookings (state self)) (assignment_staff_id a)
       (assignment_slot_key a) = None.

Lemma verify_Ok_no_clash self a :
  _verify_no_conflicts_before_commit self a = Ok tt
  <-> (forall id a', (id, a') ∈ current_assignments self -> ¬ clashes a a').
Proof.
  unfold _verify_no_conflicts_before_commit. rewrite verify_loop_Ok.
  unfold clashes. split.
  - intros Hall id a' Hin [Hk Hor]. destruct (Hall id a' Hin Hk) as [Hr Hs].
    destruct Hor; done.
  - intros Hall id a' Hin Hk. split; intros Heq; apply (Hall id a' Hin); split; auto.
Qed.

Lemma booked_None_inner `{Countable K} {V} (index : gmap K (gmap SlotKey V)) k sk :
  booked index k sk = None <-> default ∅ (index !! k) !! sk = None.
Proof.
  unfold booked. destruct (index !! k); simpl; [done|]. by rewrite lookup_empty.
Qed.

(** The outcome of [make_assignment], in full. *)
Lemma make_assignment_cases self block_id a :
  (dict_get block_id (current_assignments self) = None /\ unbooked self a
   /\ (make_assignment self block_id a).1 = true
   /\ committed self (make_assignment self block_id a).2 block_id a)
  \/ (¬ (dict_get block_id (current_assignments self) = None /\ unbooked self a)
      /\ make_assignment self block_id a = (false, self)).
Proof.
  unfold make_assignment.
  destruct (dict_mem block_id (current_assignments self)) eqn:Emem.
  { right. split; [|by destruct self].
    intros [Hnone _]. apply dict_mem_false in Hnone. congruence. }
  apply dict_mem_false in Emem.
  unfold _add_to_state. rewrite (proj2 (dict_mem_false _ _) Emem).
  destruct (_verify_no_conflicts_before_commit self a) as [[]|e] eqn:Ever.
  2:{ right. split; [|by destruct self]. intros [_ [Hno _]].
      apply (proj2 (verify_Ok_no_clash _ _)) in Hno. congruence. }
  pose proof (proj1 (verify_Ok_no_clash _ _) Ever) as Hclash.
  cbn [state current_assignments with_assignments with_room_bookings with_staff_bookings
       room_bookings staff_bookings course_slots level_slots study_plan_slots].
  rewrite !entry_ensure.
  case_bool_decide as Hroom.
  { right. split; [|by destruct self]. intros [_ (_ & Hr & _)].
    apply booked_None_inner in Hr. rewrite Hr in Hroom. by destruct Hroom. }
  case_bool_decide as Hstaff.
  { right. split; [|by destruct self]. intros [_ (_ & _ & Hs)].
    apply booked_None_inner in Hs. unfold assignment_staff_id in Hs.
    rewrite Hs in Hstaff. by destruct Hstaff. }
  left. split; [done|]. split.
  { split; [exact Hclash|]. split; apply booked_None_inner; by apply eq_None_not_Some. }
  split; [done|].
  unfold committed, update_study_plan_slots, update_level_slots, update_course_slots.
  cbn [state current_assignments with_assignments with_room_bookings with_staff_bookings
       with_course_slots with_level_slots with_study_plan_slots
       room_bookings staff_bookings course_slots level_slots study_plan_slots snd fst].
  rewrite !insert_ensure, !entry_ensure, (dict_set_fresh _ _ _ Emem).
  repeat split; try done.
  - unfold booked. destruct (course_slots (state self) !! _); cbn; [done|].
    by rewrite lookup_empty.
  - unfold assignment_slot_key. cbn [fst snd].
    destruct (level_slots (state self) !! _); cbn; [done|]. by rewrite lookup_empty.
Qed.

(** C2. [make_assignment] is atomic: it either succeeds, and then the block
    id was new, nothing clashed, and the assignments map and the five indices
    all carry the new assignment; or it fails and leaves the manager exactly
    as it was.  In particular it fails without any change when the block id is
    already assigned, and when a stored assignment holds the room or the staff
    member at the same slot. *)
Theorem make_assignment_atomic (self : ConstraintManager) (block_id : string) (a : Assignment) :
  let r := make_assignment self block_id a in
  ((r.1 = true
    /\ dict_get block_id (current_assignments self) = None
    /\ unbooked self a
    /\ committed self r.2 block_id a)
   \/ (r.1 = false /\ r.2 = self))
  /\ (is_Some (dict_get block_id (current_assignments self)) -> r = (false, self))
  /\ ((exists id a', (id, a') ∈ current_assignments self /\ clashes a a') -> r = (false, self)).
Proof.
  cbn zeta. destruct (make_assignment_cases self block_id a) as [(Hnew & Hun & Hok & Hc)|[Hno Hr]].
  - split; [by left|]. split.
    + rewrite Hnew. by intros [? ?].
    + intros (id & a' & Hin & Hclash). destruct Hun as [Hno _]. by destruct (Hno id a' Hin).
  - split; [right; by rewrite Hr|]. done.
Qed.

(** ** Reachable managers and the booking invariant *)

(** The two mutators of the manager. *)
Inductive op :=
| MakeAssignment (block_id : string) (a : Assignment)
| Reset.

Definition apply_op (self : ConstraintManager) (o : op) : ConstraintManager :=
  match o with
  | MakeAssignment block_id a => (make_assignment self block_id a).2
  | Reset => initialize_fresh_state
  end.

(** The manager after a sequence of calls on a new manager. *)
Definition run_ops (ops : list op) : ConstraintManager :=
  fold_left apply_op ops initialize_fresh_state.

(** The assignments map has one entry per block id, and the two booking
    indices record exactly the stored assignments. *)
Definition consistent (self : ConstraintManager) : Prop :=
  NoDup (dict_keys (current_assignments self))
  /\ (forall room_key sk id,
        booked (room_bookings (state self)) room_key sk = Some id
        <-> exists a, (id, a) ∈ current_assignments self
                      /\ get_room_key (Assignment.room a) = room_key
                      /\ assignment_slot_key a = sk)
  /\ (forall staff sk id,
        booked (staff_bookings (state self)) staff sk = Some id
        <-> exists a, (id, a) ∈ current_assignments self
                      /\ assignment_staff_id a = staff
                      /\ assignment_slot_key a = sk).

Lemma booked_insert `{Countable K} {V} (index : gmap K (gmap SlotKey V)) k0 sk0 v k sk :
  booked (<[k0 := <[sk0 := v]> (default ∅ (index !! k0))]> index) k sk
  = if decide (k = k0 /\ sk = sk0) then Some v else booked index k sk.
Proof.
  unfold booked. destruct (decide (k = k0)) as [->|Hk].
  - rewrite lookup_insert_eq. cbn. destruct (decide (sk = sk0)) as [->|Hs].
    + rewrite lookup_insert_eq. by rewrite decide_True.
    + rewrite lookup_insert_ne by done. rewrite decide_False by (intros [_ ?]; done).
      destruct (index !! k0); cbn; [done|]. by rewrite lookup_empty.
  - rewrite lookup_insert_ne by done. by rewrite decide_False by (intros [? _]; done).
Qed.

Lemma consistent_fresh : consistent initialize_fresh_state.
Proof.
  split; [constructor|]. split; intros k sk id; unfold booked; cbn;
    rewrite lookup_empty; cbn; (split; [done|]); intros (a & Hin & _);
    by apply elem_of_nil in Hin.
Qed.

Lemma consistent_index_step {K} `{Countable K} (index index' : gmap K (gmap SlotKey string))
    (key : Assignment -> K) (A : list (string * Assignment)) block_id a :
  (forall k sk id, booked index k sk = Some id
                   <-> exists a', (id, a') ∈ A /\ key a' = k /\ assignment_slot_key a' = sk) ->
  booked index (key a) (assignment_slot_key a) = None ->
  index' = <[key a := <[assignment_slot_key a := block_id]> (default ∅ (index !! key a))]> index ->
  forall k sk id, booked index' k sk = Some id
                  <-> exists a', (id, a') ∈ A ++ [(block_id, a)]
                                 /\ key a' = k /\ assignment_slot_key a' = sk.
Proof.
  intros Hidx Hfree -> k sk id. rewrite booked_insert.
  destruct (decide (k = key a /\ sk = assignment_slot_key a)) as [[-> ->]|Hne].
  - split.
    + intros [= <-]. exists a. split; [|done]. apply elem_of_app. right. apply list_elem_of_here.
    + intros (a' & Hin & Hk & Hs). apply elem_of_app in Hin as [Hin|Hin].
      * assert (booked index (key a) (assignment_slot_key a) = Some id) as Hb
          by (apply Hidx; eauto).
        congruence.
      * apply list_elem_of_singleton in Hin. by inversion Hin.
  - rewrite Hidx. split.
    + intros (a' & Hin & Hk & Hs). exists a'. split; [|done]. apply elem_of_app. by left.
    + intros (a' & Hin & Hk & Hs). apply elem_of_app in Hin as [Hin|Hin]; [eauto|].
      apply list_elem_of_singleton in Hin. inversion Hin; subst. by destruct Hne.
Qed.

Lemma consistent_make_assignment self block_id a :
  consistent self -> consistent (make_assignment self block_id a).2.
Proof.
  intros (Hnd & Hroom & Hstaff).
  destruct (make_assignment_cases self block_id a)
    as [(Hnew & (_ & Hr & Hs) & _ & (HA & HR & HS & _))|[_ ->]]; [|done].
  split; [|split].
  - rewrite HA. unfold dict_keys. rewrite map_app. apply NoDup_app. split; [done|].
    split; [|apply NoDup_singleton].
    intros k Hk Hk'. apply list_elem_of_singleton in Hk'. cbn in Hk'. subst k.
    by apply dict_get_None in Hnew.
  - rewrite HA. by eapply (consistent_index_step _ _ (fun a => get_room_key (Assignment.room a))).
  - rewrite HA. by eapply (consistent_index_step _ _ assignment_staff_id).
Qed.

Lemma consistent_run_ops ops : consistent (run_ops ops).
Proof.
  unfold run_ops. generalize consistent_fresh.
  generalize initialize_fresh_state. induction ops as [|o ops IH]; intros self Hc; [done|].
  cbn. apply IH. destruct o; cbn; [by apply consistent_make_assignment | apply consistent_fresh].
Qed.

(** C1. No double booking.  After any sequence of [make_assignment] and
    reset calls on a new manager: two entries of the assignments map with the
    same room key and the same slot are one and the same entry, and likewise
    for the same staff id and slot; and a slot of the room index (of the staff
    index) holds a block id exactly when that block is stored with this room
    key (staff id) and slot, so each holds at most one id. *)
Theorem no_double_booking (ops : list op) :
  let self := run_ops ops in
  (forall id1 a1 id2 a2,
      (id1, a1) ∈ current_assignments self -> (id2, a2) ∈ current_assignments self ->
      get_room_key (Assignment.room a1) = get_room_key (Assignment.room a2) ->
      assignment_slot_key a1 = assignment_slot_key a2 ->
      id1 = id2 /\ a1 = a2)
  /\ (forall id1 a1 id2 a2,
      (id1, a1) ∈ current_assignments self -> (id2, a2) ∈ current_assignments self ->
      assignment_staff_id a1 = assignment_staff_id a2 ->
      assignment_slot_key a1 = assignment_slot_key a2 ->
      id1 = id2 /\ a1 = a2)
  /\ (forall room_key sk id,
      booked (room_bookings (state self)) room_key sk = Some id
      <-> exists a, (id, a) ∈ current_assignments self
                    /\ get_room_key (Assignment.room a) = room_key
                    /\ assignment_slot_key a = sk)
  /\ (forall staff sk id,
      booked (staff_bookings (state self)) staff sk = Some id
      <-> exists a, (id, a) ∈ current_assignments self
                    /\ assignment_staff_id a = staff
                    /\ assignment_slot_key a = sk).
Proof.
  cbn. destruct (consistent_run_ops ops) as (Hnd & Hroom & Hstaff).
  assert (Hsame : forall id a1 a2,
             (id, a1) ∈ current_assignments (run_ops ops) ->
             (id, a2) ∈ current_assignments (run_ops ops) -> a1 = a2).
  { intros id a1 a2 H1 H2. apply (dict_get_elem_of _ _ _ Hnd) in H1, H2. congruence. }
  split; [|split; [|done]].
  - intros id1 a1 id2 a2 H1 H2 Hk Hs.
    assert (Some id1 = Some id2) as [= ->].
    { rewrite <- (proj2 (Hroom (get_room_key (Assignment.room a1)) (assignment_slot_key a1) id1))
        by eauto.
      apply Hroom. exists a2. by rewrite Hk, Hs. }
    split; [done | by eapply Hsame].
  - intros id1 a1 id2 a2 H1 H2 Hk Hs.
    assert (Some id1 = Some id2) as [= ->].
    { rewrite <- (proj2 (Hstaff (assignment_staff_id a1) (assignment_slot_key a1) id1))
        by eauto.
      apply Hstaff. exists a2. by rewrite Hk, Hs. }
    split; [done | by eapply Hsame].
Qed.

(** ** The commit checks only double booking *)

Lemma check_room_booking_true self block slot room :
  check_room_booking self block slot room = true
  <-> booked (room_bookings (state self)) (get_room_key room) (day slot, start_time slot) = None.
Proof.
  unfold check_room_booking, booked.
  destruct (room_bookings (state self) !! get_room_key room); cbn; [|done].
  rewrite negb_true_iff, bool_decide_eq_false, <- eq_None_not_Some. done.
Qed.

Lemma check_staff_booking_true self block slot room :
  check_staff_booking self block slot room = true
  <-> booked (staff_bookings (state self)) (staff_id (Block.staff_member block))
        (day slot, start_time slot) = None.
Proof.
  unfold check_staff_booking, booked.
  destruct (staff_bookings (state self) !! _); cbn; [|done].
  rewrite negb_true_iff, bool_decide_eq_false, <- eq_None_not_Some. done.
Qed.

Lemma consistent_unbooked self a :
  consistent self ->
  check_room_booking self (Assignment.block a) (Assignment.time_slot a) (Assignment.room a) = true ->
  check_staff_booking self (Assignment.block a) (Assignment.time_slot a) (Assignment.room a) = true ->
  unbooked self a.
Proof.
  intros (_ & Hroom & Hstaff) Hr%check_room_booking_true Hs%check_staff_booking_true.
  split; [|done]. intros id a' Hin [Hk [Heq|Heq]].
  - assert (booked (room_bookings (state self)) (get_room_key (Assignment.room a))
              (assignment_slot_key a) = Some id) as Hb by (apply Hroom; eauto).
    unfold assignment_slot_key in Hb. congruence.
  - assert (booked (staff_bookings (state self)) (assignment_staff_id a)
              (assignment_slot_key a) = Some id) as Hb by (apply Hstaff; eauto).
    unfold assignment_slot_key, assignment_staff_id in Hb. congruence.
Qed.

(** C10. The commit checks double booking only.  In a manager reached by
    any sequence of calls, [make_assignment] succeeds and commits whenever the
    block id is not yet assigned and the room key and the staff id are free at
    the slot (constraints H1 and H2); nothing is asked about room availability
    (H3), the cohort rule (H4) or the room kind and lab rules (H5). *)
Theorem make_assignment_checks_only_booking (ops : list op) (block_id : string) (a : Assignment) :
  let self := run_ops ops in
  dict_get block_id (current_assignments self) = None ->
  check_room_booking self (Assignment.block a) (Assignment.time_slot a) (Assignment.room a) = true ->
  check_staff_booking self (Assignment.block a) (Assignment.time_slot a) (Assignment.room a) = true ->
  (make_assignment self block_id a).1 = true
  /\ committed self (make_assignment self block_id a).2 block_id a.
Proof.
  cbn. intros Hnew Hr Hs.
  pose proof (consistent_unbooked _ _ (consistent_run_ops ops) Hr Hs) as Hun.
  destruct (make_assignment_cases (run_ops ops) block_id a) as [(_ & _ & ? & ?)|[Hno _]]; [done|].
  destruct Hno. done.
Qed.

(** ** The stable sort *)

Section sorted_facts.
Context {A K : Type} (gt : K -> K -> bool) (key : A -> K).

Lemma sorted_insert_perm x l : sorted_insert gt key x l ≡ₚ x :: l.
Proof.
  induction l as [|y l IH]; cbn; [done|].
  destruct (gt (key x) (key y)); [|done]. rewrite IH. apply Permutation_swap.
Qed.

Lemma sorted_by_perm l : sorted_by gt key l ≡ₚ l.
Proof.
  induction l as [|x l IH]; cbn; [done|]. rewrite sorted_insert_perm. by rewrite IH.
Qed.

Lemma sorted_by_elem_of x l : x ∈ sorted_by gt key l <-> x ∈ l.
Proof. by rewrite sorted_by_perm. Qed.

(** With [le a b := negb (gt a b)] transitive, the result is sorted. *)
Definition key_le (a b : A) : Prop := gt (key a) (key b) = false.

Hypothesis gt_trans : forall a b c, key_le a b -> key_le b c -> key_le a c.
Hypothesis gt_total : forall a b, gt (key a) (key b) = true -> key_le b a.

Lemma sorted_insert_sorted x l :
  StronglySorted key_le l -> StronglySorted key_le (sorted_insert gt key x l).
Proof.
  induction 1 as [|y l Hs IH Hall]; cbn; [repeat constructor|].
  destruct (gt (key x) (key y)) eqn:E.
  - constructor; [done|]. apply Forall_forall. intros z Hz.
    apply (elem_of_Permutation_proper _ _ _ (sorted_insert_perm x l)) in Hz.
    apply elem_of_cons in Hz as [->|Hz]; [by apply gt_total|].
    by eapply Forall_forall in Hall.
  - constructor; [by constructor|]. constructor; [done|].
    eapply Forall_impl; [exact Hall|]. intros z Hz. by eapply gt_trans.
Qed.

Lemma sorted_by_sorted l : StronglySorted key_le (sorted_by gt key l).
Proof.
  induction l as [|x l IH]; cbn; [constructor|]. by apply sorted_insert_sorted.
Qed.
End sorted_facts.

(** ** The binary64 product of the capacity gate

    [float_of_int n * default_ratio] is followed through the specification
    of the binary64 operations: the conversion of [n] is exact, the product
    of the two mantissas is shifted right to 53 bits and rounded to nearest,
    ties to even. *)

Lemma digits2_size p : digits2_pos p = Pos.size p.
Proof. induction p; cbn; congruence. Qed.

Lemma digits2_bounds p :
  2 ^ (Z.pos (digits2_pos p) - 1) <= Z.pos p < 2 ^ Z.pos (digits2_pos p).
Proof.
  rewrite digits2_size. split.
  - pose proof (Pos.size_le p) as H.
    assert (H' : Z.pos (2 ^ Pos.size p) <= Z.pos p~0) by exact H.
    rewrite Pos2Z.inj_pow, (Pos2Z.inj_xO p) in H'.
    replace (Z.pos (Pos.size p)) with (Z.succ (Z.pos (Pos.size p) - 1)) in H' by lia.
    rewrite Z.pow_succ_r in H' by lia. lia.
  - pose proof (Pos.size_gt p) as H.
    assert (H' : Z.pos p < Z.pos (2 ^ Pos.size p)) by exact H.
    by rewrite Pos2Z.inj_pow in H'.
Qed.

Lemma digits2_unique p d :
  2 ^ (d - 1) <= Z.pos p < 2 ^ d -> Z.pos (digits2_pos p) = d.
Proof.
  intros [Hlo Hhi]. pose proof (digits2_bounds p) as [Hlo' Hhi'].
  set (d' := Z.pos (digits2_pos p)) in *.
  assert (0 <= d).
  { destruct (Z.lt_ge_cases d 0) as [Hneg|]; [|done].
    rewrite Z.pow_neg_r in Hhi by done. lia. }
  destruct (Z.lt_trichotomy d d') as [Hlt|[->|Hgt]]; [|done|].
  - assert (2 ^ d <= 2 ^ (d' - 1)) by (apply Z.pow_le_mono_r; lia). lia.
  - assert (2 ^ d' <= 2 ^ (d - 1)) by (apply Z.pow_le_mono_r; lia). lia.
Qed.

(** The state of [shr_1] after [j] steps from the exact [M]. *)
Definition shifted (M j : Z) (st : shr_record) : Prop :=
  0 <= shr_m st
  /\ exists W,
       0 <= W < 2 ^ j
       /\ 2 * M = 2 * shr_m st * 2 ^ j + (if shr_r st then 2 ^ j else 0) + W
       /\ shr_s st = negb (W =? 0).

Lemma shr_1_nonneg m r s :
  0 <= m ->
  exists m' r',
    shr_1 {| shr_m := m; shr_r := r; shr_s := s |}
    = {| shr_m := m'; shr_r := r'; shr_s := r || s |}
    /\ 0 <= m' /\ m = 2 * m' + (if r' then 1 else 0).
Proof.
  intros Hm. destruct m as [|[q|q|]|q]; cbn [shr_1]; [| | | |lia].
  - exists 0, false. split; [done | lia].
  - exists (Z.pos q), true. split; [done | lia].
  - exists (Z.pos q), false. split; [done | lia].
  - exists 0, true. split; [done | lia].
Qed.

Lemma shifted_step M j st : 0 <= j -> shifted M j st -> shifted M (j + 1) (shr_1 st).
Proof.
  intros Hj (Hm & W & HW & HM & Hs). destruct st as [m r s]. cbn [shr_m shr_r shr_s] in *.
  destruct (shr_1_nonneg m r s Hm) as (m' & r' & -> & Hm' & ->).
  unfold shifted. cbn [shr_m shr_r shr_s].
  rewrite Z.pow_add_r, Z.pow_1_r by lia.
  assert (HP : 0 < 2 ^ j) by (apply Z.pow_pos_nonneg; lia).
  set (P := 2 ^ j) in *.
  split; [done|]. exists ((if r then P else 0) + W). split; [destruct r; lia|]. split.
  - destruct r, r'; nia.
  - subst s. destruct r; cbn [orb]; [|done].
    symmetry. apply negb_true_iff, Z.eqb_neq. lia.
Qed.

Lemma shifted_iter M p j st :
  0 <= j -> shifted M j st -> shifted M (j + Z.pos p) (iter_pos shr_1 p st).
Proof.
  revert j st. induction p as [p IH|p IH|]; intros j st Hj Hst; cbn [iter_pos].
  - replace (j + Z.pos p~1) with (j + 1 + Z.pos p + Z.pos p) by lia.
    apply IH; [lia|]. apply IH; [lia|]. by apply shifted_step.
  - replace (j + Z.pos p~0) with (j + Z.pos p + Z.pos p) by lia.
    apply IH; [lia|]. by apply IH.
  - by apply shifted_step.
Qed.

Lemma shifted_exact M : 0 <= M -> shifted M 0 {| shr_m := M; shr_r := false; shr_s := false |}.
Proof. intros HM. split; [done|]. exists 0. cbn. lia. Qed.

(** [m''] is [M / 2 ^ p] rounded to an integer next to it, downwards when
    the remainder is below one half. *)
Definition rounded (M p m'' : Z) : Prop :=
  exists m' R,
    0 <= R < 2 * 2 ^ p
    /\ 2 * M = 2 * m' * 2 ^ p + R
    /\ m' <= m'' <= m' + 1
    /\ (R < 2 ^ p -> m'' = m').

Lemma round_shifted M p st :
  0 <= p -> shifted M p st ->
  rounded M p (round_nearest_even (shr_m st) (loc_of_shr_record st)).
Proof.
  intros Hp (Hm & W & HW & HM & Hs). destruct st as [m r s]. cbn [shr_m shr_r shr_s] in *.
  assert (HP : 0 < 2 ^ p) by (apply Z.pow_pos_nonneg; lia).
  exists m, ((if r then 2 ^ p else 0) + W).
  split; [destruct r; lia|]. split; [lia|].
  destruct r, s; cbn [loc_of_shr_record round_nearest_even].
  - lia.
  - split; [destruct (Z.even m); lia | lia].
  - lia.
  - split; [lia | done].
Qed.

Lemma fexp_normal x : -1074 <= x - 53 -> fexp prec emax x = x - 53.
Proof. unfold fexp, SpecFloat.emin, prec, emax. lia. Qed.

Lemma binary_round_aux_normal M e d :
  Z.pos (digits2_pos M) = d -> 53 < d -> -1074 <= d + e - 53 -> d + e - 53 + 1 <= 971 ->
  exists mf t m'',
    binary_round_aux prec emax false (Z.pos M) e loc_Exact
    = S754_finite false mf (e + (d - 53) + t)
    /\ 0 <= t <= 1 /\ Z.pos mf * 2 ^ t = m'' /\ rounded (Z.pos M) (d - 53) m''.
Proof.
  intros Hd Hbig Hlo Hhi. unfold binary_round_aux, shr_fexp at 1. cbn [Zdigits2].
  rewrite Hd, fexp_normal by lia.
  replace (d + e - 53 - e) with (d - 53) by lia.
  destruct (d - 53) as [|p|p] eqn:Ep; [lia| |lia]. cbn [shr].
  pose proof (shifted_iter (Z.pos M) p 0 _ ltac:(lia) (shifted_exact (Z.pos M) ltac:(lia)))
    as Hst.
  rewrite Z.add_0_l in Hst.
  pose proof (round_shifted _ (Z.pos p) _ ltac:(lia) Hst) as Hround.
  set (m'' := round_nearest_even _ _) in *.
  pose proof (digits2_bounds M) as [HMlo HMhi]. rewrite Hd in HMlo, HMhi.
  assert (Hm'' : 2 ^ 52 <= m'' <= 2 ^ 53).
  { destruct Hround as (m' & R & HR & HM & Hm' & _).
    replace (d - 1) with (52 + Z.pos p) in HMlo by lia.
    replace d with (53 + Z.pos p) in HMhi by lia.
    rewrite Z.pow_add_r in HMlo, HMhi by lia.
    assert (HP : 0 < 2 ^ Z.pos p) by (apply Z.pow_pos_nonneg; lia).
    set (P := 2 ^ Z.pos p) in *. nia. }
  destruct m'' as [|q|q] eqn:Eq; [lia| |lia].
  destruct (decide (Z.pos q = 2 ^ 53)) as [Htop|Hnot].
  - exists (Z.to_pos (2 ^ 52)), 1, (Z.pos q). split; [|split; [lia|split; [by rewrite Htop|done]]].
    assert (q = Z.to_pos (2 ^ 53)) as -> by lia.
    unfold shr_fexp. cbn [shr_record_of_loc Zdigits2].
    change (Z.pos (digits2_pos (Z.to_pos (2 ^ 53)))) with 54.
    rewrite fexp_normal by lia.
    replace (54 + (e + Z.pos p) - 53 - (e + Z.pos p)) with 1 by lia.
    cbn [shr iter_pos]. change (shr_m (shr_1 _)) with (2 ^ 52).
    change (2 ^ 52) with (Z.pos (Z.to_pos (2 ^ 52))) at 1. cbv iota beta.
    rewrite (proj2 (Z.leb_le _ _)) by (unfold emax, prec; lia). done.
  - exists q, 0, (Z.pos q). split; [|split; [lia|split; [lia|done]]].
    unfold shr_fexp. cbn [shr_record_of_loc Zdigits2].
    rewrite (digits2_unique q 53) by (change (53 - 1) with 52; lia).
    rewrite fexp_normal by lia.
    replace (53 + (e + Z.pos p) - 53 - (e + Z.pos p)) with 0 by lia.
    cbn [shr shr_m]. rewrite (proj2 (Z.leb_le _ _)) by (unfold emax, prec; lia).
    by rewrite Z.add_0_r.
Qed.

Lemma iter_xO n k : Z.pos (Pos.iter xO n k) = Z.pos n * 2 ^ Z.pos k.
Proof.
  induction k as [|k IH] using Pos.peano_ind.
  - cbn [Pos.iter]. rewrite Z.pow_1_r. lia.
  - rewrite Pos.iter_succ, Pos2Z.inj_xO, IH, Pos2Z.inj_succ, Z.pow_succ_r by lia. lia.
Qed.

Lemma binary_round_aux_exact m e :
  Z.pos (digits2_pos m) = 53 -> -1074 <= e <= 971 ->
  binary_round_aux prec emax false (Z.pos m) e loc_Exact = S754_finite false m e.
Proof.
  intros Hd He. unfold binary_round_aux, shr_fexp. cbn [Zdigits2 shr_record_of_loc].
  rewrite Hd, fexp_normal by lia. replace (53 + e - 53 - e) with 0 by lia.
  cbn [shr shr_m loc_of_shr_record round_nearest_even Zdigits2].
  rewrite Hd, fexp_normal by lia. replace (53 + e - 53 - e) with 0 by lia.
  cbn [shr shr_m]. by rewrite (proj2 (Z.leb_le _ _)) by (unfold emax, prec; lia).
Qed.

Lemma binary_normalize_small n :
  0 < n < 2 ^ 53 ->
  exists mx k,
    binary_normalize prec emax n 0 false = S754_finite false mx (- k)
    /\ 0 <= k <= 52 /\ Z.pos mx = n * 2 ^ k /\ Z.pos (digits2_pos mx) = 53.
Proof.
  intros Hn. destruct n as [|q|q]; [lia| |lia]. cbn [binary_normalize]. unfold binary_round.
  pose proof (digits2_bounds q) as [Hlo Hhi]. set (d := Z.pos (digits2_pos q)) in *.
  assert (Hd : 1 <= d <= 53).
  { split; [subst d; lia|].
    destruct (Z.le_gt_cases d 53) as [|Hgt]; [done|].
    assert (2 ^ 53 <= 2 ^ (d - 1)) by (apply Z.pow_le_mono_r; lia). lia. }
  rewrite Z.add_0_r, fexp_normal by lia. unfold shl_align.
  destruct (d - 53 - 0) as [|k|k] eqn:Ek; [|lia|].
  - exists q, 0. rewrite binary_round_aux_exact by (fold d; lia).
    split; [done|]. split; [lia|]. split; [lia | fold d; lia].
  - assert (Hk : Z.pos (Pos.iter xO q k) = Z.pos q * 2 ^ Z.pos k) by apply iter_xO.
    assert (Hdk : Z.pos (digits2_pos (Pos.iter xO q k)) = 53).
    { apply digits2_unique. rewrite Hk. replace (53 - 1) with (d - 1 + Z.pos k) by lia.
      replace (2 ^ 53) with (2 ^ (d + Z.pos k)) by (f_equal; lia). rewrite !Z.pow_add_r by lia.
      assert (0 < 2 ^ Z.pos k) by (apply Z.pow_pos_nonneg; lia). nia. }
    exists (Pos.iter xO q k), (Z.pos k).
    replace (d - 53) with (- Z.pos k) by lia.
    rewrite binary_round_aux_exact by (done || lia).
    split; [done|]. split; [lia|]. split; [done|done].
Qed.

Lemma default_ratio_spec : Prim2SF default_ratio = S754_finite false 7205759403792794 (-53).
Proof. reflexivity. Qed.

Lemma float_of_int_small n :
  0 < n < 2 ^ 53 ->
  exists mx k,
    Prim2SF (float_of_int n) = S754_finite false mx (- k)
    /\ 0 <= k <= 52 /\ Z.pos mx = n * 2 ^ k /\ Z.pos (digits2_pos mx) = 53.
Proof.
  intros Hn. destruct (binary_normalize_small n Hn) as (mx & k & Hnorm & Hk & Hmx & Hd).
  exists mx, k. split; [|done]. unfold float_of_int. rewrite Hnorm.
  apply Prim2SF_SF2Prim. cbn [valid_binary]. unfold bounded, canonical_mantissa.
  rewrite Hd, fexp_normal by lia. apply andb_true_iff. split; [lia | unfold emax, prec; lia].
Qed.

Lemma product_rounded n :
  0 < n < 2 ^ 50 ->
  exists mf E t m'' p k,
    Prim2SF (float_of_int n * default_ratio)%float = S754_finite false mf (- (E - t))
    /\ 0 <= t <= 1 /\ Z.pos mf * 2 ^ t = m'' /\ 3 <= E /\ 0 <= p /\ 0 <= k
    /\ E + p = k + 53
    /\ rounded (n * 2 ^ k * 7205759403792794) p m''
    /\ n * 2 ^ k * 7205759403792794 < 2 ^ 53 * 2 ^ p.
Proof.
  intros Hn. destruct (float_of_int_small n ltac:(lia)) as (mx & k & Hf & Hk & Hmx & Hdx).
  rewrite FloatAxioms.mul_spec, Hf, default_ratio_spec. unfold SF64mul, SFmul. cbn [xorb].
  pose proof (digits2_bounds mx) as [Hxlo Hxhi]. rewrite Hdx in Hxlo, Hxhi.
  change (53 - 1) with 52 in Hxlo.
  set (mc := 7205759403792794%positive).
  pose proof (digits2_bounds (mx * mc)) as [Hlo Hhi].
  set (d := Z.pos (digits2_pos (mx * mc))) in *.
  assert (HM : 2 ^ 104 <= Z.pos (mx * mc) < 2 ^ 106).
  { rewrite Pos2Z.inj_mul. subst mc. lia. }
  assert (Hd : 105 <= d <= 106).
  { split.
    - destruct (Z.le_gt_cases 105 d) as [|Hlt]; [done|].
      assert (2 ^ d <= 2 ^ 104) by (apply Z.pow_le_mono_r; lia). lia.
    - destruct (Z.le_gt_cases d 106) as [|Hgt]; [done|].
      assert (2 ^ 106 <= 2 ^ (d - 1)) by (apply Z.pow_le_mono_r; lia). lia. }
  assert (Hk3 : 3 <= k).
  { destruct (Z.le_gt_cases 3 k) as [|Hlt]; [done|].
    assert (2 ^ k <= 2 ^ 2) by (apply Z.pow_le_mono_r; lia). nia. }
  destruct (binary_round_aux_normal (mx * mc) (- k + -53) d eq_refl)
    as (mf & t & m'' & Hround & Ht & Hmf & Hrounded); [lia..|].
  rewrite Hround. exists mf, (k + 106 - d), t, m'', (d - 53), k.
  split; [f_equal; lia|]. split; [done|]. split; [done|]. split; [lia|].
  split; [lia|]. split; [lia|]. split; [lia|].
  rewrite Pos2Z.inj_mul, Hmx in Hrounded, Hhi. split; [done|].
  replace d with (53 + (d - 53)) in Hhi at 1 by lia. by rewrite Z.pow_add_r in Hhi by lia.
Qed.

Lemma gate_arith n cap A P Eh T mc m' R m'' q r5 :
  0 < A -> 0 < P -> 8 <= Eh -> 0 < T -> A * T = Eh * P -> 2 * n < T ->
  0 <= n -> 4 * n = 5 * q + r5 -> 0 <= r5 < 5 ->
  0 <= R < 2 * P -> 2 * (n * A * mc) = 2 * m' * P + R -> 5 * mc = 4 * T + 2 ->
  m' <= m'' <= m' + 1 -> (R < P -> m'' = m') -> n * A * mc < T * P ->
  m'' <= cap * Eh <-> 4 * n <= 5 * cap.
Proof.
  intros HA HP HE HT HAP HnT Hn Hq Hr5 HR HM Hmc Hm' Hdown Hhi.
  assert (HX : n * A * T = n * (Eh * P)) by (rewrite <- HAP; ring).
  assert (H5 : 10 * m' * P + 5 * R = 2 * (5 * q + r5) * (Eh * P) + 4 * (n * A)).
  { rewrite <- Hq.
    transitivity (5 * (2 * (n * A * mc))); [rewrite HM; ring|].
    transitivity (2 * (n * A) * (5 * mc)); [ring|]. rewrite Hmc.
    transitivity (8 * (n * A * T) + 4 * (n * A)); [ring|]. rewrite HX. ring. }
  assert (HnA : 0 <= n * A) by (apply Z.mul_nonneg_nonneg; lia).
  assert (HEP : 0 < Eh * P) by (apply Z.mul_pos_pos; lia).
  assert (Hq0 : 0 <= q) by lia.
  destruct (decide (r5 = 0)) as [Hz|Hnz].
  - subst r5. assert (H4 : 4 * (n * A) = 5 * (q * A)) by (rewrite Z.add_0_r in Hq; rewrite Z.mul_assoc, Hq; ring).
    assert (HqA0 : 0 <= q * A) by (apply Z.mul_nonneg_nonneg; lia).
    assert (HqA : q * A < P).
    { apply (Z.mul_lt_mono_pos_l T); [done|].
      apply Z.le_lt_trans with (n * A * mc); [|done].
      apply (Z.mul_le_mono_pos_l _ _ 5); [lia|].
      transitivity (n * A * (5 * mc)); [|apply Z.eq_le_incl; ring].
      rewrite Hmc.
      transitivity (4 * (n * A) * T); [rewrite H4; apply Z.eq_le_incl; ring|].
      replace (n * A * (4 * T + 2)) with (4 * (n * A) * T + 2 * (n * A)) by ring. lia. }
    assert (H2 : 2 * m' * P + R = 2 * (q * Eh) * P + q * A).
    { apply (Z.mul_reg_l _ _ 5); [lia|].
      transitivity (10 * m' * P + 5 * R); [ring|]. rewrite H5, H4. ring. }
    assert (Hm'q : m' = q * Eh).
    { destruct (Z.lt_trichotomy m' (q * Eh)) as [Hlt|[Heq|Hgt]]; [|done|]; exfalso.
      - assert (2 * (m' + 1) * P <= 2 * (q * Eh) * P).
        { apply Z.mul_le_mono_nonneg_r; lia. }
        replace (2 * (m' + 1) * P) with (2 * m' * P + 2 * P) in * by ring. lia.
      - assert (2 * (q * Eh + 1) * P <= 2 * m' * P).
        { apply Z.mul_le_mono_nonneg_r; lia. }
        replace (2 * (q * Eh + 1) * P) with (2 * (q * Eh) * P + 2 * P) in * by ring. lia. }
    assert (Hm'' : m'' = q * Eh).
    { rewrite <- Hm'q. apply Hdown. rewrite Hm'q in H2. lia. }
    rewrite Hm'', <- Z.mul_le_mono_pos_r by lia. lia.
  - assert (Hlow : q * Eh < m').
    { apply (Z.mul_lt_mono_pos_r (10 * P)); [lia|].
      assert (2 * (Eh * P) <= 2 * r5 * (Eh * P)).
      { apply Z.mul_le_mono_nonneg_r; lia. }
      assert (8 * P <= Eh * P) by (apply Z.mul_le_mono_nonneg_r; lia).
      replace (q * Eh * (10 * P)) with (10 * q * (Eh * P)) by ring.
      replace (m' * (10 * P)) with (10 * m' * P) by ring.
      replace (2 * (5 * q + r5) * (Eh * P))
        with (10 * q * (Eh * P) + 2 * r5 * (Eh * P)) in H5 by ring. lia. }
    assert (Hup : m' < (q + 1) * Eh).
    { apply (Z.mul_lt_mono_pos_r (10 * P)); [lia|].
      assert (2 * r5 * (Eh * P) <= 8 * (Eh * P)).
      { apply Z.mul_le_mono_nonneg_r; lia. }
      assert (4 * (n * A) < 2 * (Eh * P)).
      { rewrite <- HAP. replace (4 * (n * A)) with (A * (4 * n)) by ring.
        replace (2 * (A * T)) with (A * (2 * T)) by ring.
        apply Z.mul_lt_mono_pos_l; lia. }
      replace ((q + 1) * Eh * (10 * P)) with (10 * q * (Eh * P) + 10 * (Eh * P)) by ring.
      replace (m' * (10 * P)) with (10 * m' * P) by ring.
      replace (2 * (5 * q + r5) * (Eh * P))
        with (10 * q * (Eh * P) + 2 * r5 * (Eh * P)) in H5 by ring. lia. }
    split; intros H.
    + assert (q + 1 <= cap); [|lia].
      destruct (Z.le_gt_cases (q + 1) cap) as [|Hlt]; [done|]. exfalso.
      assert (cap * Eh <= q * Eh) by (apply Z.mul_le_mono_nonneg_r; lia). lia.
    + assert (q + 1 <= cap) by lia.
      assert ((q + 1) * Eh <= cap * Eh) by (apply Z.mul_le_mono_nonneg_r; lia). lia.
Qed.

Lemma capacity_ok_default n cap :
  0 <= n < 2 ^ 50 -> capacity_ok default_ratio n cap = true <-> 4 * n <= 5 * cap.
Proof.
  intros Hn. unfold capacity_ok, int_ge_float.
  destruct (decide (n = 0)) as [->|Hpos].
  { change (Prim2SF (float_of_int 0 * default_ratio)) with (S754_zero false).
    rewrite Z.leb_le. lia. }
  destruct (product_rounded n ltac:(lia))
    as (mf & E & t & m'' & p & k & -> & Ht & Hmf & HE & Hp & Hk & HEp & Hround & Hhi).
  cbv zeta iota beta. rewrite (proj2 (Z.leb_gt _ _)) by lia. rewrite Z.leb_le, Z.opp_involutive.
  destruct Hround as (m' & R & HR & HM & Hm' & Hdown).
  assert (Hcmp : Z.pos mf <= cap * 2 ^ (E - t) <-> m'' <= cap * 2 ^ E).
  { subst m''. replace E with (E - t + t) at 2 by lia. rewrite Z.pow_add_r by lia.
    assert (0 < 2 ^ t) by (apply Z.pow_pos_nonneg; lia).
    rewrite Z.mul_assoc. apply Z.mul_le_mono_pos_r. done. }
  rewrite Hcmp.
  pose proof (Z.div_mod (4 * n) 5 ltac:(lia)) as Hdm.
  pose proof (Z.mod_pos_bound (4 * n) 5 ltac:(lia)) as Hr5.
  apply (gate_arith n cap (2 ^ k) (2 ^ p) (2 ^ E) (2 ^ 53) 7205759403792794 m' R m''
           (4 * n / 5) ((4 * n) mod 5)); try done.
  - apply Z.pow_pos_nonneg; lia.
  - apply Z.pow_pos_nonneg; lia.
  - change 8 with (2 ^ 3). apply Z.pow_le_mono_r; lia.
  - rewrite <- !Z.pow_add_r by lia. f_equal. lia.
  - lia.
  - lia.
Qed.

(** ** Candidate rooms *)

(** The rooms a block may use before the capacity gate: its preferred rooms
    when it needs a lab and has some, the labs open to non-specialist courses
    when it needs a lab and has none, the halls otherwise. *)
Definition room_pool (self : ResourceManager) (block : Block) : list Room :=
  if bool_decide (Block.required_room_type block = "lab") then
    if truthy (Block.preferred_rooms block) then default [] (Block.preferred_rooms block)
    else map RLab (filter (fun lab => Lab.used_in_non_specialist_courses lab = true)
                     (map snd (labs self)))
  else map RHall (map snd (halls self)).

(** [ceil(n * 0.8)], as the integer ceiling of [4 n / 5]. *)
Definition min_capacity (n : Z) : Z := (4 * n + 4) / 5.

Lemma min_capacity_ceiling n c : min_capacity n <= c <-> 4 * n <= 5 * c.
Proof.
  unfold min_capacity. pose proof (Z.div_mod (4 * n + 4) 5 ltac:(lia)) as Hdm.
  pose proof (Z.mod_pos_bound (4 * n + 4) 5 ltac:(lia)) as Hb. lia.
Qed.

Lemma filter_fmap_comm {A B} (f : A -> B) (P : B -> Prop) `{!forall x, Decision (P x)}
    (l : list A) :
  filter P (map f l) = map f (filter (fun x => P (f x)) l).
Proof.
  induction l as [|x l IH]; [done|].
  change (map f (x :: l)) with (f x :: map f l).
  rewrite !filter_cons. destruct (decide (P (f x))); [|done].
  change (map f (x :: filter (fun x => P (f x)) l))
    with (f x :: map f (filter (fun x => P (f x)) l)).
  by rewrite IH.
Qed.

Lemma filter_ext_iff {A} (P Q : A -> Prop) `{!forall x, Decision (P x)}
    `{!forall x, Decision (Q x)} (l : list A) :
  (forall x, P x <-> Q x) -> filter P l = filter Q l.
Proof.
  intros HPQ. induction l as [|x l IH]; [done|]. rewrite !filter_cons.
  destruct (decide (P x)) as [HP|HP], (decide (Q x)) as [HQ|HQ]; rewrite ?IH; try done.
  - by apply HPQ in HP.
  - by apply HPQ in HQ.
Qed.

Lemma filter_filter_and {A} (P Q : A -> Prop) `{!forall x, Decision (P x)}
    `{!forall x, Decision (Q x)} (l : list A) :
  filter P (filter Q l) = filter (fun x => P x /\ Q x) l.
Proof.
  induction l as [|x l IH]; [done|]. rewrite !filter_cons.
  destruct (decide (Q x)) as [HQ|HQ].
  - rewrite filter_cons. destruct (decide (P x)), (decide (P x /\ Q x)); rewrite ?IH; try done.
    + tauto.
    + tauto.
  - destruct (decide (P x /\ Q x)); [tauto|]. done.
Qed.

Lemma get_suitable_rooms_unsorted self block :
  get_suitable_rooms self block
  = sorted_by Z.gtb (fun r => Z.abs (capacity r - Block.student_count block))
      (filter (fun r => capacity_ok default_ratio (Block.student_count block) (capacity r) = true)
         (room_pool self block)).
Proof.
  unfold get_suitable_rooms, get_suitable_rooms_with, room_pool. f_equal.
  case_bool_decide.
  - destruct (truthy (Block.preferred_rooms block)); [done|].
    rewrite (filter_fmap_comm RLab), filter_filter_and. f_equal. apply filter_ext_iff.
    intros l. cbn. rewrite andb_true_iff. tauto.
  - by rewrite (filter_fmap_comm RHall).
Qed.

(** Up to [2 ^ 50] students the gate is the ceiling of four fifths. *)
Lemma capacity_ok_ceiling n cap :
  0 <= n < 2 ^ 50 -> capacity_ok default_ratio n cap = true <-> min_capacity n <= cap.
Proof. intros Hn. by rewrite min_capacity_ceiling, capacity_ok_default. Qed.

Lemma StronglySorted_weaken {A} (R R' : A -> A -> Prop) l :
  (forall a b, R a b -> R' a b) -> StronglySorted R l -> StronglySorted R' l.
Proof.
  intros HR. induction 1 as [|x l Hs IH Hall]; constructor; [done|].
  eapply Forall_impl; [exact Hall|]. auto.
Qed.

(** C6 (amended). The candidate rooms of a block come in ascending order of
    [|capacity - student_count|].  For a block of at least 0 and fewer than
    [2 ^ 50] students they are exactly the rooms of its pool whose capacity is
    at least [ceil(0.8 * student_count)], each as often as the pool lists it:
    on that range the comparison of the code, of the capacity with the
    rounded binary64 product [student_count * 0.8], holds exactly from that
    ceiling on. *)
Theorem candidate_rooms_gate_and_order (self : ResourceManager) (block : Block) :
  let n := Block.student_count block in
  let rooms := get_suitable_rooms self block in
  StronglySorted (fun a b => Z.abs (capacity a - n) <= Z.abs (capacity b - n)) rooms
  /\ (0 <= n < 2 ^ 50 ->
      rooms ≡ₚ filter (fun r => min_capacity n <= capacity r) (room_pool self block)
      /\ (forall c, min_capacity n <= c <-> 4 * n <= 5 * c)
      /\ (forall c, capacity_ok default_ratio n c = true <-> min_capacity n <= c)).
Proof.
  cbn zeta. rewrite get_suitable_rooms_unsorted. split.
  - eapply StronglySorted_weaken; [|apply sorted_by_sorted].
    + intros a b Hle. unfold key_le in Hle. lia.
    + unfold key_le. intros a b c. lia.
    + unfold key_le. intros a b. lia.
  - intros Hn. split; [|split; [apply min_capacity_ceiling | intros c; by apply capacity_ok_ceiling]].
    rewrite sorted_by_perm.
    rewrite (filter_ext_iff _ (fun r => min_capacity (Block.student_count block) <= capacity r));
      [done|].
    intros r. by apply capacity_ok_ceiling.
Qed.

(** ** Candidate slots *)

Lemma mapM_Ok {A B} (f : A -> result B) l ys :
  mapM f l = Ok ys -> Forall2 (fun x y => f x = Ok y) l ys.
Proof.
  revert ys. induction l as [|x l IH]; cbn; intros ys Hm.
  - inversion Hm. constructor.
  - destruct (f x) as [y|e] eqn:Ef; cbn in Hm; [|done].
    destruct (mapM f l) as [ys'|e] eqn:Em; cbn in Hm; [|done].
    inversion Hm; subst. constructor; [done | by apply IH].
Qed.

Lemma mapM_total {A B} (f : A -> result B) l :
  (forall x, x ∈ l -> exists y, f x = Ok y) -> exists ys, mapM f l = Ok ys.
Proof.
  induction l as [|x l IH]; cbn; intros Hall; [eauto|].
  destruct (Hall x (list_elem_of_here _ _)) as [y ->]. cbn.
  destruct IH as [ys ->]; [|cbn; eauto].
  intros z Hz. apply Hall. by apply list_elem_of_further.
Qed.

Lemma elem_of_map {A B} (f : A -> B) (l : list A) (y : B) :
  y ∈ map f l <-> exists x, y = f x /\ x ∈ l.
Proof. apply (list_elem_of_fmap f). Qed.

(** A descending stable sort on a boolean key is a stable partition. *)
Lemma sorted_by_bool_desc {A} (key : A -> bool) (l : list A) :
  sorted_by (fun a b : bool => negb a && b) key l
  = filter (fun x => key x = true) l ++ filter (fun x => key x = false) l.
Proof.
  induction l as [|x l IH]; [done|]. cbn [sorted_by foldr]. fold (sorted_by (fun a b : bool => negb a && b) key l).
  rewrite IH, !filter_cons. destruct (key x) eqn:Ex.
  - rewrite decide_True by done. rewrite decide_False by done.
    assert (Hhead : forall L, sorted_insert (fun a b : bool => negb a && b) key x L = x :: L)
      by (intros [|y L]; cbn; rewrite ?Ex; done).
    by rewrite Hhead.
  - rewrite decide_False by done. rewrite decide_True by done.
    assert (Hpre : forall pre post,
               Forall (fun y => key y = true) pre -> Forall (fun y => key y = false) post ->
               sorted_insert (fun a b : bool => negb a && b) key x (pre ++ post)
               = pre ++ x :: post).
    { intros pre post Hpre Hpost. induction Hpre as [|y pre Hy Hpre IHpre]; cbn.
      - destruct Hpost as [|y post Hy _]; cbn; [done|]. rewrite Ex, Hy. done.
      - rewrite Ex, Hy. cbn. by rewrite IHpre. }
    apply Hpre; apply Forall_forall; intros y Hy; by apply list_elem_of_filter in Hy as [? _].
Qed.

Section candidate_slots.
Variable set_order : list SlotKey -> list SlotKey.

(** Iterating over a set visits each of its elements once. *)
Hypothesis set_order_perm : forall l, NoDup l -> set_order l ≡ₚ l.

(** The slot identities that [get_available_slots] turns into slots. *)
Definition available_keys (block : Block) (room : Room)
    (existing_assignments : list (string * Assignment)) : list SlotKey :=
  let staff_slots := set_of (map slot_key (timing_preferences (Block.staff_member block))) in
  let free := free_slot_keys room existing_assignments in
  if is_TeachingAssistant (Block.staff_member block) then
    sorted_by (fun a b : bool => negb a && b)
      (fun x => bool_decide (x ∈ staff_slots)) (set_order free)
  else set_order (filter (fun k => k ∈ staff_slots) free).

Lemma get_available_slots_Ok self block room existing slots :
  get_available_slots set_order self block room existing = Ok slots ->
  map slot_key slots = available_keys block room existing
  /\ Forall (fun slot => end_time slot
                         = mk_time (hour (start_time slot) + time_slot_duration self) 0) slots.
Proof.
  unfold get_available_slots. fold (available_keys block room existing).
  generalize (available_keys block room existing). intros keys Hm.
  apply mapM_Ok in Hm. induction Hm as [|[d st] slot keys slots Hf _ IH]; [done|].
  destruct IH as [IH1 IH2]. unfold time_new in Hf.
  repeat (destruct (negb _); [done|]). cbn in Hf. inversion Hf; subst.
  split; [done | by constructor].
Qed.

Lemma get_available_slots_total self block room existing :
  (forall k, k ∈ available_keys block room existing ->
             0 <= hour k.2 + time_slot_duration self <= 23) ->
  exists slots, get_available_slots set_order self block room existing = Ok slots.
Proof.
  intros Hh. unfold get_available_slots. fold (available_keys block room existing).
  apply mapM_total. intros [d st] Hk. apply Hh in Hk. cbn in Hk. unfold time_new.
  rewrite (proj2 (Z.leb_le _ _)) by lia. rewrite (proj2 (Z.leb_le _ _)) by lia. cbn. eauto.
Qed.

Lemma elem_of_free_slot_keys room existing k :
  k ∈ free_slot_keys room existing
  <-> (exists s, s ∈ availability room /\ slot_key s = k)
      /\ ¬ (exists id a, (id, a) ∈ existing /\ Assignment.room a = room
                         /\ assignment_slot_key a = k).
Proof.
  unfold free_slot_keys, set_of, dict_values.
  rewrite list_elem_of_filter, !elem_of_remove_dups.
  assert (Hused :
            k ∈ map assignment_slot_key
                  (filter (fun a => Assignment.room a = room) (map snd existing))
            <-> exists id a, (id, a) ∈ existing /\ Assignment.room a = room
                             /\ assignment_slot_key a = k).
  { rewrite elem_of_map. split.
    - intros (a & -> & Ha). apply list_elem_of_filter in Ha as [Hr Ha].
      apply elem_of_map in Ha as ([id a'] & -> & Hin). eauto.
    - intros (id & a & Hin & Hr & Hk). exists a. split; [done|].
      apply list_elem_of_filter. split; [done|]. apply elem_of_map.
      by exists (id, a). }
  rewrite Hused, elem_of_map. split.
  - intros [Hn (s & -> & Hs)]. split; [eauto | done].
  - intros [(s & Hs & <-) Hn]. split; [done | eauto].
Qed.

Lemma NoDup_free_slot_keys room existing : NoDup (free_slot_keys room existing).
Proof. unfold free_slot_keys. apply NoDup_filter, NoDup_remove_dups. Qed.

(** A slot identity the staff member of the block lists as a preference. *)
Definition preferred (block : Block) (k : SlotKey) : Prop :=
  exists pref, pref ∈ timing_preferences (Block.staff_member block)
               /\ day pref = k.1 /\ start_time pref = k.2.

Lemma elem_of_staff_slots block k :
  k ∈ set_of (map slot_key (timing_preferences (Block.staff_member block)))
  <-> preferred block k.
Proof.
  unfold set_of, preferred. rewrite elem_of_remove_dups.
  rewrite elem_of_map. unfold slot_key. split.
  - intros (p & -> & Hp). eauto.
  - intros (p & Hp & Hd & Hs). exists p. split; [|done]. destruct k; cbn in *; congruence.
Qed.

Lemma available_keys_lecturer block room existing k :
  is_TeachingAssistant (Block.staff_member block) = false ->
  k ∈ available_keys block room existing ->
  preferred block k /\ k ∈ free_slot_keys room existing.
Proof.
  intros Hta. unfold available_keys. rewrite Hta.
  rewrite set_order_perm by apply NoDup_filter, NoDup_free_slot_keys.
  rewrite list_elem_of_filter, elem_of_staff_slots. done.
Qed.

Lemma available_keys_free block room existing k :
  k ∈ available_keys block room existing -> k ∈ free_slot_keys room existing.
Proof.
  destruct (is_TeachingAssistant (Block.staff_member block)) eqn:Hta.
  - unfold available_keys. rewrite Hta, sorted_by_elem_of.
    by rewrite set_order_perm by apply NoDup_free_slot_keys.
  - intros Hk. by apply available_keys_lecturer in Hk as [_ ?].
Qed.

(** Candidate-slot enumeration.  Every returned slot ends one slot duration
    after its start.  For a lecturer, the identity of every returned slot is
    among the lecturer's timing preferences (and is a free slot of the room).
    For a teaching assistant, the returned identities are exactly the free
    availability slots of the room, each once, whatever the assistant
    prefers, and the preferred ones come before all others.  The enumeration
    returns whenever each free slot ends within the day. *)
Lemma candidate_slots_spec (self : ResourceManager) (block : Block) (room : Room)
    (existing : list (string * Assignment)) :
  let free k :=
    (exists s, s ∈ availability room /\ slot_key s = k)
    /\ ¬ (exists id a, (id, a) ∈ existing /\ Assignment.room a = room
                       /\ assignment_slot_key a = k) in
  (forall slots,
      get_available_slots set_order self block room existing = Ok slots ->
      Forall (fun slot => end_time slot
                          = mk_time (hour (start_time slot) + time_slot_duration self) 0) slots
      /\ (is_Lecturer (Block.staff_member block) = true ->
          forall slot, slot ∈ slots -> preferred block (slot_key slot) /\ free (slot_key slot))
      /\ (is_TeachingAssistant (Block.staff_member block) = true ->
          NoDup (map slot_key slots)
          /\ (forall k, k ∈ map slot_key slots <-> free k)
          /\ exists first rest,
               map slot_key slots = first ++ rest
               /\ Forall (preferred block) first
               /\ Forall (fun k => ¬ preferred block k) rest))
  /\ ((forall k, free k -> 0 <= hour k.2 + time_slot_duration self <= 23) ->
      exists slots, get_available_slots set_order self block room existing = Ok slots).
Proof.
  cbn. split.
  - intros slots Hslots. apply get_available_slots_Ok in Hslots as [Hkeys Hend].
    split; [done|]. split.
    + intros Hlec slot Hslot.
      assert (Hta : is_TeachingAssistant (Block.staff_member block) = false)
        by (destruct (Block.staff_member block); done).
      assert (Hk : slot_key slot ∈ available_keys block room existing).
      { rewrite <- Hkeys. apply elem_of_map. eauto. }
      apply (available_keys_lecturer _ _ _ _ Hta) in Hk as [Hp Hf].
      split; [done | by apply elem_of_free_slot_keys].
    + intros Hta. rewrite Hkeys. unfold available_keys. rewrite Hta, sorted_by_bool_desc.
      pose proof (set_order_perm _ (NoDup_free_slot_keys room existing)) as Hperm.
      set (staff_slots := set_of _).
      assert (Hsplit : filter (fun x => bool_decide (x ∈ staff_slots) = true)
                         (set_order (free_slot_keys room existing))
                       ++ filter (fun x => bool_decide (x ∈ staff_slots) = false)
                            (set_order (free_slot_keys room existing))
                       ≡ₚ free_slot_keys room existing).
      { rewrite (filter_ext_iff (fun x => bool_decide (x ∈ staff_slots) = false)
                   (fun x => ¬ bool_decide (x ∈ staff_slots) = true))
          by (intros x; by rewrite not_true_iff_false).
        by rewrite filter_app_complement. }
      split; [by rewrite Hsplit; apply NoDup_free_slot_keys|]. split.
      * intros k. rewrite Hsplit. apply elem_of_free_slot_keys.
      * eexists _, _. split; [done|]. split; apply Forall_forall; intros k Hk;
          apply list_elem_of_filter in Hk as [Hk _].
        -- apply bool_decide_eq_true in Hk. by apply elem_of_staff_slots.
        -- apply bool_decide_eq_false in Hk. by rewrite <- elem_of_staff_slots.
  - intros Hh. apply get_available_slots_total. intros k Hk. apply Hh.
    apply elem_of_free_slot_keys. by eapply available_keys_free.
Qed.
End candidate_slots.

(** ** What the placement loop commits *)

Lemma can_assign_true self block slot room :
  (can_assign self block slot room).1 = true ->
  check_room_booking self block slot room = true
  /\ check_staff_booking self block slot room = true
  /\ check_room_availability self block slot room = true
  /\ check_single_group_conflict self block slot room = true
  /\ check_lab_requirements self block slot room = true.
Proof.
  unfold can_assign, hard_constraints. cbn.
  repeat (match goal with
          | |- context [if ?c then _ else _] => destruct c eqn:?; cbn; [|done]
          end).
  done.
Qed.

(** The two constraints on the room alone do not look at the manager. *)
Lemma check_lab_requirements_any self self' block slot slot' room :
  check_lab_requirements self block slot room = check_lab_requirements self' block slot' room.
Proof. done. Qed.

Lemma check_room_availability_any self self' block block' slot room :
  check_room_availability self block slot room = check_room_availability self' block' slot room.
Proof. done. Qed.

Section placement.
Variable set_order : list SlotKey -> list SlotKey.
Hypothesis set_order_perm : forall l, NoDup l -> set_order l ≡ₚ l.
Variable resource_manager : ResourceManager.

(** The facts that hold of an entry of the assignments map once the engine
    has committed it, whatever else the manager holds. *)
Definition engine_placed (blocks : list Block) (entry : string * Assignment) : Prop :=
  let a := entry.2 in
  let block := Assignment.block a in
  entry.1 = Block.id block
  /\ block ∈ blocks
  /\ Assignment.room a ∈ get_suitable_rooms resource_manager block
  /\ (exists s, s ∈ availability (Assignment.room a)
                /\ slot_key s = slot_key (Assignment.time_slot a))
  /\ end_time (Assignment.time_slot a)
     = mk_time (hour (start_time (Assignment.time_slot a))
                + time_slot_duration resource_manager) 0
  /\ (is_Lecturer (Block.staff_member block) = true ->
      preferred block (slot_key (Assignment.time_slot a)))
  /\ check_room_availability initialize_fresh_state block (Assignment.time_slot a)
       (Assignment.room a) = true
  /\ check_lab_requirements initialize_fresh_state block (Assignment.time_slot a)
       (Assignment.room a) = true.

Lemma schedule_in_rooms_Some cm block rooms a :
  schedule_in_rooms set_order resource_manager cm block rooms = Ok (Some a) ->
  Assignment.block a = block
  /\ Assignment.room a ∈ rooms
  /\ (exists slots,
        get_available_slots set_order resource_manager block (Assignment.room a)
          (get_all_assignments cm) = Ok slots
        /\ Assignment.time_slot a ∈ slots)
  /\ (can_assign cm block (Assignment.time_slot a) (Assignment.room a)).1 = true.
Proof.
  induction rooms as [|room rooms IH]; intros Hs; [done|].
  cbn [schedule_in_rooms] in Hs.
  destruct (get_available_slots set_order resource_manager block room (get_all_assignments cm))
    as [slots|e] eqn:Eslots; cbn [bind] in Hs; [|done].
  destruct (List.find _ slots) as [slot|] eqn:Efind.
  - injection Hs as <-. cbn. apply find_some in Efind as [Hin Hok].
    split; [done|]. split; [apply list_elem_of_here|]. split; [|done].
    exists slots. split; [done|]. by apply list_elem_of_In.
  - destruct (IH Hs) as (? & ? & ? & ?).
    split; [done|]. split; [by apply list_elem_of_further | done].
Qed.

Lemma schedule_single_block_placed cm blocks block a :
  block ∈ blocks ->
  _schedule_single_block set_order resource_manager cm block = Ok (Some a) ->
  engine_placed blocks (Block.id block, a)
  /\ (can_assign cm block (Assignment.time_slot a) (Assignment.room a)).1 = true.
Proof.
  intros Hblock Hs. apply schedule_in_rooms_Some in Hs as (Hb & Hroom & (slots & Hslots & Hin) & Hcan).
  split; [|done]. pose proof (can_assign_true _ _ _ _ Hcan) as (_ & _ & Hav & _ & Hlab).
  pose proof (get_available_slots_Ok _ _ _ _ _ _ Hslots) as [Hkeys Hend].
  assert (Hk : slot_key (Assignment.time_slot a)
               ∈ available_keys set_order block (Assignment.room a) (get_all_assignments cm)).
  { rewrite <- Hkeys. apply elem_of_map. eauto. }
  unfold engine_placed. cbn. rewrite Hb. repeat split; try done.
  - apply (available_keys_free set_order set_order_perm) in Hk.
    by apply elem_of_free_slot_keys in Hk as [? _].
  - by eapply Forall_forall in Hend.
  - intros Hlec. eapply (available_keys_lecturer set_order set_order_perm); [|exact Hk].
    by destruct (Block.staff_member block).
Qed.

Lemma place_blocks_placed blocks cm sorted_blocks count cm' count' :
  (forall b, b ∈ sorted_blocks -> b ∈ blocks) ->
  Forall (engine_placed blocks) (current_assignments cm) ->
  count = Z.of_nat (length (current_assignments cm)) ->
  place_blocks set_order resource_manager cm sorted_blocks count = Ok (cm', count') ->
  Forall (engine_placed blocks) (current_assignments cm')
  /\ count' = Z.of_nat (length (current_assignments cm')).
Proof.
  revert cm count. induction sorted_blocks as [|block rest IH]; cbn; intros cm count Hsub Hall Hcount.
  - intros [= <- <-]. done.
  - destruct (_schedule_single_block _ _ cm block) as [[a|]|e] eqn:Es; cbn; [| |done].
    + assert (Hb : block ∈ blocks) by (apply Hsub, list_elem_of_here).
      pose proof (schedule_single_block_placed _ _ _ _ Hb Es) as [Hplaced _].
      destruct (make_assignment_cases cm (Block.id block) a)
        as [(_ & _ & Hok & (HA & _))|[_ Hfail]].
      * destruct (make_assignment cm (Block.id block) a) as [ok cm1]. cbn in Hok, HA.
        subst ok. apply IH.
        -- intros b Hin. apply Hsub. by apply list_elem_of_further.
        -- rewrite HA. apply Forall_app. split; [done|]. by constructor.
        -- rewrite HA, length_app. cbn. lia.
      * rewrite Hfail. apply IH; [|done|done].
        intros b Hin. apply Hsub. by apply list_elem_of_further.
    + apply IH; [|done|done]. intros b Hin. apply Hsub. by apply list_elem_of_further.
Qed.

Lemma sort_blocks_perm cm blocks sorted_blocks :
  _sort_blocks_by_priority set_order resource_manager cm blocks = Ok sorted_blocks ->
  sorted_blocks ≡ₚ blocks.
Proof.
  unfold _sort_blocks_by_priority.
  destruct (mapM _ blocks) as [keyed|e] eqn:Em; cbn; [|done]. intros [= <-].
  rewrite sorted_by_perm. apply mapM_Ok in Em.
  assert (map snd keyed = blocks) as <-; [|done].
  induction Em as [|b kb bs keyed Hb _ IH]; [done|]. cbn.
  destruct (get_block_score _ _ _ b); cbn in Hb; [|done]. inversion Hb; subst. done.
Qed.

Lemma run_attempt_placed blocks att :
  run_attempt set_order resource_manager blocks = Ok att ->
  Forall (engine_placed blocks) (attempt_assignments att)
  /\ scheduled_count att = Z.of_nat (length (attempt_assignments att)).
Proof.
  unfold run_attempt.
  destruct (_sort_blocks_by_priority _ _ _ blocks) as [sorted_blocks|e] eqn:Esort; cbn; [|done].
  destruct (place_blocks _ _ _ sorted_blocks 0) as [[cm count]|e] eqn:Eplace; cbn; [|done].
  intros [= <-]. cbn. eapply place_blocks_placed; [| | |exact Eplace]; [|by constructor|done].
  intros b Hb. by rewrite <- (sort_blocks_perm _ _ _ Esort).
Qed.
End placement.

(** The loop over attempts returns the assignments of one of the attempts
    that it ran, unless it keeps its initial empty map. *)
Lemma attempts_loop_origin attempt_body total_blocks remaining attempt best best' :
  attempts_loop attempt_body total_blocks remaining attempt best = Ok best' ->
  best_assignments best' = best_assignments best
  \/ exists k a, attempt_body k = Ok a /\ best_assignments best' = attempt_assignments a.
Proof.
  revert attempt best. induction remaining as [|n IH]; cbn; intros attempt best.
  - intros [= <-]. by left.
  - destruct (attempt_body attempt) as [a|e] eqn:Ebody; cbn; [|done].
    assert (Hup : best_assignments (update_best best a) = best_assignments best
                  \/ best_assignments (update_best best a) = attempt_assignments a).
    { unfold update_best. destruct (_ || _); cbn; auto. }
    destruct (perfect total_blocks a).
    + intros [= <-]. destruct Hup as [->| ->]; [by left | right; eauto].
    + intros Hloop. apply IH in Hloop as [Heq|?]; [|by right].
      rewrite Heq. destruct Hup as [->| ->]; [by left | right; eauto].
Qed.

Lemma schedule_blocks_origin set_order resource_manager course_assignments study_plan_mapping
    max_attempts schedule :
  schedule_blocks set_order resource_manager course_assignments study_plan_mapping max_attempts
  = Ok schedule ->
  exists blocks att,
    _convert_course_assignments_to_blocks course_assignments study_plan_mapping = Ok blocks
    /\ run_attempt set_order resource_manager blocks = Ok att
    /\ schedule = attempt_assignments att.
Proof.
  unfold schedule_blocks, select_best.
  destruct (_convert_course_assignments_to_blocks _ _) as [blocks|e]; cbn; [|done].
  destruct (attempts_loop _ _ _ _ _) as [best|e] eqn:Eloop; cbn; [|done].
  destruct (best_assignments best) as [|entry rest] eqn:Ebest; [done|]. intros [= <-].
  apply attempts_loop_origin in Eloop as [Heq|(k & a & Hbody & Heq)].
  - rewrite Ebest in Heq. done.
  - exists blocks, a. by rewrite <- Heq.
Qed.

(** ** The blocks of a run *)

(** What [_convert_course_assignments_to_blocks] fixes in a block of a
    course: the room kind it asks for and where its preferred rooms come
    from. *)
Definition block_of (course : CourseAssignment) (b : Block) : Prop :=
  (Block.required_room_type b = "hall" \/ Block.required_room_type b = "lab")
  /\ (Block.preferred_rooms b = None
      \/ Block.preferred_rooms b
         = option_map (map RLab) (CourseAssignment.preferred_labs course)).

Lemma group_blocks_elem_of mk n count b :
  b ∈ (group_blocks mk n count).1 -> exists i, mk i = Ok b.
Proof.
  revert count. induction n as [|n IH]; cbn; intros count Hb.
  - by apply elem_of_nil in Hb.
  - destruct (mk count) as [block|e] eqn:Emk; [|by apply elem_of_nil in Hb].
    destruct (group_blocks mk n (count + 1)) as [bs c] eqn:E. cbn in Hb.
    apply elem_of_cons in Hb as [->|Hb]; [eauto|]. apply (IH (count + 1)). by rewrite E.
Qed.

Lemma new_lecture_block_Ok course study_plan l i b :
  new_lecture_block course study_plan l i = Ok b ->
  CourseAssignment.lecture_groups course ≠ 0 /\ b = lecture_block course study_plan l i.
Proof.
  unfold new_lecture_block, floordiv.
  destruct (CourseAssignment.lecture_groups course =? 0) eqn:E; cbn [bind]; [done|].
  intros [= <-]. split; [lia | done].
Qed.

Lemma new_lab_block_Ok course study_plan ta lab_groups i b :
  new_lab_block course study_plan ta lab_groups i = Ok b ->
  lab_groups ≠ 0 /\ b = lab_block course study_plan ta lab_groups i.
Proof.
  unfold new_lab_block, floordiv. destruct (lab_groups =? 0) eqn:E; cbn [bind]; [done|].
  intros [= <-]. split; [lia | done].
Qed.

Lemma lecture_blocks_of course study_plan ls count b :
  b ∈ lecture_blocks course study_plan ls count -> block_of course b.
Proof.
  revert count. induction ls as [|la ls IH]; cbn; intros count Hb.
  - by apply elem_of_nil in Hb.
  - destruct (lecturer la) as [l|]; [|by eapply IH].
    destruct (group_blocks _ _ count) as [bs c] eqn:E.
    apply elem_of_app in Hb as [Hb|Hb]; [|by eapply IH].
    assert (Hb' : b ∈ (group_blocks (new_lecture_block course study_plan l)
                         (Z.to_nat (lecturer_num_of_groups la)) count).1) by by rewrite E.
    apply group_blocks_elem_of in Hb' as [i [_ ->]%new_lecture_block_Ok]. split; cbn; auto.
Qed.

Lemma lab_blocks_of course study_plan lab_groups tas count b :
  b ∈ lab_blocks course study_plan lab_groups tas count -> block_of course b.
Proof.
  revert count. induction tas as [|ta tas IH]; cbn; intros count Hb.
  - by apply elem_of_nil in Hb.
  - destruct (teaching_assistant ta) as [t|]; [|by eapply IH].
    destruct (group_blocks _ _ count) as [bs c] eqn:E.
    apply elem_of_app in Hb as [Hb|Hb]; [|by eapply IH].
    assert (Hb' : b ∈ (group_blocks (new_lab_block course study_plan t lab_groups)
                         (Z.to_nat (ta_num_of_groups ta)) count).1) by by rewrite E.
    apply group_blocks_elem_of in Hb' as [i [_ ->]%new_lab_block_Ok]. split; cbn; [|auto].
    destruct (CourseAssignment.practical_in_lab course); auto.
Qed.

Lemma course_blocks_of course study_plan b :
  b ∈ course_blocks course study_plan -> block_of course b.
Proof.
  unfold course_blocks. intros Hb. apply elem_of_app in Hb as [Hb|Hb].
  - by eapply lecture_blocks_of.
  - destruct (CourseAssignment.lab_groups course) as [g|]; [|by apply elem_of_nil in Hb].
    destruct (_ && _); [|by apply elem_of_nil in Hb]. by eapply lab_blocks_of.
Qed.

Lemma convert_blocks_of course_assignments study_plan_mapping blocks b :
  _convert_course_assignments_to_blocks course_assignments study_plan_mapping = Ok blocks ->
  b ∈ blocks -> exists course, course ∈ course_assignments /\ block_of course b.
Proof.
  unfold _convert_course_assignments_to_blocks. generalize 0%nat. revert blocks.
  induction course_assignments as [|course rest IH]; cbn; intros blocks i.
  - intros [= <-] Hb. by apply elem_of_nil in Hb.
  - destruct (study_plan_mapping !! i) as [study_plan|]; [|done].
    destruct (convert_from (S i) rest study_plan_mapping) as [bs|e] eqn:E; cbn; [|done].
    intros [= <-] Hb. apply elem_of_app in Hb as [Hb|Hb].
    + exists course. split; [apply list_elem_of_here | by eapply course_blocks_of].
    + destruct (IH _ _ E Hb) as (c & Hc & Hof). exists c.
      split; [by apply list_elem_of_further | done].
Qed.

(** Every entry of a schedule that [schedule_blocks] returns was placed by
    the engine, for a block of one of the courses. *)
Lemma schedule_blocks_placed set_order resource_manager course_assignments study_plan_mapping
    max_attempts schedule id a :
  (forall l, NoDup l -> set_order l ≡ₚ l) ->
  schedule_blocks set_order resource_manager course_assignments study_plan_mapping max_attempts
  = Ok schedule ->
  (id, a) ∈ schedule ->
  exists blocks course,
    engine_placed resource_manager blocks (id, a)
    /\ course ∈ course_assignments /\ block_of course (Assignment.block a).
Proof.
  intros Hso Hs Hin.
  apply schedule_blocks_origin in Hs as (blocks & att & Hconv & Hatt & ->).
  apply (run_attempt_placed set_order Hso) in Hatt as [Hall _].
  eapply Forall_forall in Hall; [|exact Hin].
  destruct (convert_blocks_of _ _ _ (Assignment.block a) Hconv) as (course & Hc & Hof).
  { by destruct Hall as (_ & ? & _). }
  eauto.
Qed.

(** ** Room kind and preferred rooms *)

Lemma room_in_elem_of room rooms : room_in room rooms = true -> room ∈ rooms.
Proof.
  unfold room_in. intros H. apply existsb_exists in H as (r & Hr & Heq).
  apply bool_decide_eq_true in Heq. subst. by apply list_elem_of_In.
Qed.

(** C4 (amended). In a schedule returned by [schedule_blocks] the kind of
    every assigned room is the room type its block requires; a block that
    requires a lab and has preferred rooms is in one of them; and a lab closed
    to non-specialist courses is never given to a block without preferred
    rooms. *)
Theorem room_kind_and_preferred_rooms
    (set_order : list SlotKey -> list SlotKey) (resource_manager : ResourceManager)
    (course_assignments : list CourseAssignment) (study_plan_mapping : gmap nat StudyPlan)
    (max_attempts : Z) (schedule : list (string * Assignment)) :
  (forall l, NoDup l -> set_order l ≡ₚ l) ->
  schedule_blocks set_order resource_manager course_assignments study_plan_mapping max_attempts
  = Ok schedule ->
  forall id a, (id, a) ∈ schedule ->
    let block := Assignment.block a in
    let room := Assignment.room a in
    (get_room_key room).1 = Block.required_room_type block
    /\ (Block.required_room_type block = "lab" ->
        truthy (Block.preferred_rooms block) = true ->
        room ∈ default [] (Block.preferred_rooms block))
    /\ (truthy (Block.preferred_rooms block) = false ->
        forall lab, room = RLab lab -> Lab.used_in_non_specialist_courses lab = true).
Proof.
  intros Hso Hs id a Hin. cbn.
  destruct (schedule_blocks_placed _ _ _ _ _ _ _ _ Hso Hs Hin)
    as (blocks & course & Hplaced & _ & [Hkind _]).
  destruct Hplaced as (_ & _ & _ & _ & _ & _ & _ & Hlab). cbn in Hlab.
  unfold check_lab_requirements in Hlab. unfold get_room_key.
  destruct Hkind as [Hk|Hk]; rewrite Hk in *; cbn in Hlab.
  - destruct (Assignment.room a) as [h|l]; cbn in *; [|done].
    split; [done|]. split; [done|]. intros _ lab Hl. done.
  - destruct (Assignment.room a) as [h|l]; cbn in *; [done|].
    split; [done|]. destruct (truthy (Block.preferred_rooms (Assignment.block a))).
    + split; [|done]. intros _ _. by apply room_in_elem_of.
    + split; [done|]. intros _ lab [= <-]. done.
Qed.

(** ** The time grid *)

Definition monday_13 (s : TimePreference) : Prop :=
  day s = MONDAY /\ hour (start_time s) = 13.

Lemma time_slots_day_no_monday_13 fuel duration break d current_time l :
  time_slots_day fuel duration break d current_time = Some (Ok l) ->
  Forall (fun s => ¬ monday_13 s) l.
Proof.
  revert current_time l. induction fuel as [|fuel IH]; cbn; intros current_time l; [done|].
  destruct (_ <=? 19); [|by intros [= <-]].
  destruct (bool_decide (d = MONDAY) && _) eqn:Eskip.
  - destruct (time_new _ 0) as [t|e]; [|done]. apply IH.
  - destruct (time_new (hour current_time + duration) 0) as [slot_end|e]; [|done].
    destruct (if 0 <? break then _ else _) as [t|e]; [|done].
    destruct (time_slots_day fuel duration break d t) as [[rest|e]|] eqn:Erest; [|done|done].
    intros [= <-]. constructor; [|by eapply IH].
    intros [Hd Hh]. cbn in Hd, Hh. subst d. rewrite Hh in Eskip.
    by rewrite bool_decide_eq_true_2 in Eskip.
Qed.

Lemma for_days_Forall (P : TimePreference -> Prop) f ds l :
  (forall d l', f d = Some (Ok l') -> Forall P l') ->
  for_days f ds = Some (Ok l) -> Forall P l.
Proof.
  intros Hf. revert l. induction ds as [|d ds IH]; cbn; intros l.
  - by intros [= <-].
  - destruct (f d) as [[l1|e]|] eqn:E1; [|done|done].
    destruct (for_days f ds) as [[l2|e]|]; [|done|done].
    intros [= <-]. apply Forall_app. split; [by eapply Hf | by apply IH].
Qed.

Lemma generate_time_slots_no_monday_13 duration break grid :
  _generate_time_slots duration break = Some (Ok grid) ->
  Forall (fun s => ¬ monday_13 s) grid.
Proof.
  apply for_days_Forall. intros d l. apply time_slots_day_no_monday_13.
Qed.

(** The default grid is the one that [BaseAvailability] gives every seeded
    room. *)
Lemma default_grid_is_base_availability :
  _generate_time_slots 2 0 = generate_base_availability.
Proof. vm_compute. reflexivity. Qed.

(** The rooms the engine can draw from: the halls and labs of the resource
    manager and the preferred labs of the courses. *)
Definition catalogue (self : ResourceManager) (course_assignments : list CourseAssignment)
    : list Room :=
  map RHall (map snd (halls self))
  ++ map RLab (map snd (labs self))
  ++ concat (map (fun course =>
                    map RLab (default [] (CourseAssignment.preferred_labs course)))
               course_assignments).

Lemma room_pool_catalogue self course_assignments course block room :
  course ∈ course_assignments -> block_of course block ->
  room ∈ room_pool self block -> room ∈ catalogue self course_assignments.
Proof.
  intros Hc [_ Hpref]. unfold room_pool, catalogue. rewrite !elem_of_app.
  case_bool_decide; [|auto].
  destruct (truthy (Block.preferred_rooms block)) eqn:Et.
  - destruct Hpref as [Hp|Hp]; rewrite Hp in *; [done|]. intros Hr. right. right.
    apply list_elem_of_In, in_concat. eexists. split.
    + apply in_map_iff. exists course. split; [done | by apply list_elem_of_In].
    + apply list_elem_of_In. destruct (CourseAssignment.preferred_labs course); done.
  - intros Hr. right. left. apply elem_of_map in Hr as (l & -> & Hl).
    apply list_elem_of_filter in Hl as [_ Hl]. apply elem_of_map. eauto.
Qed.

Lemma ResourceManager_init_time_slots hs ls duration break resource_manager :
  ResourceManager_init hs ls duration break = Some (Ok resource_manager) ->
  _generate_time_slots duration break = Some (Ok (time_slots resource_manager)).
Proof.
  unfold ResourceManager_init.
  destruct (_generate_time_slots duration break) as [[grid|e]|]; [|done|done].
  intros [= <-]. done.
Qed.

(** C8. Monday 13:00 is never scheduled.  When the resource manager was
    built with its time grid and the availability of every room of the
    catalogue lies on that grid, no assignment of a schedule returned by
    [schedule_blocks] starts on Monday at 13, whatever the timing preferences
    of the staff say. *)
Theorem monday_13_never_scheduled
    (set_order : list SlotKey -> list SlotKey)
    (hs : list Hall) (ls : list Lab) (duration break : Z) (resource_manager : ResourceManager)
    (course_assignments : list CourseAssignment) (study_plan_mapping : gmap nat StudyPlan)
    (max_attempts : Z) (schedule : list (string * Assignment)) :
  (forall l, NoDup l -> set_order l ≡ₚ l) ->
  ResourceManager_init hs ls duration break = Some (Ok resource_manager) ->
  (forall room s, room ∈ catalogue resource_manager course_assignments ->
                  s ∈ availability room ->
                  exists g, g ∈ time_slots resource_manager /\ slot_key g = slot_key s) ->
  schedule_blocks set_order resource_manager course_assignments study_plan_mapping max_attempts
  = Ok schedule ->
  forall id a, (id, a) ∈ schedule ->
    ¬ (day (Assignment.time_slot a) = MONDAY /\ hour (start_time (Assignment.time_slot a)) = 13).
Proof.
  intros Hso Hinit Hgrid Hs id a Hin.
  destruct (schedule_blocks_placed _ _ _ _ _ _ _ _ Hso Hs Hin)
    as (blocks & course & Hplaced & Hc & Hof).
  destruct Hplaced as (_ & _ & Hroom & (s & Hs' & Hkey) & _). cbn [fst snd] in Hroom, Hs', Hkey.
  rewrite get_suitable_rooms_unsorted, sorted_by_elem_of in Hroom.
  apply list_elem_of_filter in Hroom as [_ Hroom].
  pose proof (room_pool_catalogue _ _ _ _ _ Hc Hof Hroom) as Hcat.
  destruct (Hgrid _ _ Hcat Hs') as (g & Hg & Hgk).
  apply ResourceManager_init_time_slots in Hinit.
  pose proof (generate_time_slots_no_monday_13 _ _ _ Hinit) as Hno.
  eapply Forall_forall in Hno; [|exact Hg].
  intros [Hd Hh]. apply Hno. unfold monday_13.
  rewrite Hkey in Hgk. unfold slot_key in Hgk. injection Hgk as Hgd Hgs.
  split; [by rewrite Hgd | by rewrite Hgs].
Qed.

(** ** Best attempt *)

Lemma Qltb_lt a b : Qltb a b = true <-> (a < b)%Q.
Proof.
  unfold Qltb. rewrite negb_true_iff. split.
  - intros Hf. apply Qnot_le_lt. intros Hle. apply Qle_bool_iff in Hle. congruence.
  - intros Hlt. destruct (Qle_bool b a) eqn:E; [|done].
    apply Qle_bool_iff in E. by apply Qlt_not_le in Hlt.
Qed.

Lemma Qltb_ge a b : Qltb a b = false <-> (b <= a)%Q.
Proof.
  unfold Qltb. rewrite negb_false_iff. apply Qle_bool_iff.
Qed.

(** [a] is strictly better than [b]: more blocks placed, or as many with a
    strictly higher score. *)
Definition beats (a b : Attempt) : Prop :=
  scheduled_count b < scheduled_count a
  \/ (scheduled_count a = scheduled_count b /\ (attempt_score b < attempt_score a)%Q).

(** An attempt that places all blocks with a mean score of at least 0.95. *)
Definition stops (total_blocks : Z) (a : Attempt) : Prop :=
  scheduled_count a = total_blocks /\ (95 # 100 <= attempt_score a)%Q.

Lemma perfect_stops total_blocks a : perfect total_blocks a = true <-> stops total_blocks a.
Proof.
  unfold perfect, stops. by rewrite andb_true_iff, Z.eqb_eq, Qle_bool_iff.
Qed.

Lemma perfect_goes_on total_blocks a :
  perfect total_blocks a = false <-> ¬ stops total_blocks a.
Proof.
  rewrite <- perfect_stops. destruct (perfect total_blocks a); split; congruence.
Qed.

Section best_attempt.
Variable att : nat -> Attempt.
Variable attempt_body : nat -> result Attempt.
Variable total_blocks : Z.
Variable n : nat.

(** Attempt [k] is run: it is within the budget and no earlier attempt placed
    all blocks with a mean score of at least 0.95. *)
Definition ran (k : nat) : Prop :=
  (k < n)%nat /\ forall j, (j < k)%nat -> ¬ stops total_blocks (att j).

Hypothesis body_returns : forall k, ran k -> attempt_body k = Ok (att k).
Hypothesis count_is_size : forall k, ran k ->
  scheduled_count (att k) = Z.of_nat (length (attempt_assignments (att k))).

Definition best_of (a : Attempt) : Best :=
  mk_Best (attempt_assignments a) (attempt_score a) (scheduled_count a).

(** The state of the three [best_*] variables before attempt [k]. *)
Definition best_inv (k : nat) (best : Best) : Prop :=
  Z.of_nat (length (best_assignments best)) = best_count best
  /\ (forall j, (j < k)%nat ->
        scheduled_count (att j) <= best_count best
        /\ (scheduled_count (att j) = best_count best ->
            (attempt_score (att j) <= best_score best)%Q))
  /\ ((best = initial_best
       /\ forall j, (j < k)%nat ->
            scheduled_count (att j) = 0 /\ (attempt_score (att j) <= 0)%Q)
      \/ exists i, (i < k)%nat /\ best = best_of (att i)
                   /\ forall j, (j < i)%nat -> beats (att i) (att j)).

Lemma best_inv_step k best :
  ran k -> best_inv k best -> best_inv (S k) (update_best best (att k)).
Proof.
  intros Hran (Hsize & Hmax & Horigin). pose proof (count_is_size k Hran) as Hk.
  unfold update_best.
  destruct ((best_count best <? scheduled_count (att k))
            || ((scheduled_count (att k) =? best_count best)
                && Qltb (best_score best) (attempt_score (att k)))) eqn:Ecmp.
  - assert (Hbetter : best_count best < scheduled_count (att k)
                      \/ (scheduled_count (att k) = best_count best
                          /\ (best_score best < attempt_score (att k))%Q)).
    { apply orb_true_iff in Ecmp as [H|H]; [left; lia|right].
      apply andb_true_iff in H as [H1 H2]. apply Qltb_lt in H2. split; [lia | done]. }
    split; [cbn; lia|]. split.
    + intros j Hj. cbn. destruct (decide (j = k)) as [->|Hne].
      { split; [lia|]. intros _. apply Qle_refl. }
      destruct (Hmax j ltac:(lia)) as [Hc Hs]. destruct Hbetter as [Hb|[Hb1 Hb2]].
      * split; [lia|]. intros Heq. lia.
      * split; [lia|]. intros Heq. apply Qle_trans with (best_score best).
        -- apply Hs. lia.
        -- by apply Qlt_le_weak.
    + right. exists k. split; [lia|]. split; [done|]. intros j Hj.
      destruct (Hmax j Hj) as [Hc Hs]. unfold beats.
      destruct Hbetter as [Hb|[Hb1 Hb2]]; [left; lia|].
      destruct (decide (scheduled_count (att j) = best_count best)) as [Heq|Hne].
      * right. split; [lia|]. eapply Qle_lt_trans; [by apply Hs | done].
      * left. lia.
  - apply orb_false_iff in Ecmp as [H1 H2]. apply Z.ltb_ge in H1.
    assert (Hs : scheduled_count (att k) = best_count best ->
                 (attempt_score (att k) <= best_score best)%Q).
    { intros Heq. apply andb_false_iff in H2 as [H2|H2]; [lia|]. by apply Qltb_ge. }
    split; [done|]. split.
    + intros j Hj. destruct (decide (j = k)) as [->|Hne]; [done|]. apply Hmax. lia.
    + destruct Horigin as [[-> Hzero]|(i & Hi & Hbest & Hfirst)].
      * left. split; [done|]. intros j Hj. destruct (decide (j = k)) as [->|Hne].
        -- cbn in H1, Hs. assert (scheduled_count (att k) = 0) as H0 by lia. auto.
        -- apply Hzero. lia.
      * right. exists i. split; [lia | done].
Qed.

Lemma attempts_loop_inv remaining k best :
  (k + remaining = n)%nat ->
  (forall j, (j < k)%nat -> ¬ stops total_blocks (att j)) ->
  best_inv k best ->
  exists K best',
    attempts_loop attempt_body total_blocks remaining k best = Ok best'
    /\ best_inv K best' /\ (forall j, (j < K)%nat <-> ran j).
Proof.
  revert k best. induction remaining as [|r IH]; intros k best Hn Hnot Hinv.
  - exists k, best. split; [done|]. split; [done|]. intros j. unfold ran. split.
    + intros Hj. split; [lia|]. intros j' Hj'. apply Hnot. lia.
    + intros [Hj _]. lia.
  - assert (Hran : ran k) by (split; [lia | done]).
    cbn. rewrite (body_returns k Hran). cbn.
    pose proof (best_inv_step k best Hran Hinv) as Hinv'.
    destruct (perfect total_blocks (att k)) eqn:Eperfect.
    + exists (S k), (update_best best (att k)). split; [done|]. split; [done|].
      intros j. unfold ran. split.
      * intros Hj. split; [lia|]. intros j' Hj'. apply Hnot. lia.
      * intros [Hj Hbefore]. destruct (decide (j < S k)%nat) as [|Hge]; [done|].
        apply perfect_stops in Eperfect. destruct (Hbefore k); [lia | done].
    + apply perfect_goes_on in Eperfect.
      apply IH; [lia| |done]. intros j Hj. destruct (decide (j = k)) as [->|Hne]; [done|].
      apply Hnot. lia.
Qed.
End best_attempt.




(** *** The attempts of one run

    Every attempt starts from the fresh manager and iterates in the same
    order, so within one run all attempts are the same attempt. *)

Lemma place_blocks_count set_order resource_manager cm sorted_blocks count cm' count' :
  count = Z.of_nat (length (current_assignments cm)) ->
  place_blocks set_order resource_manager cm sorted_blocks count = Ok (cm', count') ->
  count' = Z.of_nat (length (current_assignments cm')).
Proof.
  revert cm count. induction sorted_blocks as [|block rest IH]; cbn [place_blocks];
    intros cm count Hcount.
  - by intros [= <- <-].
  - destruct (_schedule_single_block _ _ cm block) as [[a|]|e]; cbn [bind]; [| |done].
    + destruct (make_assignment_cases cm (Block.id block) a)
        as [(_ & _ & Hok & (HA & _))|[_ Hfail]].
      * destruct (make_assignment cm (Block.id block) a) as [ok cm1]. cbn in Hok, HA.
        subst ok. apply IH. rewrite HA, length_app. cbn. lia.
      * rewrite Hfail. by apply IH.
    + by apply IH.
Qed.

Lemma run_attempt_count set_order resource_manager blocks att :
  run_attempt set_order resource_manager blocks = Ok att ->
  scheduled_count att = Z.of_nat (length (attempt_assignments att)).
Proof.
  unfold run_attempt.
  destruct (_sort_blocks_by_priority _ _ _ blocks) as [sorted_blocks|e]; cbn [bind]; [|done].
  destruct (place_blocks _ _ _ sorted_blocks 0) as [[cm count]|e] eqn:Eplace; cbn [bind]; [|done].
  intros [= <-]. cbn. by eapply place_blocks_count; [|exact Eplace].
Qed.


(** With at least one attempt allowed, [schedule_blocks] returns what its
    first attempt placed, and raises its error when that is nothing. *)
Lemma schedule_blocks_first_attempt set_order resource_manager course_assignments
    study_plan_mapping max_attempts blocks att :
  _convert_course_assignments_to_blocks course_assignments study_plan_mapping = Ok blocks ->
  run_attempt set_order resource_manager blocks = Ok att ->
  0 < max_attempts ->
  schedule_blocks set_order resource_manager course_assignments study_plan_mapping max_attempts
  = match attempt_assignments att with
    | [] => Raise (ValueError "Could not find a valid schedule")
    | schedule => Ok schedule
    end.
Proof.
  intros Hconv Hrun Hmax. unfold schedule_blocks, select_best. rewrite Hconv. cbn [bind].
  pose proof (run_attempt_count _ _ _ _ Hrun) as Hcount.
  destruct (attempts_loop_inv (fun _ => att)
              (fun _ => run_attempt set_order resource_manager blocks)
              (Z.of_nat (length blocks)) (Z.to_nat max_attempts)
              (fun _ _ => Hrun) (fun _ _ => Hcount) (Z.to_nat max_attempts) 0%nat initial_best)
    as (K & best & Hloop & (Hsize & Hmaxi & Horigin) & HK).
  { lia. }
  { intros j Hj. lia. }
  { split; [done|]. split; [intros j Hj; lia|]. left. split; [done|]. intros j Hj. lia. }
  rewrite Hloop. cbn [bind].
  destruct Horigin as [[-> Hzero]|(i & _ & -> & _)];
    [|cbn; by destruct (attempt_assignments att)].
  cbn.
  assert (H0 : (0 < K)%nat). { apply HK. split; [lia|]. intros j Hj. lia. }
  destruct (Hzero 0%nat H0) as [Hz _]. rewrite Hcount in Hz.
  destruct (attempt_assignments att); [done | cbn in Hz; lia].
Qed.

(** ** Lecturer preferences in a schedule *)

(** C5. Lecturer preferences are strict and assistant preferences are soft.
    Candidate-slot enumeration returns, for a lecturer, only slots whose
    identity is among the lecturer's timing preferences, and hence every
    assignment of a lecturer's block in a schedule returned by
    [schedule_blocks] lies on one of the lecturer's preferences.  For a
    teaching assistant it returns exactly the free availability slots of the
    room, each once, whatever the assistant prefers, with the preferred ones
    before all others. *)
Theorem lecturer_strict_assistant_soft (set_order : list SlotKey -> list SlotKey) :
  (forall l, NoDup l -> set_order l ≡ₚ l) ->
  (forall (self : ResourceManager) (block : Block) (room : Room)
          (existing : list (string * Assignment)) (slots : list TimePreference),
      let free k :=
        (exists s, s ∈ availability room /\ slot_key s = k)
        /\ ¬ (exists id a, (id, a) ∈ existing /\ Assignment.room a = room
                           /\ assignment_slot_key a = k) in
      get_available_slots set_order self block room existing = Ok slots ->
      (is_Lecturer (Block.staff_member block) = true ->
       forall slot, slot ∈ slots -> preferred block (slot_key slot))
      /\ (is_TeachingAssistant (Block.staff_member block) = true ->
          NoDup (map slot_key slots)
          /\ (forall k, k ∈ map slot_key slots <-> free k)
          /\ exists first rest,
               map slot_key slots = first ++ rest
               /\ Forall (preferred block) first
               /\ Forall (fun k => ¬ preferred block k) rest))
  /\ (forall (resource_manager : ResourceManager) (course_assignments : list CourseAssignment)
             (study_plan_mapping : gmap nat StudyPlan) (max_attempts : Z)
             (schedule : list (string * Assignment)) (id : string) (a : Assignment),
        schedule_blocks set_order resource_manager course_assignments study_plan_mapping
          max_attempts = Ok schedule ->
        (id, a) ∈ schedule ->
        is_Lecturer (Block.staff_member (Assignment.block a)) = true ->
        preferred (Assignment.block a) (slot_key (Assignment.time_slot a))).
Proof.
  intros Hso. split.
  - intros self block room existing slots free Hslots.
    destruct (candidate_slots_spec set_order Hso self block room existing) as [Hspec _].
    destruct (Hspec slots Hslots) as (_ & Hlec & Hta). split; [|done].
    intros Hl slot Hslot. by apply Hlec.
  - intros rm cas spm max schedule id a Hs Hin Hlec.
    destruct (schedule_blocks_placed _ _ _ _ _ _ _ _ Hso Hs Hin) as (blocks & course & Hplaced & _).
    destruct Hplaced as (_ & _ & _ & _ & _ & Hpref & _). by apply Hpref.
Qed.

(** ** The cohort rule *)

(** The study-plan key of an assignment: academic list and slot identity. *)
Definition plan_key (a : Assignment) : string * Day * time :=
  (Block.academic_list (Assignment.block a),
   day (Assignment.time_slot a), start_time (Assignment.time_slot a)).

(** What the placement loop maintains about cohorts: entries are keyed by
    the id of their block, ids are not repeated, the study-plan index lists
    every stored block under its key, and a single-group block shares its
    key with no other stored block. *)
Definition cohort_inv (self : ConstraintManager) : Prop :=
  Forall (fun entry => entry.1 = Block.id (Assignment.block entry.2)) (current_assignments self)
  /\ NoDup (dict_keys (current_assignments self))
  /\ (forall id a, (id, a) ∈ current_assignments self ->
        exists ids, study_plan_slots (state self) !! plan_key a = Some ids /\ id ∈ ids)
  /\ (forall id1 a1 id2 a2,
        (id1, a1) ∈ current_assignments self -> (id2, a2) ∈ current_assignments self ->
        plan_key a1 = plan_key a2 ->
        Block.is_single_group_course (Assignment.block a1) = true ->
        id1 = id2).

Lemma cohort_inv_fresh : cohort_inv initialize_fresh_state.
Proof.
  split; [constructor|]. split; [constructor|].
  split; [intros ?? Hin | intros ???? Hin]; by apply elem_of_nil in Hin.
Qed.

Lemma lookup_block_stored self id a :
  Forall (fun entry => entry.1 = Block.id (Assignment.block entry.2)) (current_assignments self) ->
  NoDup (dict_keys (current_assignments self)) ->
  (id, a) ∈ current_assignments self ->
  lookup_block self id = Some (Assignment.block a).
Proof.
  unfold lookup_block, dict_values, dict_keys.
  induction (current_assignments self) as [|[id' a'] A IH]; cbn; intros Hids Hnd Hin.
  - by apply elem_of_nil in Hin.
  - apply Forall_cons in Hids as [Hid Hids]. apply NoDup_cons in Hnd as [Hnew Hnd].
    cbn in Hid. apply elem_of_cons in Hin as [Heq|Hin].
    + inversion Heq; subst. by rewrite bool_decide_eq_true_2.
    + rewrite bool_decide_eq_false_2; [by apply IH|].
      intros Heq. apply Hnew. apply elem_of_map. exists (id, a). split; [|done].
      cbn. congruence.
Qed.

Lemma existing_blocks_ok_not_single block existing_blocks b :
  existing_blocks_ok block existing_blocks = true -> b ∈ existing_blocks ->
  Block.is_single_group_course b = false.
Proof.
  induction existing_blocks as [|e rest IH]; cbn; intros Hok Hb.
  - by apply elem_of_nil in Hb.
  - destruct (Block.is_single_group_course e) eqn:Ee; [done|].
    destruct (_ && _); [done|].
    apply elem_of_cons in Hb as [->|Hb]; [done | by apply IH].
Qed.

Lemma cohort_inv_commit self a self' :
  cohort_inv self ->
  check_single_group_conflict self (Assignment.block a) (Assignment.time_slot a)
    (Assignment.room a) = true ->
  dict_get (Block.id (Assignment.block a)) (current_assignments self) = None ->
  committed self self' (Block.id (Assignment.block a)) a ->
  cohort_inv self'.
Proof.
  intros (Hids & Hnd & Hindex & Halone) Hcheck Hnew (HA & _ & _ & _ & _ & HS).
  cbn [fst snd assignment_slot_key] in HS. fold (plan_key a) in HS.
  assert (Hother : forall id' a', (id', a') ∈ current_assignments self ->
                     plan_key a' = plan_key a ->
                     Block.is_single_group_course (Assignment.block a) = false
                     /\ Block.is_single_group_course (Assignment.block a') = false).
  { intros id' a' Hin Hkey. destruct (Hindex id' a' Hin) as (ids & Hids' & Hid').
    unfold check_single_group_conflict in Hcheck. fold (plan_key a) in Hcheck.
    rewrite <- Hkey, Hids' in Hcheck.
    destruct (Block.is_single_group_course (Assignment.block a)); [done|]. split; [done|].
    eapply existing_blocks_ok_not_single; [exact Hcheck|].
    apply list_elem_of_omap. exists id'. split; [done|]. by apply lookup_block_stored. }
  split; [|split; [|split]].
  - rewrite HA. apply Forall_app. split; [done|]. by constructor.
  - rewrite HA. unfold dict_keys. rewrite map_app. apply NoDup_app. split; [done|].
    split; [|apply NoDup_singleton].
    intros k Hk Hk'. apply list_elem_of_singleton in Hk'. cbn in Hk'. subst k.
    by apply dict_get_None in Hnew.
  - intros id' a'. rewrite HA, HS. intros Hin. apply elem_of_app in Hin as [Hin|Hin].
    + destruct (Hindex id' a' Hin) as (ids & Hids' & Hid').
      destruct (decide (plan_key a = plan_key a')) as [Heq|Hne].
      * rewrite <- Heq, lookup_insert_eq. eexists. split; [done|].
        rewrite Heq, Hids'. cbn. apply elem_of_app. by left.
      * rewrite lookup_insert_ne by done. eauto.
    + apply list_elem_of_singleton in Hin. inversion Hin; subst.
      rewrite lookup_insert_eq. eexists. split; [done|]. apply elem_of_app. right.
      apply list_elem_of_here.
  - intros id1 a1 id2 a2. rewrite HA. intros H1 H2 Hkey Hsingle.
    apply elem_of_app in H1 as [H1|H1], H2 as [H2|H2].
    + by eapply Halone.
    + apply list_elem_of_singleton in H2. inversion H2; subst.
      destruct (Hother id1 a1 H1 Hkey) as [_ Hf]. congruence.
    + apply list_elem_of_singleton in H1. inversion H1; subst.
      destruct (Hother id2 a2 H2 (eq_sym Hkey)) as [Hf _]. congruence.
    + apply list_elem_of_singleton in H1, H2. congruence.
Qed.

Lemma place_blocks_cohort set_order resource_manager cm sorted_blocks count cm' count' :
  cohort_inv cm ->
  place_blocks set_order resource_manager cm sorted_blocks count = Ok (cm', count') ->
  cohort_inv cm'.
Proof.
  revert cm count. induction sorted_blocks as [|block rest IH]; cbn [place_blocks]; intros cm count Hinv.
  - by intros [= <- _].
  - destruct (_schedule_single_block _ _ cm block) as [[a|]|e] eqn:Es; cbn [bind]; [| |done].
    + apply schedule_in_rooms_Some in Es as (Hb & _ & _ & Hcan).
      apply can_assign_true in Hcan as (_ & _ & _ & Hcohort & _).
      destruct (make_assignment_cases cm (Block.id block) a)
        as [(Hnew & _ & Hok & Hcommit)|[_ Hfail]].
      * destruct (make_assignment cm (Block.id block) a) as [ok cm1]. cbn in Hok, Hcommit.
        subst ok. apply IH. rewrite <- Hb in Hcohort, Hnew, Hcommit.
        by eapply cohort_inv_commit.
      * rewrite Hfail. by apply IH.
    + by apply IH.
Qed.

Lemma run_attempt_cohort set_order resource_manager blocks att :
  run_attempt set_order resource_manager blocks = Ok att ->
  exists cm, cohort_inv cm /\ attempt_assignments att = current_assignments cm.
Proof.
  unfold run_attempt.
  destruct (_sort_blocks_by_priority _ _ _ blocks) as [sorted_blocks|e]; cbn [bind]; [|done].
  destruct (place_blocks _ _ _ sorted_blocks 0) as [[cm count]|e] eqn:Eplace; cbn [bind]; [|done].
  intros [= <-]. exists cm. split; [|done].
  eapply place_blocks_cohort; [apply cohort_inv_fresh | exact Eplace].
Qed.

(** X27. In a schedule returned by [schedule_blocks], an assigned block with
    [is_single_group_course = true] is the only assigned block of its
    academic list at its slot, at every academic level. *)
Theorem single_group_block_alone
    (set_order : list SlotKey -> list SlotKey) (resource_manager : ResourceManager)
    (course_assignments : list CourseAssignment) (study_plan_mapping : gmap nat StudyPlan)
    (max_attempts : Z) (schedule : list (string * Assignment)) :
  schedule_blocks set_order resource_manager course_assignments study_plan_mapping max_attempts
  = Ok schedule ->
  forall id1 a1 id2 a2,
    (id1, a1) ∈ schedule -> (id2, a2) ∈ schedule ->
    Block.academic_list (Assignment.block a1) = Block.academic_list (Assignment.block a2) ->
    slot_key (Assignment.time_slot a1) = slot_key (Assignment.time_slot a2) ->
    Block.is_single_group_course (Assignment.block a1) = true
    \/ Block.is_single_group_course (Assignment.block a2) = true ->
    id1 = id2 /\ a1 = a2.
Proof.
  intros Hs id1 a1 id2 a2 H1 H2 Hlist Hslot Hsingle.
  apply schedule_blocks_origin in Hs as (blocks & att & _ & Hatt & ->).
  apply run_attempt_cohort in Hatt as (cm & (Hids & Hnd & _ & Halone) & HA).
  rewrite HA in H1, H2.
  assert (Hkey : plan_key a1 = plan_key a2).
  { unfold plan_key. unfold slot_key in Hslot. congruence. }
  assert (Hid : id1 = id2).
  { destruct Hsingle as [Hsingle|Hsingle]; [by eapply Halone|].
    symmetry. by eapply Halone. }
  split; [done|]. subst id2.
  apply (dict_get_elem_of _ _ _ Hnd) in H1, H2. congruence.
Qed.

(** * Scenarios

    A small faculty: three slots of the grid and Monday 13:00, which is not
    on it; two halls, one lab, five staff members and one academic list. *)

Definition sun9 : TimePreference := mk_TimePreference SUNDAY (mk_time 9 0) (mk_time 11 0).
Definition sun11 : TimePreference := mk_TimePreference SUNDAY (mk_time 11 0) (mk_time 13 0).
Definition mon9 : TimePreference := mk_TimePreference MONDAY (mk_time 9 0) (mk_time 11 0).
Definition mon13 : TimePreference := mk_TimePreference MONDAY (mk_time 13 0) (mk_time 15 0).

Definition cs : Department := mk_Department 1 "CS".
Definition professor : AcademicDegree := mk_AcademicDegree 1 "Professor" "Prof".
Definition demonstrator : AcademicDegree := mk_AcademicDegree 4 "Demonstrator" "Eng".

Definition lecturer_1 : StaffMember.t :=
  StaffMember.mk 1 "Lecturer 1" cs [sun9; mon9; mon13] professor true.
Definition lecturer_2 : StaffMember.t := StaffMember.mk 2 "Lecturer 2" cs [sun11] professor true.
Definition lecturer_3 : StaffMember.t := StaffMember.mk 3 "Lecturer 3" cs [sun9] professor true.
Definition lecturer_4 : StaffMember.t := StaffMember.mk 4 "Lecturer 4" cs [sun11] professor true.
Definition assistant_1 : StaffMember.t :=
  StaffMember.mk 5 "Assistant 1" cs [sun11] demonstrator true.

Definition hall_a : Hall := Hall.mk 1 "A" 30 [sun9; sun11; mon9].
Definition hall_b : Hall := Hall.mk 2 "B" 30 [sun9; sun11].
Definition lab_a : Lab := Lab.mk 1 "L1" 30 [sun9; sun11] GENERAL true.
Definition cs_list : AcademicList.t := AcademicList.mk 1 "CS-2024" cs.

Definition example_rm : ResourceManager :=
  match ResourceManager_init [hall_a; hall_b] [lab_a] 2 0 with
  | Some (Ok rm) => rm
  | _ => mk_ResourceManager [] [] 2 0 [] []
  end.

Definition plan_of (courses : list CourseAssignment) : StudyPlan :=
  StudyPlan.mk "CS level 1" cs_list 1 20 courses.

(** One lecture group, taught by a lecturer free on Sunday and on Monday. *)
Definition course_101 : CourseAssignment :=
  CourseAssignment.mk 101 "CS101" 1 [mk_LecturerAssignment (Some lecturer_1) 1]
    (Some 0) None true None false.

(** A practical session held in a hall, with a preferred lab all the same. *)
Definition course_102 : CourseAssignment :=
  CourseAssignment.mk 102 "CS102" 1 [mk_LecturerAssignment (Some lecturer_1) 1]
    (Some 1) (Some [mk_TAAssignment (Some assistant_1) 1]) false (Some [lab_a]) false.

(** Two courses of the same cohort, each with two lecture groups. *)
Definition course_201 : CourseAssignment :=
  CourseAssignment.mk 201 "CS201" 2
    [mk_LecturerAssignment (Some lecturer_1) 1; mk_LecturerAssignment (Some lecturer_2) 1]
    (Some 0) None true None false.
Definition course_202 : CourseAssignment :=
  CourseAssignment.mk 202 "CS202" 2
    [mk_LecturerAssignment (Some lecturer_3) 1; mk_LecturerAssignment (Some lecturer_4) 1]
    (Some 0) None true None false.

Definition mapping_of (courses : list CourseAssignment) : gmap nat StudyPlan :=
  list_to_map (imap (fun i _ => (i, plan_of courses)) courses).

Definition list_order : list SlotKey -> list SlotKey := fun l => l.
Definition reverse_order : list SlotKey -> list SlotKey := fun l => rev l.

Definition schedule_of (r : result (list (string * Assignment))) : list (string * Assignment) :=
  match r with
  | Ok schedule => schedule
  | Raise _ => []
  end.

Definition schedule_101 : list (string * Assignment) :=
  Eval vm_compute in
    schedule_of (schedule_blocks list_order example_rm [course_101] (mapping_of [course_101]) 100).
Definition schedule_102 : list (string * Assignment) :=
  Eval vm_compute in
    schedule_of (schedule_blocks list_order example_rm [course_102] (mapping_of [course_102]) 100).
Definition schedule_20x : list (string * Assignment) :=
  Eval vm_compute in
    schedule_of (schedule_blocks list_order example_rm [course_201; course_202]
                   (mapping_of [course_201; course_202]) 100).

(** The blocks of [course_102], and two assignments made by hand. *)
Definition lecture_102 : Block := lecture_block course_102 (plan_of [course_102]) lecturer_1 1.
Definition practical_102 : Block :=
  lab_block course_102 (plan_of [course_102]) assistant_1 1 1.

Definition lecture_102_sun9 : Assignment := Assignment.mk lecture_102 sun9 (RHall hall_a).
(** Against H3 (the slot runs until 23:00, past what hall [B] offers), H4
    (the single-group lecture of the same cohort sits in that slot) and H5 (a
    lab block with a preferred lab, put in a hall). *)
Definition lab_block_in_hall : Block :=
  lab_block (CourseAssignment.mk 102 "CS102" 1 [mk_LecturerAssignment (Some lecturer_1) 1]
               (Some 1) (Some [mk_TAAssignment (Some assistant_1) 1]) true (Some [lab_a]) false)
    (plan_of [course_102]) assistant_1 1 1.
Definition rogue_assignment : Assignment :=
  Assignment.mk lab_block_in_hall (mk_TimePreference SUNDAY (mk_time 9 0) (mk_time 23 0))
    (RHall hall_b).

Definition example_ops : list op := [Reset; MakeAssignment "L_CS102_1_1" lecture_102_sun9].

(** The same hall, slot and lecturer once more, under another block id. *)
Definition lecture_101 : Block := lecture_block course_101 (plan_of [course_101]) lecturer_1 1.
Definition lecture_101_sun9 : Assignment := Assignment.mk lecture_101 sun9 (RHall hall_a).
Definition double_booking_ops : list op :=
  example_ops ++ [MakeAssignment "L_CS101_1_1" lecture_101_sun9].

Definition practical_102_sun11 : Assignment := Assignment.mk practical_102 sun11 (RHall hall_a).

Lemma list_order_perm l : NoDup l -> list_order l ≡ₚ l.
Proof. done. Qed.

Lemma reverse_order_perm l : NoDup l -> reverse_order l ≡ₚ l.
Proof. intros _. unfold reverse_order. symmetry. apply Permutation_rev. Qed.

Lemma example_rm_init :
  ResourceManager_init [hall_a; hall_b] [lab_a] 2 0 = Some (Ok example_rm).
Proof. vm_compute. reflexivity. Qed.

Lemma schedule_101_run :
  schedule_blocks list_order example_rm [course_101] (mapping_of [course_101]) 100
  = Ok schedule_101.
Proof. vm_compute. reflexivity. Qed.

Lemma schedule_102_run :
  schedule_blocks list_order example_rm [course_102] (mapping_of [course_102]) 100
  = Ok schedule_102.
Proof. vm_compute. reflexivity. Qed.

Lemma schedule_20x_run :
  schedule_blocks list_order example_rm [course_201; course_202]
    (mapping_of [course_201; course_202]) 100
  = Ok schedule_20x.
Proof. vm_compute. reflexivity. Qed.

(** Membership in an explicit list. *)
Ltac in_list := repeat first [apply list_elem_of_here | apply list_elem_of_further].

(** ** C1, C2, C10 on the hand-made assignments *)

(** After a second commit into the same hall and slot, the slot still holds
    the first block alone. *)
Lemma no_double_booking_witness :
  booked (room_bookings (state (run_ops double_booking_ops)))
    (get_room_key (RHall hall_a)) (slot_key sun9) = Some "L_CS102_1_1"
  /\ (("L_CS102_1_1" : string) = "L_CS102_1_1" /\ lecture_102_sun9 = lecture_102_sun9).
Proof.
  split.
  - apply (proj1 (proj2 (proj2 (no_double_booking double_booking_ops)))).
    exists lecture_102_sun9. split; [vm_compute; in_list | split; reflexivity].
  - apply (proj1 (no_double_booking double_booking_ops)
             "L_CS102_1_1" lecture_102_sun9 "L_CS102_1_1" lecture_102_sun9);
      [vm_compute; in_list | vm_compute; in_list | reflexivity | reflexivity].
Defined.

(** The second commit of [double_booking_ops] finds the hall and the
    lecturer taken; a commit under the stored block id is refused as well. *)
Lemma make_assignment_atomic_witness :
  make_assignment (run_ops example_ops) "L_CS101_1_1" lecture_101_sun9
  = (false, run_ops example_ops)
  /\ make_assignment (run_ops example_ops) "L_CS102_1_1" practical_102_sun11
     = (false, run_ops example_ops).
Proof.
  split.
  - apply (proj2 (proj2 (make_assignment_atomic (run_ops example_ops) "L_CS101_1_1"
                           lecture_101_sun9))).
    exists "L_CS102_1_1", lecture_102_sun9. split; [vm_compute; in_list|].
    split; [reflexivity | left; reflexivity].
  - apply (proj1 (proj2 (make_assignment_atomic (run_ops example_ops) "L_CS102_1_1"
                           practical_102_sun11))).
    vm_compute. eauto.
Defined.

Lemma make_assignment_checks_only_booking_witness :
  let self := run_ops example_ops in
  let block := Assignment.block rogue_assignment in
  let slot := Assignment.time_slot rogue_assignment in
  let room := Assignment.room rogue_assignment in
  check_room_availability self block slot room = false
  /\ check_single_group_conflict self block slot room = false
  /\ check_lab_requirements self block slot room = false
  /\ (can_assign self block slot room).1 = false
  /\ (make_assignment self "P_CS102_5_1" rogue_assignment).1 = true.
Proof.
  cbn zeta. repeat (split; [vm_compute; reflexivity|]).
  apply (make_assignment_checks_only_booking example_ops "P_CS102_5_1" rogue_assignment);
    vm_compute; reflexivity.
Defined.

(** ** C6 on the lecture of [course_101] *)

Lemma lecture_101_count : 0 <= Block.student_count lecture_101 < 2 ^ 50.
Proof. vm_compute. split; [discriminate | reflexivity]. Qed.

Lemma candidate_rooms_gate_and_order_witness :
  Block.student_count lecture_101 = 20
  /\ get_suitable_rooms example_rm lecture_101 ≡ₚ [RHall hall_a; RHall hall_b]
  /\ (forall c, capacity_ok default_ratio 20 c = true <-> min_capacity 20 <= c).
Proof.
  split; [reflexivity|]. split.
  - apply (proj1 (proj2 (candidate_rooms_gate_and_order example_rm lecture_101)
                   lecture_101_count)).
  - apply (proj2 (proj2 (proj2 (candidate_rooms_gate_and_order example_rm lecture_101)
                           lecture_101_count))).
Defined.

(** ** C6 as stated fails: a cohort so large that the product is rounded down *)

(** Of 6388651933432119 students four fifths are 5110921546745695.2; the
    binary64 product is 5110921546745695, and a hall of that capacity is
    offered, and booked, for them. *)
Definition crowd_plan : StudyPlan :=
  StudyPlan.mk "CS level 1" cs_list 1 6388651933432119 [course_101].

Definition crowd_lecture : Block := lecture_block course_101 crowd_plan lecturer_1 1.

Definition vast_hall : Hall := Hall.mk 3 "V" 5110921546745695 [sun9; sun11].

Definition vast_rm : ResourceManager :=
  match ResourceManager_init [vast_hall] [] 2 0 with
  | Some (Ok rm) => rm
  | _ => mk_ResourceManager [] [] 2 0 [] []
  end.

Lemma gate_admits_below_ceiling :
  _convert_course_assignments_to_blocks [course_101] {[ 0%nat := crowd_plan ]}
  = Ok [crowd_lecture]
  /\ Block.student_count crowd_lecture = 6388651933432119
  /\ room_pool vast_rm crowd_lecture = [RHall vast_hall]
  /\ get_suitable_rooms vast_rm crowd_lecture = [RHall vast_hall]
  /\ min_capacity (Block.student_count crowd_lecture) = 5110921546745696
  /\ capacity (RHall vast_hall) = 5110921546745695
  /\ filter (fun r => min_capacity (Block.student_count crowd_lecture) <= capacity r)
       (room_pool vast_rm crowd_lecture) = []
  /\ schedule_blocks list_order vast_rm [course_101] {[ 0%nat := crowd_plan ]} 1
     = Ok [("L_CS101_1_1", Assignment.mk crowd_lecture sun9 (RHall vast_hall))].
Proof. repeat split; vm_compute; reflexivity. Qed.

(** ** C3: two courses of one cohort in one slot *)

(** C3. For two courses of one study plan with two lecture groups each,
    [schedule_blocks] returns a schedule in which the second groups of both
    courses, blocks of one cohort with different course codes and the same
    group number, share Sunday 11:00.  The check
    [check_student_schedule_conflict], which is not among the registered hard
    constraints, refuses that placement, and [_check_student_conflicts] of
    the validator reports the two entries as a [STUDENT_CONFLICT]. *)
Lemma different_courses_share_cohort_slot :
  exists a1 a2,
    schedule_blocks list_order example_rm [course_201; course_202]
      (mapping_of [course_201; course_202]) 100 = Ok schedule_20x
    /\ ("L_CS201_2_2", a1) ∈ schedule_20x /\ ("L_CS202_4_2", a2) ∈ schedule_20x
    /\ Block.academic_list (Assignment.block a1) = Block.academic_list (Assignment.block a2)
    /\ Block.academic_level (Assignment.block a1) = Block.academic_level (Assignment.block a2)
    /\ slot_key (Assignment.time_slot a1) = slot_key (Assignment.time_slot a2)
    /\ Block.is_single_group_course (Assignment.block a1) = false
    /\ Block.is_single_group_course (Assignment.block a2) = false
    /\ Block.course_code (Assignment.block a1) ≠ Block.course_code (Assignment.block a2)
    /\ Block.group_number (Assignment.block a1) = Block.group_number (Assignment.block a2)
    /\ check_student_schedule_conflict (Assignment.block a2) (Assignment.time_slot a2)
         (Assignment.room a2) [a1] = false
    /\ exists reports,
         _check_student_conflicts (fun codes => codes) schedule_20x = Ok reports
         /\ map (fun report => (conflict_type report, affected_assignments report)) reports
            = [("STUDENT_CONFLICT", ["L_CS201_2_2"; "L_CS202_4_2"])].
Proof.
  eexists _, _. split; [exact schedule_20x_run|].
  split; [unfold schedule_20x; in_list|]. split; [unfold schedule_20x; in_list|].
  repeat split; try (vm_compute; reflexivity); [vm_compute; discriminate|].
  eexists. split; vm_compute; reflexivity.
Defined.

(** ** A single-group block is alone in its slot *)

Lemma single_group_block_alone_witness :
  ("L_CS102_1_1" : string) = "L_CS102_1_1" /\ lecture_102_sun9 = lecture_102_sun9.
Proof.
  apply (single_group_block_alone list_order example_rm [course_102] (mapping_of [course_102])
           100 schedule_102 schedule_102_run
           "L_CS102_1_1" lecture_102_sun9 "L_CS102_1_1" lecture_102_sun9);
    [unfold schedule_102; in_list | unfold schedule_102; in_list
     | reflexivity | reflexivity | left; reflexivity].
Defined.

(** ** C4 as stated fails: a hall block with a preferred lab *)

Lemma preferred_lab_ignored_by_hall_block :
  exists a,
    schedule_blocks list_order example_rm [course_102] (mapping_of [course_102]) 100
    = Ok schedule_102
    /\ ("P_CS102_5_1", a) ∈ schedule_102
    /\ Block.preferred_rooms (Assignment.block a) = Some [RLab lab_a]
    /\ Assignment.room a = RHall hall_a
    /\ Assignment.room a ∉ default [] (Block.preferred_rooms (Assignment.block a)).
Proof.
  eexists. split; [exact schedule_102_run|]. split; [unfold schedule_102; in_list|].
  split; [vm_compute; reflexivity|]. split; [vm_compute; reflexivity|].
  cbn. intros Hin. apply list_elem_of_singleton in Hin. discriminate Hin.
Defined.

Lemma room_kind_and_preferred_rooms_witness :
  let a := practical_102_sun11 in
  (get_room_key (Assignment.room a)).1 = Block.required_room_type (Assignment.block a)
  /\ (Block.required_room_type (Assignment.block a) = "lab" ->
      truthy (Block.preferred_rooms (Assignment.block a)) = true ->
      Assignment.room a ∈ default [] (Block.preferred_rooms (Assignment.block a)))
  /\ (truthy (Block.preferred_rooms (Assignment.block a)) = false ->
      forall lab, Assignment.room a = RLab lab ->
                  Lab.used_in_non_specialist_courses lab = true).
Proof.
  apply (room_kind_and_preferred_rooms list_order example_rm [course_102]
           (mapping_of [course_102]) 100 schedule_102 list_order_perm schedule_102_run
           "P_CS102_5_1" practical_102_sun11).
  unfold schedule_102. in_list.
Defined.

(** ** C5 and C8 on [course_101] *)

Lemma lecturer_strict_assistant_soft_witness :
  preferred lecture_101 (slot_key sun9).
Proof.
  apply (proj2 (lecturer_strict_assistant_soft list_order list_order_perm)
           example_rm [course_101] (mapping_of [course_101]) 100 schedule_101
           "L_CS101_1_1" lecture_101_sun9 schedule_101_run);
    [unfold schedule_101; in_list | reflexivity].
Defined.

Lemma example_catalogue_on_grid room s :
  room ∈ catalogue example_rm [course_101] -> s ∈ availability room ->
  exists g, g ∈ time_slots example_rm /\ slot_key g = slot_key s.
Proof.
  intros Hroom Hs.
  assert (Hall : forallb (fun room =>
                   forallb (fun s => bool_decide
                              (slot_key s ∈ map slot_key (time_slots example_rm)))
                     (availability room))
                   (catalogue example_rm [course_101]) = true) by (vm_compute; reflexivity).
  rewrite forallb_forall in Hall. apply list_elem_of_In in Hroom. specialize (Hall room Hroom).
  rewrite forallb_forall in Hall. apply list_elem_of_In in Hs. specialize (Hall s Hs).
  apply bool_decide_eq_true in Hall. apply elem_of_map in Hall as (g & Hk & Hg). eauto.
Qed.

(** The lecturer of [course_101] lists Monday 13:00 among the preferences. *)
Lemma monday_13_never_scheduled_witness :
  mon13 ∈ StaffMember.timing_preferences lecturer_1
  /\ ¬ (day (Assignment.time_slot lecture_101_sun9) = MONDAY
        /\ hour (start_time (Assignment.time_slot lecture_101_sun9)) = 13).
Proof.
  split; [unfold lecturer_1; cbn; in_list|].
  apply (monday_13_never_scheduled list_order [hall_a; hall_b] [lab_a] 2 0 example_rm
           [course_101] (mapping_of [course_101]) 100 schedule_101
           list_order_perm example_rm_init example_catalogue_on_grid schedule_101_run
           "L_CS101_1_1" lecture_101_sun9).
  unfold schedule_101. in_list.
Defined.

(** ** The schedule follows the iteration order of sets *)

(** X28. With the order in which a set of slot identities is iterated left
    open, the inputs do not determine the schedule: for one course whose
    lecturer is free on Sunday 09:00 and on Monday 09:00, iterating the
    candidate slots in the order of the list and in the reverse order gives
    two different schedules. *)
Lemma schedule_depends_on_set_order :
  (forall l, NoDup l -> list_order l ≡ₚ l)
  /\ (forall l, NoDup l -> reverse_order l ≡ₚ l)
  /\ schedule_blocks list_order example_rm [course_101] (mapping_of [course_101]) 100
     ≠ schedule_blocks reverse_order example_rm [course_101] (mapping_of [course_101]) 100.
Proof.
  split; [exact list_order_perm|]. split; [exact reverse_order_perm|].
  intros Heq. vm_compute in Heq. discriminate Heq.
Defined.

(** ** C7 on three attempts *)








(** * Further properties *)

(** ** Facts on grouping *)

Lemma filter_none {A} (P : A -> Prop) `{!forall x, Decision (P x)} (l : list A) :
  (forall x, x ∈ l -> ¬ P x) -> filter P l = [].
Proof.
  induction l as [|x l IH]; intros Hall; [done|].
  rewrite filter_cons_False by (apply Hall; apply list_elem_of_here).
  apply IH. intros y Hy. apply Hall. by apply list_elem_of_further.
Qed.

Section grouping.
Context {A K V : Type} `{EqDecision K} (key : A -> K) (val : A -> V).

Lemma group_append_keys k v (d : list (K * list V)) :
  map fst (group_append k v d) = if decide (k ∈ map fst d) then map fst d else map fst d ++ [k].
Proof.
  induction d as [|[k' vs] d IH]; cbn.
  - rewrite decide_False; [done | apply not_elem_of_nil].
  - destruct (decide (k' = k)) as [->|Hne]; cbn.
    + rewrite decide_True; [done | apply list_elem_of_here].
    + rewrite IH. destruct (decide (k ∈ map fst d)) as [Hin|Hin].
      * rewrite decide_True; [done | by apply list_elem_of_further].
      * rewrite decide_False; [done|]. intros [?|?]%elem_of_cons; congruence.
Qed.

Lemma group_append_elem_of k v (d : list (K * list V)) k1 g :
  NoDup (map fst d) ->
  (k1, g) ∈ group_append k v d
  <-> (k1 ≠ k /\ (k1, g) ∈ d)
      \/ (k1 = k /\ ((exists g0, (k, g0) ∈ d /\ g = g0 ++ [v])
                     \/ ((k ∉ map fst d) /\ g = [v]))).
Proof.
  induction d as [|[k' vs] d IH]; cbn; intros Hnd.
  - rewrite list_elem_of_singleton. split.
    + intros [= -> ->]. right. split; [done|]. right. split; [apply not_elem_of_nil | done].
    + intros [[_ Hin]|[-> [(g0 & Hin & _)|[_ ->]]]]; try by apply elem_of_nil in Hin. done.
  - apply NoDup_cons in Hnd as [Hk' Hnd]. destruct (decide (k' = k)) as [->|Hne].
    + rewrite !elem_of_cons. split.
      * intros [[= -> ->]|Hin].
        -- right. split; [done|]. left. exists vs. split; [apply list_elem_of_here | done].
        -- left. split; [|by right]. intros ->. apply Hk'.
           apply list_elem_of_fmap. by exists (k, g).
      * intros [[Hne [[= ? ?]|Hin]]|[-> [(g0 & [[= <-]|Hin]%elem_of_cons & ->)|[Hnot _]]]];
          try done.
        -- by right.
        -- by left.
        -- destruct Hk'. apply list_elem_of_fmap. by exists (k, g0).
        -- destruct Hnot. by left.
    + rewrite !elem_of_cons, (IH Hnd). split.
      * intros [[= -> ->]|[[Hn Hin]|[-> [(g0 & Hin & ->)|[Hnot ->]]]]].
        -- left. split; [done | by left].
        -- left. split; [done | by right].
        -- right. split; [done|]. left. exists g0. split; [by apply list_elem_of_further | done].
        -- right. split; [done|]. right. split; [|done].
           intros [?|?]; [congruence | done].
      * intros [[Hn [[= -> ->]|Hin]]|[-> [(g0 & [[= ? ?]|Hin]%elem_of_cons & ->)|[Hnot ->]]]];
          try done.
        -- by left.
        -- right. left. done.
        -- right. right. split; [done|]. left. eauto.
        -- right. right. split; [done|]. right. split; [|done].
           intros Hin. apply Hnot. by right.
Qed.

Lemma group_by_snoc items x :
  group_by key val (items ++ [x]) = group_append (key x) (val x) (group_by key val items).
Proof. unfold group_by. by rewrite fold_left_app. Qed.

Lemma group_by_keys items :
  NoDup (map fst (group_by key val items))
  /\ forall k, k ∈ map fst (group_by key val items) <-> k ∈ map key items.
Proof.
  induction items as [|x items [IHnd IHk]] using rev_ind.
  - split; [constructor | done].
  - rewrite group_by_snoc, group_append_keys, map_app. cbn.
    destruct (decide (key x ∈ map fst (group_by key val items))) as [Hin|Hin].
    + split; [done|]. intros k. rewrite elem_of_app, list_elem_of_singleton, IHk.
      split; [by left | intros [?| ->]; [done | by apply IHk]]. (*X*)
    + split.
      * apply NoDup_app. split; [done|]. split; [|apply NoDup_singleton].
        intros k Hk ->%list_elem_of_singleton. done.
      * intros k. by rewrite !elem_of_app, IHk.
Qed.

(** A group holds the values of the items with its key, in their order. *)
Lemma group_by_elem_of items k g :
  (k, g) ∈ group_by key val items
  <-> g = map val (filter (fun x => key x = k) items) /\ k ∈ map key items.
Proof.
  revert g. induction items as [|x items IH] using rev_ind; intros g.
  - cbn. split; [intros Hin; by apply elem_of_nil in Hin | intros [_ Hin]; by apply elem_of_nil in Hin].
  - destruct (group_by_keys items) as [Hnd Hkeys].
    rewrite group_by_snoc, (group_append_elem_of _ _ _ _ _ Hnd).
    rewrite filter_app, map_app, filter_cons, filter_nil, map_app, elem_of_app. cbn.
    rewrite list_elem_of_singleton. split.
    + intros [[Hne Hin]|[-> [(g0 & Hin & ->)|[Hnot ->]]]].
      * apply IH in Hin as [-> Hk]. rewrite decide_False by done. cbn.
        rewrite app_nil_r. split; [done | by left].
      * apply IH in Hin as [-> Hk]. rewrite decide_True by done. split; [done | by right].
      * rewrite decide_True by done. split; [|by right].
        rewrite Hkeys in Hnot.
        assert (filter (fun x0 => key x0 = key x) items = []) as ->; [|done].
        apply filter_none. intros y Hy Heq. apply Hnot.
        apply list_elem_of_fmap. by exists y.
      + intros [-> Hk]. destruct (decide (key x = k)) as [<-|Hne].
        * right. split; [done|].
          destruct (decide (key x ∈ map key items)) as [Hin|Hin].
          -- left. eexists. split; [apply IH; split; [reflexivity | done] | done].
          -- right. split; [by rewrite Hkeys|].
             assert (filter (fun x0 => key x0 = key x) items = []) as ->; [|done].
             apply filter_none. intros y Hy Heq. apply Hin.
             apply list_elem_of_fmap. by exists y.
        * left. split; [done|]. apply IH. rewrite app_nil_r. split; [done|].
          destruct Hk as [?| ->]; done.
Qed.
End grouping.

(** ** Double booking within one slot *)

(** The assignments [l] of one slot use each room key and each staff id
    once, and none of those already in [rooms_used] and [staff_used]. *)
Definition slot_clean (rooms_used : gset RoomKey) (staff_used : gset Z)
    (l : list (string * Assignment)) : Prop :=
  NoDup (map (fun item => get_room_key (Assignment.room item.2)) l)
  /\ (forall item, item ∈ l -> get_room_key (Assignment.room item.2) ∉ rooms_used)
  /\ NoDup (map (fun item => assignment_staff_id item.2) l)
  /\ (forall item, item ∈ l -> assignment_staff_id item.2 ∉ staff_used).

Lemma slot_clean_nil rooms_used staff_used : slot_clean rooms_used staff_used [].
Proof.
  repeat split; try constructor; intros item Hin; by apply elem_of_nil in Hin.
Qed.

Lemma slot_clean_cons rooms_used staff_used id a l :
  slot_clean rooms_used staff_used ((id, a) :: l)
  <-> (get_room_key (Assignment.room a) ∉ rooms_used)
      /\ (assignment_staff_id a ∉ staff_used)
      /\ slot_clean ({[get_room_key (Assignment.room a)]} ∪ rooms_used)
           ({[assignment_staff_id a]} ∪ staff_used) l.
Proof.
  unfold slot_clean. cbn [map snd]. rewrite !NoDup_cons. split.
  - intros ([Hr Hnr] & Hru & [Hs Hns] & Hsu). split; [|split].
    + apply (Hru (id, a)), list_elem_of_here.
    + apply (Hsu (id, a)), list_elem_of_here.
    + split; [done|]. split; [|split; [done|]].
      * intros item Hin [Heq%elem_of_singleton|Hin']%elem_of_union.
        -- apply Hr. rewrite <- Heq. apply list_elem_of_fmap. by exists item.
        -- apply (Hru item); [by apply list_elem_of_further | done].
      * intros item Hin [Heq%elem_of_singleton|Hin']%elem_of_union.
        -- apply Hs. rewrite <- Heq. apply list_elem_of_fmap. by exists item.
        -- apply (Hsu item); [by apply list_elem_of_further | done].
  - intros (Hr & Hs & Hnr & Hru & Hns & Hsu). split; [|split; [|split]].
    + split; [|done]. intros (item & Heq & Hin)%list_elem_of_fmap.
      apply (Hru item Hin). apply elem_of_union. left. apply elem_of_singleton. done.
    + intros item [->|Hin]%elem_of_cons; [done|].
      intros Hin'. apply (Hru item Hin). apply elem_of_union. by right.
    + split; [|done]. intros (item & Heq & Hin)%list_elem_of_fmap.
      apply (Hsu item Hin). apply elem_of_union. left. apply elem_of_singleton. done.
    + intros item [->|Hin]%elem_of_cons; [done|].
      intros Hin'. apply (Hsu item Hin). apply elem_of_union. by right.
Qed.

Lemma slot_clean_short l : (length l <= 1)%nat -> slot_clean ∅ ∅ l.
Proof.
  destruct l as [|[id a] [|? ?]]; cbn; intros Hlen; [apply slot_clean_nil | | lia].
  apply slot_clean_cons. split; [apply not_elem_of_empty|].
  split; [apply not_elem_of_empty | apply slot_clean_nil].
Qed.

Lemma slot_free_loop_true rooms_used staff_used l :
  slot_free_loop rooms_used staff_used l = true <-> slot_clean rooms_used staff_used l.
Proof.
  revert rooms_used staff_used. induction l as [|[id a] l IH]; intros rooms_used staff_used.
  - split; [intros _; apply slot_clean_nil | done].
  - rewrite slot_clean_cons. cbn [slot_free_loop].
    case_bool_decide as Hr; [split; [done | intros [? _]; done]|].
    case_bool_decide as Hs; [split; [done | intros (_ & ? & _); done]|].
    rewrite IH. tauto.
Qed.

Lemma slot_conflict_loop_Ok rooms_used staff_used l :
  slot_conflict_loop rooms_used staff_used l = Ok tt <-> slot_clean rooms_used staff_used l.
Proof.
  revert rooms_used staff_used. induction l as [|[id a] l IH]; intros rooms_used staff_used.
  - split; [intros _; apply slot_clean_nil | done].
  - rewrite slot_clean_cons. cbn [slot_conflict_loop].
    case_bool_decide as Hr; [split; [done | intros [? _]; done]|].
    case_bool_decide as Hs; [split; [done | intros (_ & ? & _); done]|].
    rewrite IH. tauto.
Qed.

Lemma final_slot_loop_found rooms_used staff_used l :
  final_slot_loop rooms_used staff_used true l = true.
Proof.
  revert rooms_used staff_used. induction l as [|[id a] l IH]; intros rooms_used staff_used;
    [done|].
  cbn [final_slot_loop]. repeat case_bool_decide; apply IH.
Qed.

Lemma final_slot_loop_false rooms_used staff_used conflicts_found l :
  final_slot_loop rooms_used staff_used conflicts_found l = false
  <-> conflicts_found = false /\ slot_clean (dom rooms_used) (dom staff_used) l.
Proof.
  revert rooms_used staff_used conflicts_found.
  induction l as [|[id a] l IH]; intros rooms_used staff_used conflicts_found.
  - cbn. split; [intros ->; split; [done | apply slot_clean_nil] | by intros [-> _]].
  - rewrite slot_clean_cons, !elem_of_dom. cbn [final_slot_loop].
    case_bool_decide as Hr.
    { case_bool_decide; rewrite final_slot_loop_found; (split; [done | intros (_ & ? & _); done]). }
    case_bool_decide as Hs.
    { rewrite final_slot_loop_found. split; [done | intros (_ & _ & ? & _); done]. }
    rewrite IH, !dom_insert_L. tauto.
Qed.

(** ** What the verifications decide *)

Definition slot_group (k : SlotKey) (assignments : list (string * Assignment))
    : list (string * Assignment) :=
  filter (fun item => assignment_slot_key item.2 = k) assignments.

Lemma by_time_slot_elem_of assignments k g :
  (k, g) ∈ by_time_slot assignments
  <-> g = slot_group k assignments
      /\ k ∈ map (fun item => assignment_slot_key item.2) assignments.
Proof. unfold by_time_slot. rewrite group_by_elem_of. by rewrite map_id. Qed.

Lemma groups_clean_iff assignments :
  (forall group, group ∈ by_time_slot assignments -> slot_clean ∅ ∅ group.2)
  <-> (forall k, slot_clean ∅ ∅ (slot_group k assignments)).
Proof.
  split.
  - intros Hall k.
    destruct (decide (k ∈ map (fun item => assignment_slot_key item.2) assignments)) as [Hk|Hk].
    + apply (Hall (k, slot_group k assignments)). by apply by_time_slot_elem_of.
    + unfold slot_group. rewrite filter_none; [apply slot_clean_nil|].
      intros item Hin Heq. apply Hk. apply list_elem_of_fmap. by exists item.
  - intros Hall [k g] [-> _]%by_time_slot_elem_of. apply Hall.
Qed.

Lemma verify_no_conflicts_in_assignments_true assignments :
  _verify_no_conflicts_in_assignments assignments = true
  <-> (forall k, slot_clean ∅ ∅ (slot_group k assignments)).
Proof.
  unfold _verify_no_conflicts_in_assignments.
  rewrite <- groups_clean_iff, forallb_forall. split.
  - intros Hall group Hin. apply slot_free_loop_true, Hall. by apply list_elem_of_In.
  - intros Hall group Hin. apply slot_free_loop_true, Hall. by apply list_elem_of_In.
Qed.

Lemma final_fold_false groups conflicts_found :
  fold_left (fun conflicts_found (group : SlotKey * list (string * Assignment)) =>
               if (1 <? length group.2)%nat then final_slot_loop ∅ ∅ conflicts_found group.2
               else conflicts_found) groups conflicts_found = false
  <-> conflicts_found = false /\ forall group, group ∈ groups -> slot_clean ∅ ∅ group.2.
Proof.
  revert conflicts_found. induction groups as [|group groups IH]; intros conflicts_found.
  - cbn. split; [intros ->; split; [done|]; intros ? Hin; by apply elem_of_nil in Hin | by intros [-> _]].
  - cbn [fold_left]. rewrite IH. destruct (1 <? length group.2)%nat eqn:Elen.
    + rewrite final_slot_loop_false, !dom_empty_L. split.
      * intros [[-> Hc] Hall]. split; [done|]. intros g [->|Hin]%elem_of_cons; [done | by apply Hall].
      * intros [-> Hall]. split; [split; [done|]; apply Hall, list_elem_of_here|].
        intros g Hin. by apply Hall, list_elem_of_further.
    + apply Nat.ltb_ge in Elen. split.
      * intros [-> Hall]. split; [done|].
        intros g [->|Hin]%elem_of_cons; [by apply slot_clean_short | by apply Hall].
      * intros [-> Hall]. split; [done|]. intros g Hin. by apply Hall, list_elem_of_further.
Qed.

Lemma verify_final_schedule_true assignments :
  _verify_final_schedule assignments = true
  <-> (forall k, slot_clean ∅ ∅ (slot_group k assignments)).
Proof.
  unfold _verify_final_schedule. rewrite negb_true_iff, final_fold_false, <- groups_clean_iff.
  split; [by intros [_ ?] | done].
Qed.

(** On a dictionary, whose keys are distinct, the groups are clean exactly
    when no two entries clash. *)
Lemma NoDup_fmap_eq {A B} (f : A -> B) (l : list A) x y :
  NoDup (map f l) -> x ∈ l -> y ∈ l -> f x = f y -> x = y.
Proof.
  induction l as [|z l IH]; cbn; intros Hnd Hx Hy Heq; [by apply elem_of_nil in Hx|].
  apply NoDup_cons in Hnd as [Hz Hnd].
  apply elem_of_cons in Hx as [->|Hx], Hy as [->|Hy]; [done | | | by apply IH].
  - destruct Hz. rewrite Heq. apply list_elem_of_fmap. by exists y.
  - destruct Hz. rewrite <- Heq. apply list_elem_of_fmap. by exists x.
Qed.

Lemma slot_groups_clean_iff assignments :
  NoDup (dict_keys assignments) ->
  (forall k, slot_clean ∅ ∅ (slot_group k assignments))
  <-> (forall id1 a1 id2 a2,
         (id1, a1) ∈ assignments -> (id2, a2) ∈ assignments -> id1 ≠ id2 ->
         ¬ clashes a1 a2).
Proof.
  intros Hnd. split.
  - intros Hall id1 a1 id2 a2 H1 H2 Hne [Hk Hor].
    destruct (Hall (assignment_slot_key a1)) as (Hr & _ & Hs & _).
    assert (Hin1 : (id1, a1) ∈ slot_group (assignment_slot_key a1) assignments)
      by (by apply list_elem_of_filter).
    assert (Hin2 : (id2, a2) ∈ slot_group (assignment_slot_key a1) assignments)
      by (by apply list_elem_of_filter).
    destruct Hor as [Heq|Heq].
    + pose proof (NoDup_fmap_eq _ _ _ _ Hr Hin2 Hin1 Heq). congruence.
    + pose proof (NoDup_fmap_eq _ _ _ _ Hs Hin2 Hin1 Heq). congruence.
  - intros Hall k.
    assert (Hl : NoDup (slot_group k assignments)).
    { apply NoDup_filter. by apply (NoDup_fmap_1 fst). }
    assert (Hinj : forall x y, x ∈ slot_group k assignments -> y ∈ slot_group k assignments ->
               get_room_key (Assignment.room x.2) = get_room_key (Assignment.room y.2)
               \/ assignment_staff_id x.2 = assignment_staff_id y.2 -> x = y).
    { intros [id1 a1] [id2 a2] [Hk1 H1]%list_elem_of_filter [Hk2 H2]%list_elem_of_filter Hor.
      cbn in *. destruct (decide (id1 = id2)) as [->|Hne].
      - apply (dict_get_elem_of _ _ _ Hnd) in H1, H2. congruence.
      - destruct (Hall id2 a2 id1 a1 H2 H1 ltac:(congruence)). split; [congruence | done]. }
    split; [|split; [|split]].
    + apply NoDup_fmap_2_strong; [|done]. intros x y Hx Hy Heq. apply Hinj; auto.
    + intros item _. apply not_elem_of_empty.
    + apply NoDup_fmap_2_strong; [|done]. intros x y Hx Hy Heq. apply Hinj; auto.
    + intros item _. apply not_elem_of_empty.
Qed.

Lemma consistent_no_clash self id1 a1 id2 a2 :
  consistent self ->
  (id1, a1) ∈ current_assignments self -> (id2, a2) ∈ current_assignments self ->
  id1 ≠ id2 -> ¬ clashes a1 a2.
Proof.
  intros (_ & Hroom & Hstaff) H1 H2 Hne [Hk [Heq|Heq]]; apply Hne.
  - assert (Some id1 = Some id2) as [= ->]; [|done].
    rewrite <- (proj2 (Hroom (get_room_key (Assignment.room a1)) (assignment_slot_key a1) id1))
      by eauto.
    apply Hroom. eauto.
  - assert (Some id1 = Some id2) as [= ->]; [|done].
    rewrite <- (proj2 (Hstaff (assignment_staff_id a1) (assignment_slot_key a1) id1)) by eauto.
    apply Hstaff. eauto.
Qed.

Lemma consistent_slot_clean self k :
  consistent self -> slot_clean ∅ ∅ (slot_group k (current_assignments self)).
Proof.
  intros Hc. apply slot_groups_clean_iff; [apply Hc|].
  intros id1 a1 id2 a2. by apply consistent_no_clash.
Qed.

(** X1. [_verify_no_conflicts_in_slot] never raises on a manager reached by
    any sequence of [make_assignment] and reset calls, whatever the slot. *)
Theorem verify_no_conflicts_in_slot_never_raises (ops : list op) (slot : TimePreference) :
  _verify_no_conflicts_in_slot (run_ops ops) slot = Ok tt.
Proof.
  unfold _verify_no_conflicts_in_slot. destruct (_ <=? _)%nat; [done|].
  apply slot_conflict_loop_Ok. apply (consistent_slot_clean _ (day slot, start_time slot)).
  apply consistent_run_ops.
Qed.

(** X2. [_verify_final_schedule] returns [True] exactly when no two
    entries of the schedule share a slot together with a room key or a staff
    id. *)
Theorem verify_final_schedule_spec (assignments : list (string * Assignment)) :
  NoDup (dict_keys assignments) ->
  _verify_final_schedule assignments = true
  <-> (forall id1 a1 id2 a2,
         (id1, a1) ∈ assignments -> (id2, a2) ∈ assignments -> id1 ≠ id2 ->
         ¬ clashes a1 a2).
Proof. intros Hnd. by rewrite verify_final_schedule_true, slot_groups_clean_iff. Qed.

(** X3. The two verifications of [scheduler.py] agree on every schedule. *)
Theorem verifications_agree (assignments : list (string * Assignment)) :
  _verify_no_conflicts_in_assignments assignments = _verify_final_schedule assignments.
Proof.
  apply eq_true_iff_eq.
  by rewrite verify_no_conflicts_in_assignments_true, verify_final_schedule_true.
Qed.

(** ** The engine's schedules are free of double booking *)

Lemma place_blocks_consistent set_order resource_manager cm sorted_blocks count cm' count' :
  consistent cm ->
  place_blocks set_order resource_manager cm sorted_blocks count = Ok (cm', count') ->
  consistent cm'.
Proof.
  revert cm count. induction sorted_blocks as [|block rest IH]; cbn [place_blocks];
    intros cm count Hinv.
  - by intros [= <- _].
  - destruct (_schedule_single_block _ _ cm block) as [[a|]|e]; cbn [bind]; [| |done].
    + pose proof (consistent_make_assignment cm (Block.id block) a Hinv) as Hinv'.
      destruct (make_assignment cm (Block.id block) a) as [[] cm1]; by apply IH.
    + by apply IH.
Qed.

Lemma run_attempt_consistent set_order resource_manager blocks att :
  run_attempt set_order resource_manager blocks = Ok att ->
  exists cm, consistent cm /\ attempt_assignments att = current_assignments cm.
Proof.
  unfold run_attempt.
  destruct (_sort_blocks_by_priority _ _ _ blocks) as [sorted_blocks|e]; cbn [bind]; [|done].
  destruct (place_blocks _ _ _ sorted_blocks 0) as [[cm count]|e] eqn:Eplace; cbn [bind]; [|done].
  intros [= <-]. exists cm. split; [|done].
  eapply place_blocks_consistent; [apply consistent_fresh | exact Eplace].
Qed.

Lemma schedule_blocks_consistent set_order resource_manager course_assignments
    study_plan_mapping max_attempts schedule :
  schedule_blocks set_order resource_manager course_assignments study_plan_mapping max_attempts
  = Ok schedule ->
  exists cm, consistent cm /\ schedule = current_assignments cm.
Proof.
  intros (blocks & att & _ & Hatt & ->)%schedule_blocks_origin.
  by apply run_attempt_consistent in Hatt.
Qed.

(** X4. Every schedule returned by [schedule_blocks] passes the final
    verification: the call of [_verify_final_schedule] that ends
    [schedule_blocks], whose result is not looked at, always yields [True],
    and so does [_verify_no_conflicts_in_assignments]. *)
Theorem schedule_passes_final_verification
    (set_order : list SlotKey -> list SlotKey) (resource_manager : ResourceManager)
    (course_assignments : list CourseAssignment) (study_plan_mapping : gmap nat StudyPlan)
    (max_attempts : Z) (schedule : list (string * Assignment)) :
  schedule_blocks set_order resource_manager course_assignments study_plan_mapping max_attempts
  = Ok schedule ->
  _verify_final_schedule schedule = true
  /\ _verify_no_conflicts_in_assignments schedule = true.
Proof.
  intros (cm & Hc & ->)%schedule_blocks_consistent.
  rewrite verify_final_schedule_true, verify_no_conflicts_in_assignments_true.
  split; intros k; by apply consistent_slot_clean.
Qed.

(** ** What a commit changes for the two booking checks *)

(** X5. After a successful [make_assignment], [check_room_booking] refuses
    the committed room key at the committed slot and answers as before for
    every other room key or slot; likewise [check_staff_booking] for the
    committed staff id.  So [can_assign] then refuses the same room and slot
    with the first description, for every block. *)
Theorem make_assignment_books_one_slot (self self' : ConstraintManager)
    (block_id : string) (a : Assignment) :
  make_assignment self block_id a = (true, self') ->
  (forall block slot room,
     check_room_booking self' block slot room
     = check_room_booking self block slot room
       && negb (bool_decide (get_room_key room = get_room_key (Assignment.room a)
                             /\ (day slot, start_time slot) = assignment_slot_key a)))
  /\ (forall block slot room,
        check_staff_booking self' block slot room
        = check_staff_booking self block slot room
          && negb (bool_decide (staff_id (Block.staff_member block) = assignment_staff_id a
                                /\ (day slot, start_time slot) = assignment_slot_key a)))
  /\ (forall block,
        can_assign self' block (Assignment.time_slot a) (Assignment.room a)
        = (false, Some "No double room booking")).
Proof.
  intros Hmake.
  destruct (make_assignment_cases self block_id a) as [(_ & _ & _ & Hc)|[_ Hfail]];
    [|congruence].
  rewrite Hmake in Hc. cbn [snd] in Hc. destruct Hc as (_ & HR & HS & _).
  assert (Hroom : forall block slot room,
     check_room_booking self' block slot room
     = check_room_booking self block slot room
       && negb (bool_decide (get_room_key room = get_room_key (Assignment.room a)
                             /\ (day slot, start_time slot) = assignment_slot_key a))).
  { intros block slot room. apply eq_true_iff_eq.
    rewrite andb_true_iff, negb_true_iff, bool_decide_eq_false, !check_room_booking_true.
    rewrite HR, booked_insert. destruct (decide _) as [Heq|Hne]; [split; [done | tauto]|tauto]. }
  split; [exact Hroom|]. split.
  - intros block slot room. apply eq_true_iff_eq.
    rewrite andb_true_iff, negb_true_iff, bool_decide_eq_false, !check_staff_booking_true.
    rewrite HS, booked_insert. destruct (decide _) as [Heq|Hne]; [split; [done | tauto]|tauto].
  - intros block. unfold can_assign, hard_constraints. cbn [can_assign_loop].
    rewrite Hroom, bool_decide_eq_true_2 by done. by rewrite andb_false_r.
Qed.

(** ** The validator on the engine's schedules *)

Lemma dict_get_is_Some {V} k (d : list (string * V)) :
  k ∈ dict_keys d -> is_Some (dict_get k d).
Proof.
  intros Hin. destruct (dict_get k d) eqn:E; [done|].
  by apply dict_get_None in E.
Qed.

Lemma filter_at_most_one {A} (P : A -> Prop) `{!forall x, Decision (P x)} (l : list A) :
  NoDup l -> (forall x y, x ∈ l -> y ∈ l -> P x -> P y -> x = y) ->
  (length (filter P l) <= 1)%nat.
Proof.
  intros Hnd Hall. pose proof (NoDup_filter P _ Hnd) as Hf.
  destruct (filter P l) as [|a [|b t]] eqn:E; cbn; [lia | lia |].
  assert (Ha : a ∈ filter P l) by (rewrite E; apply list_elem_of_here).
  assert (Hb : b ∈ filter P l) by (rewrite E; apply list_elem_of_further, list_elem_of_here).
  apply list_elem_of_filter in Ha as [Pa Ha], Hb as [Pb Hb].
  rewrite (Hall a b Ha Hb Pa Pb) in Hf. apply NoDup_cons in Hf as [Hf _].
  destruct Hf. apply list_elem_of_here.
Qed.

Lemma mapM_all_nil {A B} (f : A -> result (list B)) (l : list A) :
  (forall x, x ∈ l -> f x = Ok []) ->
  (reports <- mapM f l ;; Ok (concat reports)) = Ok [].
Proof.
  induction l as [|x l IH]; intros Hall; [done|]. cbn.
  rewrite (Hall x) by apply list_elem_of_here. cbn.
  specialize (IH (fun y Hy => Hall y (list_elem_of_further _ _ _ Hy))).
  destruct (mapM f l) as [reports|e]; cbn in *; [|done]. by injection IH as ->.
Qed.

Lemma consistent_one_per_key `{EqDecision K} (key : Assignment -> K) self k :
  consistent self ->
  (forall a1 a2, key a1 = key a2 -> clashes a1 a2) ->
  (length (filter (fun item : string * Assignment => key item.2 = k)
             (current_assignments self)) <= 1)%nat.
Proof.
  intros Hc Hkey. apply filter_at_most_one.
  - apply (NoDup_fmap_1 fst), Hc.
  - intros [id1 a1] [id2 a2] H1 H2 Hk1 Hk2. cbn in *.
    destruct (decide (id1 = id2)) as [->|Hne].
    + destruct Hc as [Hnd _]. apply (dict_get_elem_of _ _ _ Hnd) in H1, H2. congruence.
    + destruct (consistent_no_clash self id1 a1 id2 a2 Hc H1 H2 Hne).
      apply Hkey. congruence.
Qed.

Lemma room_conflicts_consistent self :
  consistent self -> _check_room_conflicts (current_assignments self) = Ok [].
Proof.
  intros Hc. unfold _check_room_conflicts. apply mapM_all_nil.
  intros [[[room_key d] t] ids] [-> _]%group_by_elem_of.
  pose proof (consistent_one_per_key
                (fun a => (get_room_key (Assignment.room a), day (Assignment.time_slot a),
                           start_time (Assignment.time_slot a)))
                self (room_key, d, t) Hc) as Hlen.
  cbn in Hlen. unfold room_conflict_report.
  destruct (map fst _) as [|? [|? ?]] eqn:E; [done | done |].
  apply (f_equal length) in E. rewrite length_map in E. cbn in E.
  assert ((2 <= 1)%nat); [|lia]. etrans; [|apply Hlen].
  - rewrite E. lia.
  - intros a1 a2 Heq. split; [unfold assignment_slot_key | left]; congruence.
Qed.

Lemma staff_conflicts_consistent self :
  consistent self -> _check_staff_conflicts (current_assignments self) = Ok [].
Proof.
  intros Hc. unfold _check_staff_conflicts. apply mapM_all_nil.
  intros [[[staff d] t] ids] [-> _]%group_by_elem_of.
  pose proof (consistent_one_per_key
                (fun a => (assignment_staff_id a, day (Assignment.time_slot a),
                           start_time (Assignment.time_slot a)))
                self (staff, d, t) Hc) as Hlen.
  cbn in Hlen. unfold staff_conflict_report.
  destruct (map fst _) as [|? [|? ?]] eqn:E; [done | done |].
  apply (f_equal length) in E. rewrite length_map in E. cbn in E.
  assert ((2 <= 1)%nat); [|lia]. etrans; [|apply Hlen].
  - rewrite E. lia.
  - intros a1 a2 Heq. split; [unfold assignment_slot_key | right]; congruence.
Qed.

Lemma mapM_concat_Forall {A B} (P : B -> Prop) (f : A -> result (list B)) (l : list A) :
  (forall x, x ∈ l -> exists rs, f x = Ok rs /\ Forall P rs) ->
  exists reports, (rss <- mapM f l ;; Ok (concat rss)) = Ok reports /\ Forall P reports.
Proof.
  induction l as [|x l IH]; intros Hall; [by exists []|]. cbn.
  destruct (Hall x (list_elem_of_here _ _)) as (rs & -> & Hrs). cbn.
  destruct (IH (fun y Hy => Hall y (list_elem_of_further _ _ _ Hy))) as (reports & Hm & Hr).
  destruct (mapM f l) as [rss|e]; cbn in *; [|done]. injection Hm as <-.
  eexists. split; [done|]. by apply Forall_app.
Qed.

Lemma group_ids_stored `{EqDecision K} (key : string * Assignment -> K) assignments k ids id :
  (k, ids) ∈ group_by key fst assignments -> id ∈ ids -> id ∈ dict_keys assignments.
Proof.
  intros [-> _]%group_by_elem_of (item & -> & [_ Hin]%list_elem_of_filter)%list_elem_of_fmap.
  unfold dict_keys. apply list_elem_of_fmap. by exists item.
Qed.

Lemma assignment_of_stored assignments id :
  id ∈ dict_keys assignments -> exists a, assignment_of assignments id = Ok a.
Proof.
  intros [a Ha]%dict_get_is_Some. exists a. unfold assignment_of. by rewrite Ha.
Qed.

Lemma course_codes_stored assignments ids :
  (forall id, id ∈ ids -> id ∈ dict_keys assignments) ->
  exists codes, mapM (course_code_of assignments) ids = Ok codes.
Proof.
  intros Hall. apply mapM_total. intros id Hid.
  destruct (assignment_of_stored assignments id (Hall id Hid)) as [a Ha].
  unfold course_code_of. rewrite Ha. cbn. eauto.
Qed.

Section validator_facts.
Variable code_order : list string -> list string.

Lemma room_conflicts_total assignments :
  exists reports, _check_room_conflicts assignments = Ok reports
                  /\ Forall (fun r => conflict_type r = "ROOM_CONFLICT") reports.
Proof.
  unfold _check_room_conflicts. apply mapM_concat_Forall.
  intros [[[room_key d] t] ids] Hin. unfold room_conflict_report.
  destruct ids as [|first [|second rest]]; [by exists [] | by exists [] |].
  assert (Hids : forall id, id ∈ first :: second :: rest -> id ∈ dict_keys assignments).
  { intros id. by eapply group_ids_stored. }
  destruct (assignment_of_stored assignments first) as [a ->].
  { apply Hids. apply list_elem_of_here. }
  destruct (course_codes_stored assignments _ Hids) as [codes ->]. cbn.
  eexists. split; [done|]. by repeat constructor.
Qed.

Lemma staff_conflicts_total assignments :
  exists reports, _check_staff_conflicts assignments = Ok reports
                  /\ Forall (fun r => conflict_type r = "STAFF_CONFLICT") reports.
Proof.
  unfold _check_staff_conflicts. apply mapM_concat_Forall.
  intros [[[staff d] t] ids] Hin. unfold staff_conflict_report.
  destruct ids as [|first [|second rest]]; [by exists [] | by exists [] |].
  assert (Hids : forall id, id ∈ first :: second :: rest -> id ∈ dict_keys assignments).
  { intros id. by eapply group_ids_stored. }
  destruct (assignment_of_stored assignments first) as [a ->].
  { apply Hids. apply list_elem_of_here. }
  destruct (course_codes_stored assignments _ Hids) as [codes ->]. cbn.
  eexists. split; [done|]. by repeat constructor.
Qed.

Lemma student_conflicts_total assignments :
  exists reports, _check_student_conflicts code_order assignments = Ok reports
                  /\ Forall (fun r => conflict_type r = "STUDENT_CONFLICT") reports.
Proof.
  unfold _check_student_conflicts. apply mapM_concat_Forall.
  intros [[[[academic_list level] d] t] ids] Hin. unfold student_conflict_report.
  destruct ids as [|first [|second rest]]; [by exists [] | by exists [] |].
  assert (Hids : forall id, id ∈ first :: second :: rest -> id ∈ dict_keys assignments).
  { intros id. by eapply group_ids_stored. }
  destruct (course_codes_stored assignments _ Hids) as [codes ->]. cbn [bind].
  destruct (_ <? _)%nat; eexists; (split; [done|]); by repeat constructor.
Qed.

Lemma room_availability_reports_type assignments :
  Forall (fun r => conflict_type r = "ROOM_AVAILABILITY_CONFLICT")
    (_check_room_availability_conflicts assignments).
Proof.
  unfold _check_room_availability_conflicts.
  induction assignments as [|[id a] l IH]; cbn [map concat]; [constructor|].
  apply Forall_app. split; [|done]. unfold room_availability_report.
  destruct (negb _); by repeat constructor.
Qed.

Lemma capacity_reports_type assignments :
  Forall (fun r => conflict_type r = "CAPACITY_VIOLATION")
    (_check_capacity_violations assignments).
Proof.
  unfold _check_capacity_violations.
  induction assignments as [|[id a] l IH]; cbn [map concat]; [constructor|].
  apply Forall_app. split; [|done]. unfold capacity_report.
  destruct (_ <? _); by repeat constructor.
Qed.

End validator_facts.

(** X6. [validate_schedule_comprehensive] never raises: every lookup
    [assignments[aid]] it makes is of an id taken from the same dictionary.
    It answers valid exactly when it reports nothing, and a report has one of
    the five conflict types. *)
Theorem validate_schedule_comprehensive_returns (code_order : list string -> list string)
    (assignments : list (string * Assignment)) :
  exists is_valid conflicts,
    validate_schedule_comprehensive code_order assignments = Ok (is_valid, conflicts)
    /\ (is_valid = true <-> conflicts = [])
    /\ Forall (fun r => conflict_type r ∈ ["ROOM_CONFLICT"; "STAFF_CONFLICT"; "STUDENT_CONFLICT";
                                           "ROOM_AVAILABILITY_CONFLICT"; "CAPACITY_VIOLATION"])
         conflicts.
Proof.
  unfold validate_schedule_comprehensive.
  destruct (room_conflicts_total assignments) as (r1 & -> & H1).
  destruct (staff_conflicts_total assignments) as (r2 & -> & H2).
  destruct (student_conflicts_total code_order assignments) as (r3 & -> & H3).
  cbn [bind]. eexists _, _. split; [done|]. split.
  - rewrite Nat.eqb_eq. apply length_zero_iff_nil.
  - pose proof (room_availability_reports_type assignments) as H4.
    pose proof (capacity_reports_type assignments) as H5.
    repeat (apply Forall_app; split);
      (eapply Forall_impl; [eassumption|]); intros r ->; in_list.
Qed.

(** ** What every placed assignment has passed *)

(** An entry made by the engine: stored under the id of its block, which
    is one of the blocks to schedule, in a room that [get_suitable_rooms]
    offers for the block, at a slot for which all five hard constraints held
    when it was chosen; the two that do not depend on the manager are kept
    here. *)
Definition engine_checked (resource_manager : ResourceManager) (blocks : list Block)
    (item : string * Assignment) : Prop :=
  let a := item.2 in
  item.1 = Block.id (Assignment.block a)
  /\ Assignment.block a ∈ blocks
  /\ Assignment.room a ∈ get_suitable_rooms resource_manager (Assignment.block a)
  /\ check_room_availability initialize_fresh_state (Assignment.block a)
       (Assignment.time_slot a) (Assignment.room a) = true
  /\ check_lab_requirements initialize_fresh_state (Assignment.block a)
       (Assignment.time_slot a) (Assignment.room a) = true.

Lemma place_blocks_checked set_order resource_manager blocks cm sorted_blocks count cm' count' :
  (forall b, b ∈ sorted_blocks -> b ∈ blocks) ->
  Forall (engine_checked resource_manager blocks) (current_assignments cm) ->
  place_blocks set_order resource_manager cm sorted_blocks count = Ok (cm', count') ->
  Forall (engine_checked resource_manager blocks) (current_assignments cm').
Proof.
  revert cm count. induction sorted_blocks as [|block rest IH]; cbn [place_blocks];
    intros cm count Hsub Hinv.
  - by intros [= <- _].
  - assert (Hrest : forall b, b ∈ rest -> b ∈ blocks)
      by (intros b Hb; by apply Hsub, list_elem_of_further).
    destruct (_schedule_single_block _ _ cm block) as [[a|]|e] eqn:Es; cbn [bind]; [| |done].
    + apply schedule_in_rooms_Some in Es as (Hb & Hroom & _ & Hcan).
      apply can_assign_true in Hcan as (_ & _ & Hav & _ & Hlab).
      destruct (make_assignment_cases cm (Block.id block) a)
        as [(_ & _ & Hok & (HA & _))|[_ Hfail]].
      * destruct (make_assignment cm (Block.id block) a) as [ok cm1]. cbn in Hok, HA.
        subst ok. apply IH; [done|]. rewrite HA. apply Forall_app. split; [done|].
        constructor; [|constructor]. unfold engine_checked. cbn [fst snd]. rewrite Hb.
        split; [done|]. split; [apply Hsub, list_elem_of_here|]. split; [done|].
        by rewrite (check_room_availability_any _ cm _ block),
                   (check_lab_requirements_any _ cm _ _ (Assignment.time_slot a)).
      * rewrite Hfail. by apply IH.
    + by apply IH.
Qed.

Lemma schedule_blocks_checked set_order resource_manager course_assignments
    study_plan_mapping max_attempts schedule :
  schedule_blocks set_order resource_manager course_assignments study_plan_mapping max_attempts
  = Ok schedule ->
  exists blocks,
    _convert_course_assignments_to_blocks course_assignments study_plan_mapping = Ok blocks
    /\ Forall (engine_checked resource_manager blocks) schedule.
Proof.
  intros (blocks & att & Hconv & Hatt & ->)%schedule_blocks_origin.
  exists blocks. split; [done|]. unfold run_attempt in Hatt.
  destruct (_sort_blocks_by_priority _ _ _ blocks) as [sorted_blocks|e] eqn:Esort;
    cbn [bind] in Hatt; [|done].
  destruct (place_blocks _ _ _ sorted_blocks 0) as [[cm count]|e] eqn:Eplace;
    cbn [bind] in Hatt; [|done].
  injection Hatt as <-. cbn.
  eapply place_blocks_checked; [| |exact Eplace]; [|constructor].
  intros b Hb. by rewrite <- (sort_blocks_perm _ _ _ _ _ Esort).
Qed.

Lemma room_availability_checked resource_manager blocks assignments :
  Forall (engine_checked resource_manager blocks) assignments ->
  _check_room_availability_conflicts assignments = [].
Proof.
  unfold _check_room_availability_conflicts.
  intros Hall. induction Hall as [|[id a] l (_ & _ & _ & Hav & _) _ IH]; [done|].
  cbn [map concat].
  rewrite IH, app_nil_r. unfold room_availability_report.
  unfold check_room_availability in Hav. cbn [snd] in Hav. by rewrite Hav.
Qed.

(** X7. In a schedule returned by [schedule_blocks] the validator finds no
    room conflict, no staff conflict and no use of a room outside its
    availability: the comprehensive validation reports student conflicts and
    capacity violations only. *)
Theorem engine_schedule_validation
    (code_order : list string -> list string)
    (set_order : list SlotKey -> list SlotKey) (resource_manager : ResourceManager)
    (course_assignments : list CourseAssignment) (study_plan_mapping : gmap nat StudyPlan)
    (max_attempts : Z) (schedule : list (string * Assignment)) :
  schedule_blocks set_order resource_manager course_assignments study_plan_mapping max_attempts
  = Ok schedule ->
  _check_room_conflicts schedule = Ok []
  /\ _check_staff_conflicts schedule = Ok []
  /\ _check_room_availability_conflicts schedule = []
  /\ exists students,
       _check_student_conflicts code_order schedule = Ok students
       /\ validate_schedule_comprehensive code_order schedule
          = Ok ((length (students ++ _check_capacity_violations schedule) =? 0)%nat,
                students ++ _check_capacity_violations schedule).
Proof.
  intros scheduled.
  destruct (schedule_blocks_consistent _ _ _ _ _ _ scheduled) as (cm & Hc & Hs).
  destruct (schedule_blocks_checked _ _ _ _ _ _ scheduled) as (blocks & _ & Hchecked).
  assert (Hroom : _check_room_conflicts schedule = Ok [])
    by (rewrite Hs; by apply room_conflicts_consistent).
  assert (Hstaff : _check_staff_conflicts schedule = Ok [])
    by (rewrite Hs; by apply staff_conflicts_consistent).
  assert (Hav : _check_room_availability_conflicts schedule = [])
    by (by eapply room_availability_checked).
  split; [done|]. split; [done|]. split; [done|].
  destruct (student_conflicts_total code_order schedule) as (students & Hst & _).
  exists students. split; [done|].
  unfold validate_schedule_comprehensive. by rewrite Hroom, Hstaff, Hst, Hav.
Qed.

(** X8. The capacity gate holds in every schedule: an assigned room is
    one that [get_suitable_rooms] offers for the block, so its capacity is at
    least the binary64 product of the block's student count and 0.8, which
    for fewer than [2 ^ 50] students means at least four fifths of the count.
    The validator's capacity check asks for the full student count, so it can
    report a room of the schedule: one that holds fewer students than the
    block has. *)
Theorem engine_schedule_capacity
    (set_order : list SlotKey -> list SlotKey) (resource_manager : ResourceManager)
    (course_assignments : list CourseAssignment) (study_plan_mapping : gmap nat StudyPlan)
    (max_attempts : Z) (schedule : list (string * Assignment)) (id : string) (a : Assignment) :
  schedule_blocks set_order resource_manager course_assignments study_plan_mapping max_attempts
  = Ok schedule ->
  (id, a) ∈ schedule ->
  Assignment.room a ∈ get_suitable_rooms resource_manager (Assignment.block a)
  /\ capacity_ok default_ratio (Block.student_count (Assignment.block a))
       (capacity (Assignment.room a)) = true
  /\ (0 <= Block.student_count (Assignment.block a) < 2 ^ 50 ->
      4 * Block.student_count (Assignment.block a) <= 5 * capacity (Assignment.room a))
  /\ (capacity_report (id, a) ≠ [] ->
      capacity (Assignment.room a) < Block.student_count (Assignment.block a)).
Proof.
  intros scheduled Hin.
  destruct (schedule_blocks_checked _ _ _ _ _ _ scheduled) as (blocks & _ & Hchecked).
  pose proof (proj1 (Forall_forall _ _) Hchecked _ Hin) as (_ & _ & Hroom & _).
  cbn [snd] in Hroom. split; [done|].
  assert (Hcap : capacity_ok default_ratio (Block.student_count (Assignment.block a))
                   (capacity (Assignment.room a)) = true).
  { rewrite get_suitable_rooms_unsorted, sorted_by_elem_of in Hroom.
    by apply list_elem_of_filter in Hroom as [Hcap _]. }
  split; [done|]. split.
  - intros Hn. by apply capacity_ok_default.
  - unfold capacity_report. destruct (_ <? _) eqn:E; [|done]. intros _. by apply Z.ltb_lt.
Qed.

(** ** managers/resource_manager.py: the grid of time slots *)

(** A slot of the grid made for [duration]: on a working day, starting on
    the hour at 9:00 or later, lasting [duration] hours and ending by 19:00. *)
Definition grid_slot (duration : Z) (s : TimePreference) : Prop :=
  day s ∈ working_days
  /\ 9 <= hour (start_time s) /\ minute (start_time s) = 0
  /\ end_time s = mk_time (hour (start_time s) + duration) 0
  /\ hour (end_time s) <= 19.

Lemma time_new_Ok h m : 0 <= h <= 23 -> 0 <= m <= 59 -> time_new h m = Ok (mk_time h m).
Proof.
  intros Hh Hm. unfold time_new.
  rewrite (proj2 (Z.leb_le 0 h)), (proj2 (Z.leb_le h 23)) by lia.
  rewrite (proj2 (Z.leb_le 0 m)), (proj2 (Z.leb_le m 59)) by lia. done.
Qed.

Lemma time_new_inv h m t : time_new h m = Ok t -> t = mk_time h m.
Proof. unfold time_new. repeat destruct (negb _); by intros [= <-]. Qed.

Lemma time_slots_day_shape fuel duration break d current_time l :
  0 <= duration -> d ∈ working_days ->
  9 <= hour current_time -> minute current_time = 0 ->
  time_slots_day fuel duration break d current_time = Some (Ok l) ->
  Forall (grid_slot duration) l.
Proof.
  intros Hdur Hd. revert current_time l.
  induction fuel as [|fuel IH]; intros t l Hh Hm; cbn [time_slots_day]; [done|].
  destruct (hour t + duration <=? 19) eqn:Eend; [|by intros [= <-]].
  apply Z.leb_le in Eend.
  destruct (bool_decide (d = MONDAY) && _).
  - destruct (time_new (hour t + 1) 0) as [t'|e] eqn:Et; [|done].
    apply time_new_inv in Et as ->. apply IH; cbn; [lia | done].
  - destruct (time_new (hour t + duration) 0) as [slot_end|e] eqn:Ee; [|done].
    pose proof (time_new_inv _ _ _ Ee) as ->.
    assert (exists t', (if 0 <? break then time_new (hour t + duration + break) 0
                        else Ok (mk_time (hour t + duration) 0)) = t'
                       /\ forall u, t' = Ok u -> 9 <= hour u /\ minute u = 0)
      as (t' & -> & Ht').
    { eexists. split; [done|]. intros u. destruct (0 <? break) eqn:Eb.
      - intros ->%time_new_inv. apply Z.ltb_lt in Eb. cbn. lia.
      - intros [= <-]. cbn. lia. }
    destruct t' as [t'|e]; [|done]. destruct (Ht' t' eq_refl) as [Hh' Hm'].
    destruct (time_slots_day fuel duration break d t') as [[rest|e]|] eqn:Erec; [|done|done].
    intros [= <-]. constructor; [|by apply (IH t')].
    repeat split; cbn; try done; lia.
Qed.

Lemma time_slots_day_total fuel duration break d current_time :
  1 <= duration -> 0 <= break <= 4 ->
  0 <= hour current_time -> 21 - hour current_time <= Z.of_nat fuel -> (1 <= fuel)%nat ->
  exists l, time_slots_day fuel duration break d current_time = Some (Ok l).
Proof.
  intros Hdur Hbreak. revert current_time.
  induction fuel as [|fuel IH]; intros t Hh Hfuel Hpos; [lia|]. cbn [time_slots_day].
  destruct (hour t + duration <=? 19) eqn:Eend; [|by exists []].
  apply Z.leb_le in Eend.
  destruct (bool_decide (d = MONDAY) && _).
  - rewrite time_new_Ok by lia. apply IH; cbn; lia.
  - destruct (0 <? break) eqn:Eb.
    + rewrite (time_new_Ok (hour t + duration)), (time_new_Ok (hour t + duration + break))
        by lia.
      apply Z.ltb_lt in Eb.
      destruct (IH (mk_time (hour t + duration + break) 0)) as [rest ->]; cbn; [lia..|]. eauto.
    + rewrite (time_new_Ok (hour t + duration)) by lia.
      destruct (IH (mk_time (hour t + duration) 0)) as [rest ->]; cbn; [lia..|]. eauto.
Qed.

Lemma for_days_total f ds :
  (forall d, d ∈ ds -> exists l, f d = Some (Ok l)) ->
  exists grid, for_days f ds = Some (Ok grid).
Proof.
  induction ds as [|d ds IH]; intros Hall; [by exists []|]. cbn.
  destruct (Hall d (list_elem_of_here _ _)) as [l ->].
  destruct (IH (fun d' Hd' => Hall d' (list_elem_of_further _ _ _ Hd'))) as [grid ->]. eauto.
Qed.

Lemma for_days_Forall_days (P : TimePreference -> Prop) f ds l :
  (forall d l', d ∈ ds -> f d = Some (Ok l') -> Forall P l') ->
  for_days f ds = Some (Ok l) -> Forall P l.
Proof.
  revert l. induction ds as [|d ds IH]; intros l Hall; cbn; [by intros [= <-]|].
  destruct (f d) as [[l1|e]|] eqn:Ef; [|done|done].
  destruct (for_days f ds) as [[l2|e]|] eqn:Er; [|done|done].
  intros [= <-]. apply Forall_app. split.
  - eapply Hall; [apply list_elem_of_here | done].
  - apply IH; [|done]. intros d' l' Hd'. apply Hall. by apply list_elem_of_further.
Qed.

(** X9. For a slot duration of at least one hour and a break of zero to
    four hours, [_generate_time_slots] terminates without an exception, so
    the constructor of [ResourceManager] returns; every slot of the grid is on
    a working day, starts on the hour at 9:00 or later, lasts the slot duration
    and ends by 19:00. *)
Theorem generate_time_slots_grid (duration break : Z) :
  1 <= duration -> 0 <= break <= 4 ->
  exists grid,
    _generate_time_slots duration break = Some (Ok grid)
    /\ Forall (grid_slot duration) grid
    /\ forall hs ls, exists resource_manager,
         ResourceManager_init hs ls duration break = Some (Ok resource_manager)
         /\ time_slots resource_manager = grid
         /\ time_slot_duration resource_manager = duration.
Proof.
  intros Hdur Hbreak.
  destruct (for_days_total (fun d => time_slots_day 64 duration break d (mk_time 9 0))
              working_days) as [grid Hgrid].
  { intros d _. apply time_slots_day_total; cbn; lia. }
  exists grid. split; [exact Hgrid|]. split.
  - eapply for_days_Forall_days; [|exact Hgrid]. cbn beta.
    intros d l Hd. apply time_slots_day_shape; cbn; try done; lia.
  - intros hs ls. unfold ResourceManager_init. unfold _generate_time_slots in Hgrid.
    unfold _generate_time_slots. rewrite Hgrid. eexists. done.
Qed.

Lemma time_slots_day_zero_duration fuel break d current_time :
  break <= 0 -> 0 <= hour current_time <= 19 ->
  time_slots_day fuel 0 break d current_time = None.
Proof.
  intros Hbreak. revert current_time.
  induction fuel as [|fuel IH]; intros t Hh; [done|]. cbn [time_slots_day].
  rewrite (proj2 (Z.leb_le (hour t + 0) 19)) by lia.
  destruct (bool_decide (d = MONDAY) && _) eqn:Eskip.
  - apply andb_true_iff in Eskip as [_ Eh]. rewrite time_new_Ok by lia. apply IH. cbn.
    apply orb_true_iff in Eh as [Eh%Z.eqb_eq|Eh%Z.eqb_eq]; lia.
  - rewrite (proj2 (Z.ltb_ge 0 break)) by lia. rewrite time_new_Ok by lia.
    rewrite IH by (cbn; lia). done.
Qed.

(** X10. With a slot duration of zero and no break the loop of
    [_generate_time_slots] never advances: for every amount of fuel it is
    still running, on every day, so the constructor of [ResourceManager] does
    not return. *)
Theorem generate_time_slots_zero_duration_diverges (break : Z) :
  break <= 0 ->
  (forall fuel d, time_slots_day fuel 0 break d (mk_time 9 0) = None)
  /\ _generate_time_slots 0 break = None
  /\ forall hs ls, ResourceManager_init hs ls 0 break = None.
Proof.
  intros Hbreak.
  assert (Hday : forall fuel d, time_slots_day fuel 0 break d (mk_time 9 0) = None).
  { intros fuel d. apply time_slots_day_zero_duration; cbn; lia. }
  assert (Hgrid : _generate_time_slots 0 break = None).
  { unfold _generate_time_slots, working_days. cbn [for_days]. by rewrite Hday. }
  split; [done|]. split; [done|]. intros hs ls. unfold ResourceManager_init. by rewrite Hgrid.
Qed.

(** The count a [defaultdict(int)] gives for a key. *)
Definition count_of `{Countable K} (d : gmap K Z) (k : K) : Z := default 0 (d !! k).

Section counters.
Context `{Countable K}.
Implicit Types (d : gmap K Z) (k : K).

Lemma counter_get_count d k : (counter_get d k).1 = count_of d k.
Proof. unfold counter_get, count_of. by destruct (d !! k). Qed.

Lemma counter_get_keeps d k k' : count_of (counter_get d k).2 k' = count_of d k'.
Proof.
  unfold counter_get, count_of. destruct (d !! k) eqn:E; [done|]. cbn.
  destruct (decide (k' = k)) as [->|Hne].
  - by rewrite lookup_insert_eq, E.
  - by rewrite lookup_insert_ne.
Qed.

Lemma counter_incr_count d k k' :
  count_of (counter_incr d k) k' = count_of d k' + (if decide (k' = k) then 1 else 0).
Proof.
  unfold counter_incr. pose proof (counter_get_count d k) as Hn.
  pose proof (counter_get_keeps d k k') as Hk.
  destruct (counter_get d k) as [n d']. cbn in *. unfold count_of in *.
  destruct (decide (k' = k)) as [->|Hne].
  - rewrite lookup_insert_eq. cbn. lia.
  - rewrite lookup_insert_ne by done. lia.
Qed.

Lemma counter_keys_spec {A} (key : A -> K) d (xs : list A) :
  (counter_keys key d xs).1 = map (fun x => (count_of d (key x), x)) xs
  /\ forall k, count_of (counter_keys key d xs).2 k = count_of d k.
Proof.
  revert d. induction xs as [|x xs IH]; intros d; [done|]. cbn [counter_keys].
  pose proof (counter_get_count d (key x)) as Hn.
  pose proof (counter_get_keeps d (key x)) as Hk.
  destruct (counter_get d (key x)) as [n d']. cbn [fst snd] in *.
  destruct (IH d') as [Hkeys Hcount].
  destruct (counter_keys key d' xs) as [keyed d'']. cbn [fst snd map] in *.
  split.
  - rewrite Hkeys, Hn. f_equal. apply map_ext. intros y. by rewrite Hk.
  - intros k. by rewrite Hcount, Hk.
Qed.
End counters.

(** The first least element of a keyed list. *)
Lemma min_fold_spec {A} (rest : list (Z * A)) (first : Z * A) :
  let best := fold_left (fun best item => if item.1 <? best.1 then item else best) rest first in
  exists before after,
    first :: rest = before ++ best :: after
    /\ (forall item, item ∈ before -> best.1 < item.1)
    /\ (forall item, item ∈ after -> best.1 <= item.1).
Proof.
  cbn zeta. revert first. induction rest as [|item rest IH] using rev_ind; intros first.
  - exists [], []. cbn. split; [done|]. split; intros ? Hin; by apply elem_of_nil in Hin.
  - rewrite fold_left_app. cbn [fold_left].
    destruct (IH first) as (before & after & Heq & Hb & Ha).
    set (best := fold_left _ rest first) in *.
    destruct (item.1 <? best.1) eqn:E.
    + apply Z.ltb_lt in E. exists (first :: rest), []. split; [done|]. split.
      * intros x Hx. rewrite Heq in Hx.
        apply elem_of_app in Hx as [Hx|Hx]; [|apply elem_of_cons in Hx as [->|Hx]].
        -- specialize (Hb x Hx). lia.
        -- lia.
        -- specialize (Ha x Hx). lia.
      * intros ? Hin; by apply elem_of_nil in Hin.
    + apply Z.ltb_ge in E. exists before, (after ++ [item]). split.
      * rewrite app_comm_cons, Heq. by rewrite <- app_assoc.
      * split; [done|]. intros x [Hx|Hx%list_elem_of_singleton]%elem_of_app;
          [by apply Ha | by subst x].
Qed.

Lemma min_keyed_spec {A} (count : A -> Z) (xs : list A) :
  match min_keyed (map (fun x => (count x, x)) xs) with
  | Ok best =>
      exists before after,
        xs = before ++ best :: after
        /\ (forall x, x ∈ before -> count best < count x)
        /\ (forall x, x ∈ after -> count best <= count x)
  | Raise e => xs = [] /\ exists msg, e = ValueError msg
  end.
Proof.
  destruct xs as [|x xs]; cbn [map min_keyed]; [split; eauto|].
  destruct (min_fold_spec (map (fun x => (count x, x)) xs) (count x, x))
    as (before & after & Heq & Hb & Ha).
  set (best := fold_left _ _ _) in *.
  change ((count x, x) :: map (fun x => (count x, x)) xs)
    with (map (fun x => (count x, x)) (x :: xs)) in Heq.
  apply map_eq_app in Heq as (before' & rest' & Hxs & Hbe & Hrest).
  apply map_eq_cons in Hrest as (b & after' & -> & Hbest & Hafter).
  subst before after. rewrite <- Hbest in *. cbn [fst snd] in *.
  exists before', after'. split; [done|]. split.
  - intros y Hy. apply (Hb (count y, y)). apply list_elem_of_fmap. by exists y.
  - intros y Hy. apply (Ha (count y, y)). apply list_elem_of_fmap. by exists y.
Qed.

(** X11. The usage statistics count the recorded assignments: after
    [update_resource_usage] has been called for each assignment of a list on a
    new manager, a room key stands at the number of these assignments with
    that room key, and a staff id at the number taught by that staff member;
    keys never recorded are absent. *)
Theorem resource_usage_counts (assignments : list Assignment) :
  let stats := get_resource_usage_stats (fold_left update_resource_usage assignments no_usage) in
  (forall room_key,
     stats.1 !! room_key
     = let n := length (filter (fun a => get_room_key (Assignment.room a) = room_key)
                          assignments) in
       if decide (n = 0%nat) then None else Some (Z.of_nat n))
  /\ (forall staff,
        stats.2 !! staff
        = let n := length (filter (fun a => assignment_staff_id a = staff) assignments) in
          if decide (n = 0%nat) then None else Some (Z.of_nat n)).
Proof.
  cbn zeta. unfold get_resource_usage_stats. cbn [fst snd].
  induction assignments as [|a l IH] using rev_ind.
  - cbn. split; intros k; apply lookup_empty.
  - rewrite fold_left_app. cbn [fold_left]. destruct IH as [IHr IHs].
    set (self := fold_left update_resource_usage l no_usage) in *.
    split; intros k; rewrite filter_app, length_app, filter_cons, filter_nil.
    + unfold update_resource_usage, counter_incr, counter_get. cbn [room_usage].
      destruct (decide (get_room_key (Assignment.room a) = k)) as [<-|Hne]; cbn [length].
      * rewrite decide_False by lia. rewrite IHr.
        destruct (decide (_ = 0%nat)) as [->|?]; rewrite lookup_insert_eq; f_equal; lia.
      * rewrite Nat.add_0_r, <- IHr.
        destruct (room_usage self !! _); rewrite !lookup_insert_ne by done; done.
    + unfold update_resource_usage, counter_incr, counter_get. cbn [staff_workload].
      destruct (decide (assignment_staff_id a = k)) as [<-|Hne]; cbn [length].
      * rewrite decide_False by lia. rewrite IHs.
        destruct (decide (_ = 0%nat)) as [->|?]; rewrite lookup_insert_eq; f_equal; lia.
      * rewrite Nat.add_0_r, <- IHs.
        destruct (staff_workload self !! _); rewrite !lookup_insert_ne by done; done.
Qed.

(** X12. [get_least_used_room] raises [ValueError] on an empty list and
    otherwise returns the first room of the list with the least usage count;
    looking the counts up changes none of them.  [balance_staff_workload]
    does the same for staff members and their workload. *)
Theorem least_used_is_first_minimum (self : ResourceUsage) (block : Block)
    (suitable_rooms : list Room) (possible_staff : list Staff) :
  (let usage room := count_of (room_usage self) (get_room_key room) in
   let '(outcome, self') := get_least_used_room self suitable_rooms in
   (forall k, count_of (room_usage self') k = count_of (room_usage self) k)
   /\ staff_workload self' = staff_workload self
   /\ match outcome with
      | Ok room =>
          exists before after,
            suitable_rooms = before ++ room :: after
            /\ (forall r, r ∈ before -> usage room < usage r)
            /\ (forall r, r ∈ after -> usage room <= usage r)
      | Raise e => suitable_rooms = [] /\ exists msg, e = ValueError msg
      end)
  /\ (let workload s := count_of (staff_workload self) (staff_id s) in
      let '(outcome, self') := balance_staff_workload self block possible_staff in
      (forall k, count_of (staff_workload self') k = count_of (staff_workload self) k)
      /\ room_usage self' = room_usage self
      /\ match outcome with
         | Ok staff =>
             exists before after,
               possible_staff = before ++ staff :: after
               /\ (forall s, s ∈ before -> workload staff < workload s)
               /\ (forall s, s ∈ after -> workload staff <= workload s)
         | Raise e => possible_staff = [] /\ exists msg, e = ValueError msg
         end).
Proof.
  split.
  - unfold get_least_used_room.
    destruct (counter_keys_spec get_room_key (room_usage self) suitable_rooms) as [Hk Hc].
    destruct (counter_keys _ _ _) as [keyed usage']. cbn [fst snd] in *. subst keyed.
    split; [done|]. split; [done|].
    apply (min_keyed_spec (fun room => count_of (room_usage self) (get_room_key room))).
  - unfold balance_staff_workload.
    destruct (counter_keys_spec staff_id (staff_workload self) possible_staff) as [Hk Hc].
    destruct (counter_keys _ _ _) as [keyed workload']. cbn [fst snd] in *. subst keyed.
    split; [done|]. split; [done|].
    apply (min_keyed_spec (fun s => count_of (staff_workload self) (staff_id s))).
Qed.

(** ** Facts on the conversion to blocks *)

Lemma group_blocks_spec mk f n count :
  (forall k, mk k = Ok (f k)) ->
  group_blocks mk n count = (map f (seqZ count (Z.of_nat n)), count + Z.of_nat n).
Proof.
  intros Hmk. revert count. induction n as [|n IH]; intros count.
  - cbn. by rewrite Z.add_0_r.
  - cbn [group_blocks]. rewrite Hmk, IH, (seqZ_cons count (Z.of_nat (S n))) by lia. cbn [map].
    replace (Z.succ count) with (count + 1) by lia.
    replace (Z.pred (Z.of_nat (S n))) with (Z.of_nat n) by lia.
    replace (count + 1 + Z.of_nat n) with (count + Z.of_nat (S n)) by lia. done.
Qed.

Lemma group_blocks_raises mk n count :
  (forall k, exists e, mk k = Raise e) -> group_blocks mk n count = ([], count).
Proof.
  intros Hmk. destruct n as [|n]; [done|]. cbn [group_blocks].
  by destruct (Hmk count) as [e ->].
Qed.

Lemma new_lecture_block_cases course study_plan l :
  (CourseAssignment.lecture_groups course = 0
   /\ forall k, exists e, new_lecture_block course study_plan l k = Raise e)
  \/ (CourseAssignment.lecture_groups course ≠ 0
      /\ forall k, new_lecture_block course study_plan l k
                   = Ok (lecture_block course study_plan l k)).
Proof.
  unfold new_lecture_block, floordiv.
  destruct (CourseAssignment.lecture_groups course =? 0) eqn:E; cbn [bind].
  - left. split; [lia | by eexists].
  - right. split; [lia | done].
Qed.

Lemma new_lab_block_cases course study_plan ta lab_groups :
  (lab_groups = 0
   /\ forall k, exists e, new_lab_block course study_plan ta lab_groups k = Raise e)
  \/ (lab_groups ≠ 0
      /\ forall k, new_lab_block course study_plan ta lab_groups k
                   = Ok (lab_block course study_plan ta lab_groups k)).
Proof.
  unfold new_lab_block, floordiv. destruct (lab_groups =? 0) eqn:E; cbn [bind].
  - left. split; [lia | by eexists].
  - right. split; [lia | done].
Qed.

(** [len(range(n))] *)
Definition range_length (n : Z) : Z := Z.max 0 n.

(** The number of blocks that one entry of [course.lecturers] and of
    [course.teaching_assistants] yields. *)
Definition lecturer_groups (course : CourseAssignment) (la : LecturerAssignment) : Z :=
  match lecturer la with
  | Some _ =>
      if CourseAssignment.lecture_groups course =? 0 then 0
      else range_length (lecturer_num_of_groups la)
  | None => 0
  end.

Definition ta_groups (lab_groups : Z) (ta_assignment : TAAssignment) : Z :=
  match teaching_assistant ta_assignment with
  | Some _ => if lab_groups =? 0 then 0 else range_length (ta_num_of_groups ta_assignment)
  | None => 0
  end.

Lemma sum_list_nonneg l : Forall (fun n => 0 <= n) l -> 0 <= sum_list l.
Proof. unfold sum_list. induction 1; cbn; [done | lia]. Qed.

Lemma sum_list_range l :
  Forall (fun n => 0 <= n) l -> sum_list (map range_length l) = sum_list l.
Proof.
  unfold sum_list. induction 1 as [|n l Hn _ IH]; cbn [map foldr]; [done|].
  rewrite IH. unfold range_length. lia.
Qed.

Lemma lecturer_groups_nonneg course ls : 0 <= sum_list (map (lecturer_groups course) ls).
Proof.
  apply sum_list_nonneg, Forall_forall. intros n (la & -> & _)%list_elem_of_fmap.
  unfold lecturer_groups, range_length. destruct (lecturer la); [|done].
  destruct (_ =? 0); lia.
Qed.

Lemma ta_groups_nonneg lab_groups tas : 0 <= sum_list (map (ta_groups lab_groups) tas).
Proof.
  apply sum_list_nonneg, Forall_forall. intros n (ta & -> & _)%list_elem_of_fmap.
  unfold ta_groups, range_length. destruct (teaching_assistant ta); [|done].
  destruct (_ =? 0); lia.
Qed.

Lemma lecture_blocks_spec course study_plan ls count :
  map Block.group_number (lecture_blocks course study_plan ls count)
  = seqZ count (sum_list (map (lecturer_groups course) ls))
  /\ Forall (fun b => Block.block_type b = LECTURE) (lecture_blocks course study_plan ls count).
Proof.
  revert count. induction ls as [|la ls IH]; intros count; [done|].
  cbn [lecture_blocks map]. unfold sum_list at 1. cbn [foldr]. fold (sum_list (map (lecturer_groups course) ls)).
  unfold lecturer_groups at 1.
  destruct (lecturer la) as [l|]; [|rewrite Z.add_0_l; apply IH].
  pose proof (lecturer_groups_nonneg course ls) as Hrest.
  destruct (new_lecture_block_cases course study_plan l) as [[Hz Hmk]|[Hnz Hmk]].
  - rewrite (group_blocks_raises _ _ _ Hmk). rewrite (proj2 (Z.eqb_eq _ _) Hz), Z.add_0_l.
    apply IH.
  - rewrite (group_blocks_spec _ _ _ _ Hmk). rewrite (proj2 (Z.eqb_neq _ _) Hnz).
    destruct (IH (count + Z.of_nat (Z.to_nat (lecturer_num_of_groups la)))) as [IHn IHt].
    assert (Hlen : Z.of_nat (Z.to_nat (lecturer_num_of_groups la))
                   = range_length (lecturer_num_of_groups la)) by (unfold range_length; lia).
    split.
    + rewrite map_app, map_map. cbn [Block.group_number lecture_block]. rewrite map_id, IHn.
      rewrite Hlen. rewrite seqZ_app; [done | unfold range_length; lia | done].
    + apply Forall_app. split; [|done]. apply Forall_forall.
      by intros b (i & -> & _)%list_elem_of_fmap.
Qed.

Lemma lab_blocks_spec course study_plan lab_groups tas count :
  map Block.group_number (lab_blocks course study_plan lab_groups tas count)
  = seqZ count (sum_list (map (ta_groups lab_groups) tas))
  /\ Forall (fun b => Block.block_type b = LAB)
       (lab_blocks course study_plan lab_groups tas count).
Proof.
  revert count. induction tas as [|ta tas IH]; intros count; [done|].
  cbn [lab_blocks map]. unfold sum_list at 1. cbn [foldr]. fold (sum_list (map (ta_groups lab_groups) tas)).
  unfold ta_groups at 1.
  destruct (teaching_assistant ta) as [t|]; [|rewrite Z.add_0_l; apply IH].
  pose proof (ta_groups_nonneg lab_groups tas) as Hrest.
  destruct (new_lab_block_cases course study_plan t lab_groups) as [[Hz Hmk]|[Hnz Hmk]].
  - rewrite (group_blocks_raises _ _ _ Hmk). rewrite (proj2 (Z.eqb_eq _ _) Hz), Z.add_0_l.
    apply IH.
  - rewrite (group_blocks_spec _ _ _ _ Hmk). rewrite (proj2 (Z.eqb_neq _ _) Hnz).
    destruct (IH (count + Z.of_nat (Z.to_nat (ta_num_of_groups ta)))) as [IHn IHt].
    assert (Hlen : Z.of_nat (Z.to_nat (ta_num_of_groups ta))
                   = range_length (ta_num_of_groups ta)) by (unfold range_length; lia).
    split.
    + rewrite map_app, map_map. cbn [Block.group_number lab_block]. rewrite map_id, IHn.
      rewrite Hlen. rewrite seqZ_app; [done | unfold range_length; lia | done].
    + apply Forall_app. split; [|done]. apply Forall_forall.
      by intros b (i & -> & _)%list_elem_of_fmap.
Qed.

Lemma filter_all {A} (P : A -> Prop) `{!forall x, Decision (P x)} (l : list A) :
  Forall P l -> filter P l = l.
Proof.
  induction 1 as [|x l Hx _ IH]; [done|]. by rewrite filter_cons_True, IH.
Qed.

Lemma filter_no {A} (P : A -> Prop) `{!forall x, Decision (P x)} (l : list A) :
  Forall (fun x => ¬ P x) l -> filter P l = [].
Proof.
  induction 1 as [|x l Hx _ IH]; [done|]. by rewrite filter_cons_False.
Qed.

(** The practical blocks of a course, as [course_blocks] appends them. *)
Definition practical_blocks (course : CourseAssignment) (study_plan : StudyPlan) : list Block :=
  match CourseAssignment.lab_groups course with
  | Some lab_groups =>
      if (0 <? lab_groups) && truthy (CourseAssignment.teaching_assistants course) then
        lab_blocks course study_plan lab_groups
          (default [] (CourseAssignment.teaching_assistants course)) 1
      else []
  | None => []
  end.

Lemma practical_blocks_type course study_plan :
  Forall (fun b => Block.block_type b = LAB) (practical_blocks course study_plan).
Proof.
  unfold practical_blocks. destruct (CourseAssignment.lab_groups course); [|done].
  destruct (_ && _); [apply lab_blocks_spec | done].
Qed.

Lemma course_blocks_split course study_plan :
  filter (fun b => Block.block_type b = LECTURE) (course_blocks course study_plan)
  = lecture_blocks course study_plan (CourseAssignment.lecturers course) 1
  /\ filter (fun b => Block.block_type b = LAB) (course_blocks course study_plan)
     = practical_blocks course study_plan.
Proof.
  change (course_blocks course study_plan)
    with (lecture_blocks course study_plan (CourseAssignment.lecturers course) 1
          ++ practical_blocks course study_plan).
  pose proof (proj2 (lecture_blocks_spec course study_plan
                       (CourseAssignment.lecturers course) 1)) as Hl.
  pose proof (practical_blocks_type course study_plan) as Hp.
  rewrite !filter_app. split.
  - rewrite (filter_all _ _ Hl), filter_no, app_nil_r; [done|].
    eapply Forall_impl; [exact Hp|]. intros b ->. done.
  - rewrite (filter_all _ _ Hp), filter_no; [done|].
    eapply Forall_impl; [exact Hl|]. intros b ->. done.
Qed.

Lemma sum_lecturer_groups course :
  CourseAssignment.lecture_groups course ≠ 0 ->
  Forall (fun la => is_Some (lecturer la) /\ 0 <= lecturer_num_of_groups la)
    (CourseAssignment.lecturers course) ->
  sum_list (map (lecturer_groups course) (CourseAssignment.lecturers course))
  = sum_list (map lecturer_num_of_groups (CourseAssignment.lecturers course)).
Proof.
  intros Hnz Hall. unfold sum_list.
  induction Hall as [|la ls [[l Hl] Hn] _ IH]; [done|]. cbn [map foldr]. rewrite IH.
  unfold lecturer_groups, range_length. rewrite Hl, (proj2 (Z.eqb_neq _ _) Hnz). lia.
Qed.

Lemma sum_ta_groups lab_groups tas :
  lab_groups ≠ 0 ->
  Forall (fun ta => is_Some (teaching_assistant ta) /\ 0 <= ta_num_of_groups ta) tas ->
  sum_list (map (ta_groups lab_groups) tas) = sum_list (map ta_num_of_groups tas).
Proof.
  intros Hnz Hall. unfold sum_list.
  induction Hall as [|ta tas' [[t Ht] Hn] _ IH]; [done|]. cbn [map foldr]. rewrite IH.
  unfold ta_groups, range_length. rewrite Ht, (proj2 (Z.eqb_neq _ _) Hnz). lia.
Qed.

(** X13. For a course that [CourseAssignment.__post_init__] accepts, whose
    entries all carry their lecturer or teaching assistant and whose group
    counts per entry are not negative, the conversion makes one lecture block
    for each of the [lecture_groups], with group numbers 1, 2, ... in order,
    and one practical block for each of the [lab_groups], numbered likewise.
    An entry without its staff object yields no block: in general the group
    numbers run up to the sum of [lecturer_groups], and of [ta_groups], over
    the entries. *)
Theorem course_blocks_count (course : CourseAssignment) (study_plan : StudyPlan) :
  let blocks := course_blocks course study_plan in
  let lab_groups := Z.max 0 (default 0 (CourseAssignment.lab_groups course)) in
  map Block.group_number (filter (fun b => Block.block_type b = LECTURE) blocks)
  = seqZ 1 (sum_list (map (lecturer_groups course) (CourseAssignment.lecturers course)))
  /\ (CourseAssignment_post_init course = Constructed ->
      Forall (fun la => is_Some (lecturer la) /\ 0 <= lecturer_num_of_groups la)
        (CourseAssignment.lecturers course) ->
      Forall (fun ta => is_Some (teaching_assistant ta) /\ 0 <= ta_num_of_groups ta)
        (default [] (CourseAssignment.teaching_assistants course)) ->
      map Block.group_number (filter (fun b => Block.block_type b = LECTURE) blocks)
      = seqZ 1 (CourseAssignment.lecture_groups course)
      /\ map Block.group_number (filter (fun b => Block.block_type b = LAB) blocks)
         = seqZ 1 lab_groups
      /\ Z.of_nat (length blocks) = CourseAssignment.lecture_groups course + lab_groups).
Proof.
  cbn zeta. split.
  { destruct (course_blocks_split course study_plan) as [-> _]. apply lecture_blocks_spec. }
  intros Hinit Hls Htas.
  assert (Hparts :
    map Block.group_number (filter (fun b => Block.block_type b = LECTURE)
                              (course_blocks course study_plan))
    = seqZ 1 (CourseAssignment.lecture_groups course)
    /\ map Block.group_number (filter (fun b => Block.block_type b = LAB)
                                 (course_blocks course study_plan))
       = seqZ 1 (Z.max 0 (default 0 (CourseAssignment.lab_groups course)))
    /\ 0 <= CourseAssignment.lecture_groups course).
  { destruct (course_blocks_split course study_plan) as [-> ->].
    unfold CourseAssignment_post_init in Hinit.
    destruct (_ <=? 0) eqn:Epos; [done|]. apply Z.leb_gt in Epos.
    destruct (bool_decide _); [done|].
    destruct (negb _) eqn:Esum; [done|].
    apply negb_false_iff, Z.eqb_eq in Esum.
    split; [|split; [|lia]].
    - rewrite (proj1 (lecture_blocks_spec _ _ _ _)), sum_lecturer_groups, Esum; [done|lia|done].
    - unfold practical_blocks.
      destruct (CourseAssignment.lab_groups course) as [lab_groups|]; [|done]. cbn [default].
      destruct (0 <? lab_groups) eqn:Elab; cbn [andb].
      + apply Z.ltb_lt in Elab.
        destruct (truthy _); [|done]. cbn [negb] in Hinit.
        destruct (negb _) eqn:Eta in Hinit; [done|].
        apply negb_false_iff, Z.eqb_eq in Eta.
        rewrite (proj1 (lab_blocks_spec _ _ _ _ _)), sum_ta_groups, Eta; [|lia|done].
        f_equal. unfold id. lia.
      + apply Z.ltb_ge in Elab. by rewrite seqZ_nil by (unfold id; lia). }
  destruct Hparts as (Hl & Hp & Hpos). split; [done|]. split; [done|].
  pose proof (filter_app_complement (fun b => Block.block_type b = LECTURE)
                (course_blocks course study_plan)) as Hperm.
  apply Permutation_length in Hperm. rewrite length_app in Hperm.
  apply (f_equal length) in Hl, Hp. rewrite length_map, length_seqZ in Hl, Hp.
  assert (Hcompl : filter (fun b => ¬ Block.block_type b = LECTURE)
                     (course_blocks course study_plan)
                   = filter (fun b => Block.block_type b = LAB)
                       (course_blocks course study_plan)).
  { apply filter_ext_iff. intros b. destruct (Block.block_type b); split; congruence. }
  rewrite Hcompl in Hperm. lia.
Qed.

(** ** The study plan of each course *)

Lemma convert_from_ext i course_assignments m m' :
  (forall j, (i <= j < i + length course_assignments)%nat -> m !! j = m' !! j) ->
  convert_from i course_assignments m = convert_from i course_assignments m'.
Proof.
  revert i. induction course_assignments as [|course rest IH]; intros i Hagree; [done|].
  cbn [convert_from]. rewrite <- (Hagree i) by (cbn; lia).
  destruct (m !! i); [|done]. rewrite (IH (S i)); [done|].
  intros j Hj. apply Hagree. cbn. lia.
Qed.

Lemma convert_from_app i cs1 cs2 m :
  convert_from i (cs1 ++ cs2) m
  = (b1 <- convert_from i cs1 m ;;
     b2 <- convert_from (i + length cs1) cs2 m ;;
     Ok (b1 ++ b2)).
Proof.
  revert i. induction cs1 as [|course cs1 IH]; intros i.
  - cbn. rewrite Nat.add_0_r. by destruct (convert_from i cs2 m).
  - cbn [app convert_from length]. destruct (m !! i) as [study_plan|]; [|done].
    rewrite IH. replace (i + S (length cs1))%nat with (S i + length cs1)%nat by lia.
    destruct (convert_from (S i) cs1 m) as [b1|e]; cbn [bind]; [|done].
    destruct (convert_from (S i + length cs1) cs2 m) as [b2|e]; cbn [bind]; [|done].
    by rewrite app_assoc.
Qed.

Lemma convert_from_cases i course_assignments m :
  match convert_from i course_assignments m with
  | Ok blocks =>
      exists plans,
        length plans = length course_assignments
        /\ (forall j plan, plans !! j = Some plan -> m !! (i + j)%nat = Some plan)
        /\ blocks = concat (zip_with course_blocks course_assignments plans)
  | Raise e =>
      e = KeyError /\ exists j, (j < length course_assignments)%nat /\ m !! (i + j)%nat = None
  end.
Proof.
  revert i. induction course_assignments as [|course rest IH]; intros i.
  - cbn. exists []. split; [done|]. split; [|done]. intros j plan Hj. by destruct j.
  - cbn [convert_from]. destruct (m !! i) as [study_plan|] eqn:Ei.
    + specialize (IH (S i)). destruct (convert_from (S i) rest m) as [bs|e]; cbn [bind].
      * destruct IH as (plans & Hlen & Hplans & ->). exists (study_plan :: plans).
        split; [cbn; lia|]. split; [|done].
        intros [|j] plan Hj; cbn in Hj.
        -- injection Hj as <-. by rewrite Nat.add_0_r.
        -- replace (i + S j)%nat with (S i + j)%nat by lia. by apply Hplans.
      * destruct IH as (-> & j & Hj & Hnone). split; [done|]. exists (S j).
        split; [cbn; lia|]. by replace (i + S j)%nat with (S i + j)%nat by lia.
    + split; [done|]. exists 0%nat. split; [cbn; lia|]. by rewrite Nat.add_0_r.
Qed.

(** X14. The conversion to blocks raises only [KeyError], and it does so
    exactly when [study_plan_mapping] lacks the index of one of the course
    assignments; otherwise it returns the blocks of each course, made with the
    study plan at its index, in the order of the courses. *)
Theorem convert_raises_KeyError_iff (course_assignments : list CourseAssignment)
    (study_plan_mapping : gmap nat StudyPlan) :
  (_convert_course_assignments_to_blocks course_assignments study_plan_mapping = Raise KeyError
   <-> exists i, (i < length course_assignments)%nat /\ study_plan_mapping !! i = None)
  /\ (forall e,
        _convert_course_assignments_to_blocks course_assignments study_plan_mapping = Raise e ->
        e = KeyError)
  /\ (forall blocks,
        _convert_course_assignments_to_blocks course_assignments study_plan_mapping = Ok blocks ->
        exists plans,
          length plans = length course_assignments
          /\ (forall i plan, plans !! i = Some plan -> study_plan_mapping !! i = Some plan)
          /\ blocks = concat (zip_with course_blocks course_assignments plans)).
Proof.
  unfold _convert_course_assignments_to_blocks.
  pose proof (convert_from_cases 0 course_assignments study_plan_mapping) as Hcases.
  destruct (convert_from 0 course_assignments study_plan_mapping) as [blocks|e].
  - destruct Hcases as (plans & Hlen & Hplans & ->). split; [|split; [done|]].
    + split; [done|]. intros (i & Hi & Hnone). exfalso.
      destruct (lookup_lt_is_Some_2 plans i) as [plan Hplan]; [lia|].
      apply Hplans in Hplan. cbn in Hplan. congruence.
    + intros ? [= <-]. eauto.
  - destruct Hcases as (-> & j & Hj & Hnone). split; [|split; [|done]].
    + split; [eauto | done].
    + by intros ? [= <-].
Qed.

Lemma collect_plan_convert study_plan all_course_assignments study_plan_mapping blocks :
  convert_from 0 all_course_assignments study_plan_mapping = Ok blocks ->
  let '(all', mapping') := collect_plan study_plan (all_course_assignments, study_plan_mapping) in
  all' = all_course_assignments ++ StudyPlan.course_assignments study_plan
  /\ convert_from 0 all' mapping'
     = Ok (blocks ++ concat (map (fun course => course_blocks course study_plan)
                               (StudyPlan.course_assignments study_plan))).
Proof.
  unfold collect_plan.
  generalize (StudyPlan.course_assignments study_plan) as courses.
  intros courses. revert all_course_assignments study_plan_mapping blocks.
  induction courses as [|course courses IH]; intros all mapping blocks Hconv.
  - cbn. by rewrite !app_nil_r.
  - cbn [fold_left map concat].
    specialize (IH (all ++ [course]) (<[length all := study_plan]> mapping)
                  (blocks ++ course_blocks course study_plan)).
    destruct (fold_left _ courses _) as [all' mapping'].
    destruct IH as [-> IH].
    + rewrite convert_from_app.
      rewrite (convert_from_ext 0 all _ mapping), Hconv.
      * cbn [bind convert_from]. rewrite Nat.add_0_l, lookup_insert_eq. cbn.
        by rewrite app_nil_r.
      * intros j Hj. rewrite lookup_insert_ne by lia. done.
    + split; [by rewrite <- app_assoc|]. rewrite IH. by rewrite <- app_assoc.
Qed.

(** X15. [main.py] collects the course assignments of all study plans
    into one list and maps the index of each to its study plan; with these two
    the conversion never raises [KeyError], and every course is converted with
    the study plan it was listed under. *)
Theorem collected_courses_convert (study_plans : list StudyPlan) :
  let '(all_course_assignments, study_plan_mapping) :=
    collect_course_assignments study_plans in
  all_course_assignments = concat (map StudyPlan.course_assignments study_plans)
  /\ _convert_course_assignments_to_blocks all_course_assignments study_plan_mapping
     = Ok (concat (map (fun study_plan =>
                          concat (map (fun course => course_blocks course study_plan)
                                    (StudyPlan.course_assignments study_plan)))
                     study_plans)).
Proof.
  unfold collect_course_assignments, _convert_course_assignments_to_blocks.
  induction study_plans as [|study_plan study_plans IH] using rev_ind; [done|].
  rewrite fold_left_app. cbn [fold_left].
  destruct (fold_left _ study_plans _) as [all mapping]. destruct IH as [-> IH].
  pose proof (collect_plan_convert study_plan _ _ _ IH) as Hstep.
  destruct (collect_plan study_plan _) as [all' mapping']. destruct Hstep as [-> ->].
  rewrite !map_app, !concat_app. cbn. by rewrite !app_nil_r.
Qed.

(** ** Block ids *)

Lemma lecture_block_ids course plan1 plan2 ls count :
  map Block.id (lecture_blocks course plan1 ls count)
  = map Block.id (lecture_blocks course plan2 ls count).
Proof.
  revert count. induction ls as [|la ls IH]; intros count; [done|].
  cbn [lecture_blocks]. destruct (lecturer la) as [l|]; [|apply IH].
  destruct (new_lecture_block_cases course plan1 l) as [[Hz Hmk1]|[Hnz Hmk1]],
    (new_lecture_block_cases course plan2 l) as [[Hz' Hmk2]|[Hnz' Hmk2]]; try done.
  - rewrite (group_blocks_raises _ _ _ Hmk1), (group_blocks_raises _ _ _ Hmk2). apply IH.
  - rewrite (group_blocks_spec _ _ _ _ Hmk1), (group_blocks_spec _ _ _ _ Hmk2).
    rewrite !map_app, !map_map, IH. done.
Qed.

Lemma lab_block_ids course plan1 plan2 lab_groups tas count :
  map Block.id (lab_blocks course plan1 lab_groups tas count)
  = map Block.id (lab_blocks course plan2 lab_groups tas count).
Proof.
  revert count. induction tas as [|ta tas IH]; intros count; [done|].
  cbn [lab_blocks]. destruct (teaching_assistant ta) as [t|]; [|apply IH].
  destruct (new_lab_block_cases course plan1 t lab_groups) as [[Hz Hmk1]|[Hnz Hmk1]],
    (new_lab_block_cases course plan2 t lab_groups) as [[Hz' Hmk2]|[Hnz' Hmk2]]; try done.
  - rewrite (group_blocks_raises _ _ _ Hmk1), (group_blocks_raises _ _ _ Hmk2). apply IH.
  - rewrite (group_blocks_spec _ _ _ _ Hmk1), (group_blocks_spec _ _ _ _ Hmk2).
    rewrite !map_app, !map_map, IH. done.
Qed.

Lemma lecture_blocks_elem_of course study_plan ls count b :
  b ∈ lecture_blocks course study_plan ls count ->
  exists l i, b = lecture_block course study_plan l i.
Proof.
  revert count. induction ls as [|la ls IH]; cbn [lecture_blocks]; intros count Hb.
  - by apply elem_of_nil in Hb.
  - destruct (lecturer la) as [l|]; [|by eapply IH].
    destruct (group_blocks _ _ count) as [bs c] eqn:E.
    apply elem_of_app in Hb as [Hb|Hb]; [|by eapply IH].
    assert (Hb' : b ∈ (group_blocks (new_lecture_block course study_plan l)
                         (Z.to_nat (lecturer_num_of_groups la)) count).1) by by rewrite E.
    apply group_blocks_elem_of in Hb' as [i [_ ->]%new_lecture_block_Ok]. eauto.
Qed.

Lemma lab_blocks_elem_of course study_plan lab_groups tas count b :
  b ∈ lab_blocks course study_plan lab_groups tas count ->
  exists t i, b = lab_block course study_plan t lab_groups i.
Proof.
  revert count. induction tas as [|ta tas IH]; cbn [lab_blocks]; intros count Hb.
  - by apply elem_of_nil in Hb.
  - destruct (teaching_assistant ta) as [t|]; [|by eapply IH].
    destruct (group_blocks _ _ count) as [bs c] eqn:E.
    apply elem_of_app in Hb as [Hb|Hb]; [|by eapply IH].
    assert (Hb' : b ∈ (group_blocks (new_lab_block course study_plan t lab_groups)
                         (Z.to_nat (ta_num_of_groups ta)) count).1) by by rewrite E.
    apply group_blocks_elem_of in Hb' as [i [_ ->]%new_lab_block_Ok]. eauto.
Qed.

(** X16. The id of a block is made of the course code, the staff id and
    the group number only: a course listed under two study plans yields the
    same block ids under both, while the cohort and the student count of its
    blocks follow the plan. *)
Theorem block_ids_ignore_study_plan (course : CourseAssignment) (plan1 plan2 : StudyPlan) :
  map Block.id (course_blocks course plan1) = map Block.id (course_blocks course plan2)
  /\ (forall b, b ∈ course_blocks course plan1 ->
        Block.academic_list b = AcademicList.name (StudyPlan.academic_list plan1)
        /\ Block.academic_level b = StudyPlan.academic_level plan1
        /\ Block.student_count b
           = StudyPlan.expected_students plan1 / Block.total_groups b).
Proof.
  split.
  - unfold course_blocks. rewrite !map_app, (lecture_block_ids _ plan1 plan2). f_equal.
    destruct (CourseAssignment.lab_groups course); [|done].
    destruct (_ && _); [apply lab_block_ids | done].
  - intros b [Hb|Hb]%elem_of_app.
    + by apply lecture_blocks_elem_of in Hb as (l & i & ->).
    + destruct (CourseAssignment.lab_groups course) as [lab_groups|];
        [|by apply elem_of_nil in Hb].
      destruct (_ && _); [|by apply elem_of_nil in Hb].
      by apply lab_blocks_elem_of in Hb as (t & i & ->).
Qed.

(** ** The entries of a schedule *)

Lemma schedule_blocks_nonempty set_order resource_manager course_assignments
    study_plan_mapping max_attempts schedule :
  schedule_blocks set_order resource_manager course_assignments study_plan_mapping max_attempts
  = Ok schedule ->
  schedule ≠ [].
Proof.
  unfold schedule_blocks.
  destruct (_convert_course_assignments_to_blocks _ _) as [blocks|e]; cbn [bind]; [|done].
  unfold select_best. destruct (attempts_loop _ _ _ _ _) as [best|e]; cbn [bind]; [|done].
  destruct (best_assignments best); [done|]. by intros [= <-].
Qed.

(** X17. A schedule returned by [schedule_blocks] is not empty, holds
    each block id once, and stores under each id an assignment of a block
    with that id among the blocks the courses were converted to; so it has at
    most as many entries as there are distinct block ids. *)
Theorem schedule_entries_are_blocks
    (set_order : list SlotKey -> list SlotKey) (resource_manager : ResourceManager)
    (course_assignments : list CourseAssignment) (study_plan_mapping : gmap nat StudyPlan)
    (max_attempts : Z) (schedule : list (string * Assignment)) :
  schedule_blocks set_order resource_manager course_assignments study_plan_mapping max_attempts
  = Ok schedule ->
  exists blocks,
    _convert_course_assignments_to_blocks course_assignments study_plan_mapping = Ok blocks
    /\ schedule ≠ []
    /\ NoDup (dict_keys schedule)
    /\ (forall id a, (id, a) ∈ schedule ->
          id = Block.id (Assignment.block a) /\ Assignment.block a ∈ blocks)
    /\ (length schedule <= length (remove_dups (map Block.id blocks)))%nat.
Proof.
  intros Hs. destruct (schedule_blocks_checked _ _ _ _ _ _ Hs) as (blocks & Hconv & Hchecked).
  destruct (schedule_blocks_consistent _ _ _ _ _ _ Hs) as (cm & (Hnd & _) & Heq).
  rewrite <- Heq in Hnd.
  assert (Hentries : forall id a, (id, a) ∈ schedule ->
            id = Block.id (Assignment.block a) /\ Assignment.block a ∈ blocks).
  { intros id a Hin. by destruct (proj1 (Forall_forall _ _) Hchecked _ Hin) as (? & ? & _). }
  exists blocks. split; [done|]. split; [by eapply schedule_blocks_nonempty|].
  split; [done|]. split; [done|].
  rewrite <- (length_map fst schedule). apply submseteq_length, NoDup_submseteq; [done|].
  intros id ([id' a] & -> & Hin)%list_elem_of_fmap. cbn.
  destruct (Hentries id' a Hin) as [-> Hb].
  apply elem_of_remove_dups, list_elem_of_fmap. eauto.
Qed.

(** ** Nothing to schedule *)

Lemma attempts_loop_nothing attempt_body total_blocks remaining attempt :
  (forall k, attempt_body k = Ok (mk_Attempt [] 0 0%Q)) ->
  attempts_loop attempt_body total_blocks remaining attempt initial_best = Ok initial_best.
Proof.
  intros Hbody. revert attempt. induction remaining as [|remaining IH]; intros attempt; [done|].
  cbn [attempts_loop]. rewrite Hbody. cbn [bind].
  change (update_best initial_best (mk_Attempt [] 0 0%Q)) with initial_best.
  unfold perfect. cbn [scheduled_count attempt_score].
  change (Qle_bool (95 # 100) 0) with false. rewrite andb_false_r. apply IH.
Qed.

(** X18. With no course assignments [schedule_blocks] raises
    [ValueError("Could not find a valid schedule")], whatever the number of
    attempts: an empty schedule is never returned.  The same happens, for any
    courses that convert, when [max_attempts] is zero or negative. *)
Theorem schedule_blocks_nothing_to_schedule
    (set_order : list SlotKey -> list SlotKey) (resource_manager : ResourceManager)
    (study_plan_mapping : gmap nat StudyPlan) :
  (forall max_attempts,
     schedule_blocks set_order resource_manager [] study_plan_mapping max_attempts
     = Raise (ValueError "Could not find a valid schedule"))
  /\ (forall course_assignments max_attempts,
        max_attempts <= 0 ->
        schedule_blocks set_order resource_manager course_assignments study_plan_mapping
          max_attempts
        = match _convert_course_assignments_to_blocks course_assignments study_plan_mapping with
          | Ok _ => Raise (ValueError "Could not find a valid schedule")
          | Raise e => Raise e
          end).
Proof.
  split.
  - intros max_attempts. unfold schedule_blocks. cbn [_convert_course_assignments_to_blocks
      convert_from bind]. unfold select_best. by rewrite attempts_loop_nothing.
  - intros course_assignments max_attempts Hmax. unfold schedule_blocks.
    destruct (_convert_course_assignments_to_blocks _ _) as [blocks|e]; cbn [bind]; [|done].
    unfold select_best. replace (Z.to_nat max_attempts) with 0%nat by lia. done.
Qed.

(** ** How [schedule_blocks] can fail *)

Section failure_modes.
Variable set_order : list SlotKey -> list SlotKey.
Hypothesis set_order_perm : forall l, NoDup l -> set_order l ≡ₚ l.
Variable resource_manager : ResourceManager.
Variable course_assignments : list CourseAssignment.

(** Every slot a room of the catalogue offers can be given its end time. *)
Hypothesis slots_fit : forall room s,
  room ∈ catalogue resource_manager course_assignments -> s ∈ availability room ->
  0 <= hour (start_time s) + time_slot_duration resource_manager <= 23.








End failure_modes.



(** ** The range of the soft score *)

Lemma staff_preference_scores self block slot room :
  (evaluate_lecturer_preferences self block slot room,
   evaluate_ta_preferences self block slot room)
  = if prefers (timing_preferences (Block.staff_member block)) slot then
      if is_Lecturer (Block.staff_member block) then (1%Q, 0%Q) else (0%Q, 1%Q)
    else (0%Q, 0%Q).
Proof.
  unfold evaluate_lecturer_preferences, evaluate_ta_preferences.
  destruct (Block.staff_member block); cbn; by destruct (prefers _ _).
Qed.

Lemma evaluate_gaps_values self block slot room :
  evaluate_gaps self block slot room ∈ [1%Q; (1 # 2)%Q; 0%Q].
Proof.
  unfold evaluate_gaps. destruct (level_slots (state self) !! _) as [days|]; [|in_list].
  destruct (days !! day slot); [|in_list].
  repeat (match goal with |- context [if ?c then _ else _] => destruct c end); in_list.
Qed.

Lemma evaluate_room_capacity_values self block slot room :
  evaluate_room_capacity self block slot room ∈ [1%Q; (7 # 10)%Q; (3 # 10)%Q; 0%Q].
Proof.
  unfold evaluate_room_capacity.
  repeat (match goal with |- context [if ?c then _ else _] => destruct c end); in_list.
Qed.

Lemma evaluate_soft_constraints_sum self block slot room :
  evaluate_soft_constraints self block slot room
  = (0 + evaluate_lecturer_preferences self block slot room * 5
     + evaluate_ta_preferences self block slot room * 3
     + evaluate_gaps self block slot room * 2
     + evaluate_room_capacity self block slot room * (3 # 2))%Q.
Proof. done. Qed.

Lemma soft_score_bounds self block slot room :
  (0 <= evaluate_soft_constraints self block slot room <= 17 # 2)%Q
  /\ (is_Lecturer (Block.staff_member block) = true ->
      prefers (timing_preferences (Block.staff_member block)) slot = true ->
      (5 <= evaluate_soft_constraints self block slot room)%Q)
  /\ (is_TeachingAssistant (Block.staff_member block) = true ->
      (evaluate_soft_constraints self block slot room <= 13 # 2)%Q).
Proof.
  rewrite evaluate_soft_constraints_sum.
  pose proof (staff_preference_scores self block slot room) as Hstaff.
  pose proof (evaluate_gaps_values self block slot room) as Hgaps.
  pose proof (evaluate_room_capacity_values self block slot room) as Hcap.
  destruct (evaluate_lecturer_preferences self block slot room) as [ln ld].
  destruct (evaluate_ta_preferences self block slot room) as [tn td].
  generalize dependent (evaluate_gaps self block slot room). intros g Hg.
  generalize dependent (evaluate_room_capacity self block slot room). intros c Hc.
  destruct (Block.staff_member block) as [staff|staff]; cbn [is_Lecturer is_TeachingAssistant] in *;
    destruct (prefers _ slot); injection Hstaff as -> -> -> ->;
    repeat (apply elem_of_cons in Hg as [->|Hg]); try (by apply elem_of_nil in Hg);
    repeat (apply elem_of_cons in Hc as [->|Hc]); try (by apply elem_of_nil in Hc);
    (split; [split; by vm_compute|]); (split; intros; try done; by vm_compute).
Qed.

Lemma sum_scores_bounds {A} (f : A -> Q) (M : Q) (l : list A) :
  (forall x, x ∈ l -> (0 <= f x <= M)%Q) ->
  (0 <= fold_left (fun total x => (total + f x)%Q) l 0%Q
   <= inject_Z (Z.of_nat (length l)) * M)%Q.
Proof.
  induction l as [|x l IH] using rev_ind; intros Hall.
  - cbn [fold_left length]. change (inject_Z (Z.of_nat 0)) with 0%Q. lra.
  - rewrite fold_left_app, length_app. cbn [fold_left length].
    destruct IH as [IH0 IHM]; [intros y Hy; apply Hall, elem_of_app; by left|].
    destruct (Hall x) as [Hx0 HxM]; [apply elem_of_app; right; apply list_elem_of_here|].
    replace (Z.of_nat (length l + 1)) with (Z.of_nat (length l) + 1) by lia.
    rewrite inject_Z_plus. change (inject_Z 1) with 1%Q. lra.
Qed.

(** X20. The soft score of an assignment lies between 0 and 8.5; it is
    at least 5 for a lecturer's block at a slot the lecturer prefers, and at
    most 6.5 for a teaching assistant's block.  The score of a schedule, being
    the mean of these, lies between 0 and 8.5 as well. *)
Theorem soft_scores_range (cm : ConstraintManager) :
  (forall block slot room,
     (0 <= evaluate_soft_constraints cm block slot room <= 17 # 2)%Q
     /\ (is_Lecturer (Block.staff_member block) = true ->
         prefers (timing_preferences (Block.staff_member block)) slot = true ->
         (5 <= evaluate_soft_constraints cm block slot room)%Q)
     /\ (is_TeachingAssistant (Block.staff_member block) = true ->
         (evaluate_soft_constraints cm block slot room <= 13 # 2)%Q))
  /\ (forall assignments, (0 <= _evaluate_schedule cm assignments <= 17 # 2)%Q).
Proof.
  split; [intros block slot room; apply soft_score_bounds|].
  intros assignments. unfold _evaluate_schedule.
  destruct assignments as [|item rest] eqn:E; [by vm_compute|]. rewrite <- E.
  assert (Hpos : (0 < inject_Z (Z.of_nat (length assignments)))%Q).
  { rewrite E. cbn [length]. change 0%Q with (inject_Z 0). rewrite <- Zlt_Qlt. lia. }
  destruct (sum_scores_bounds
              (fun a => evaluate_soft_constraints cm (Assignment.block a)
                          (Assignment.time_slot a) (Assignment.room a))
              (17 # 2) (dict_values assignments)) as [H0 HM].
  { intros a _. apply soft_score_bounds. }
  unfold dict_values in HM. rewrite length_map in HM. split.
  - apply Qle_shift_div_l; [done|]. by rewrite Qmult_0_l.
  - apply Qle_shift_div_r; [done|]. by rewrite Qmult_comm.
Qed.

(** ** Repeated attempts *)

(** X21. Every attempt starts from a fresh manager and makes the same
    choices, so the number of attempts allowed does not matter once it is
    positive: [schedule_blocks] returns, or raises, the same with any two
    positive values of [max_attempts]. *)
Theorem max_attempts_beyond_one_is_idle
    (set_order : list SlotKey -> list SlotKey) (resource_manager : ResourceManager)
    (course_assignments : list CourseAssignment) (study_plan_mapping : gmap nat StudyPlan)
    (max_attempts max_attempts' : Z) :
  0 < max_attempts -> 0 < max_attempts' ->
  schedule_blocks set_order resource_manager course_assignments study_plan_mapping max_attempts
  = schedule_blocks set_order resource_manager course_assignments study_plan_mapping
      max_attempts'.
Proof.
  intros Hmax Hmax'.
  destruct (_convert_course_assignments_to_blocks course_assignments study_plan_mapping)
    as [blocks|e] eqn:Hconv.
  - destruct (run_attempt set_order resource_manager blocks) as [att|e] eqn:Hrun.
    + by rewrite !(schedule_blocks_first_attempt _ _ _ _ _ blocks att).
    + unfold schedule_blocks, select_best. rewrite Hconv. cbn [bind].
      destruct (Z.to_nat max_attempts) as [|n] eqn:En; [lia|].
      destruct (Z.to_nat max_attempts') as [|n'] eqn:En'; [lia|].
      cbn [attempts_loop]. by rewrite Hrun.
  - unfold schedule_blocks. by rewrite Hconv.
Qed.

(** ** The order in which blocks are tried *)

Definition score_ge (a b : block_score) : Prop := block_score_ltb a b = false.

Lemma block_score_ltb_spec (a b : block_score) :
  block_score_ltb a b = true
  <-> let '(a1, a2, a3, a4) := a in
      let '(b1, b2, b3, b4) := b in
      (a1 = false /\ b1 = true)
      \/ (a1 = b1 /\ (a2 < b2 \/ (a2 = b2 /\ (a3 < b3 \/ (a3 = b3 /\ (a4 < b4)%Q))))).
Proof.
  destruct a as [[[a1 a2] a3] a4], b as [[[b1 b2] b3] b4]. unfold block_score_ltb, bool_ltb.
  case_bool_decide as H1; cbn [negb].
  - subst b1. destruct (a2 =? b2) eqn:H2; cbn [negb].
    + apply Z.eqb_eq in H2. subst b2. destruct (a3 =? b3) eqn:H3; cbn [negb].
      * apply Z.eqb_eq in H3. subst b3. rewrite Qltb_lt. split; [intros ?; right; auto 10|].
        intros [[-> ?]|(_ & [?|(_ & [?|(_ & ?)])])]; try done; lia.
      * apply Z.eqb_neq in H3. rewrite Z.ltb_lt. split; [intros ?; right; auto 10|].
        intros [[-> ?]|(_ & [?|(_ & [?|(? & ?)])])]; try done; lia.
    + apply Z.eqb_neq in H2. rewrite Z.ltb_lt. split; [intros ?; right; auto|].
      intros [[-> ?]|(_ & [?|(? & _)])]; try done.
  - rewrite andb_true_iff, negb_true_iff. split; [intros [-> ->]; by left|].
    intros [[-> ->]|[? _]]; done.
Qed.

Ltac pick_lex :=
  first [ done | lia | lra
        | left; first [done | lia]
        | right; split; [first [done | lia]|]; pick_lex ].

Lemma score_ge_spec (a b : block_score) :
  score_ge a b
  <-> let '(a1, a2, a3, a4) := a in
      let '(b1, b2, b3, b4) := b in
      (b1 = false /\ a1 = true)
      \/ (a1 = b1 /\ (b2 < a2 \/ (a2 = b2 /\ (b3 < a3 \/ (a3 = b3 /\ (b4 <= a4)%Q))))).
Proof.
  unfold score_ge. rewrite <- not_true_iff_false, block_score_ltb_spec.
  destruct a as [[[a1 a2] a3] a4], b as [[[b1 b2] b3] b4]. split.
  - intros Hn.
    destruct (Z.lt_trichotomy a2 b2) as [H2|[H2|H2]],
             (Z.lt_trichotomy a3 b3) as [H3|[H3|H3]],
             (Qlt_le_dec a4 b4) as [H4|H4];
      destruct a1, b1; first [pick_lex | exfalso; apply Hn; pick_lex].
  - intros [[? ?]|(? & [?|(? & [?|(? & ?)])])] [[? ?]|(? & [?|(? & [?|(? & ?)])])];
      subst; first [done | lia | lra].
Qed.

Lemma score_ge_trans a b c : score_ge a b -> score_ge b c -> score_ge a c.
Proof.
  rewrite !score_ge_spec.
  destruct a as [[[a1 a2] a3] a4], b as [[[b1 b2] b3] b4], c as [[[c1 c2] c3] c4].
  intros [[? ?]|(? & [?|(? & [?|(? & ?)])])] [[? ?]|(? & [?|(? & [?|(? & ?)])])];
    subst; try done; pick_lex.
Qed.

Lemma score_ltb_asym a b : block_score_ltb a b = true -> score_ge b a.
Proof.
  rewrite score_ge_spec, block_score_ltb_spec.
  destruct a as [[[a1 a2] a3] a4], b as [[[b1 b2] b3] b4].
  intros [[? ?]|(? & [?|(? & [?|(? & ?)])])]; subst; try done; pick_lex.
Qed.

(** X22. [_sort_blocks_by_priority] returns the blocks in an order of
    non-increasing priority tuple: a block is never tried after a block with
    a larger tuple.  In particular no single-group block comes after a block
    that is not single-group. *)
Theorem blocks_tried_in_priority_order
    (set_order : list SlotKey -> list SlotKey) (resource_manager : ResourceManager)
    (cm : ConstraintManager) (blocks sorted_blocks : list Block) :
  _sort_blocks_by_priority set_order resource_manager cm blocks = Ok sorted_blocks ->
  sorted_blocks ≡ₚ blocks
  /\ (exists scores,
        Forall2 (fun block score =>
                   get_block_score set_order resource_manager cm block = Ok score)
          sorted_blocks scores
        /\ StronglySorted score_ge scores)
  /\ StronglySorted (fun b1 b2 => Block.is_single_group_course b2 = true ->
                                  Block.is_single_group_course b1 = true) sorted_blocks.
Proof.
  intros Hsort. split; [by eapply sort_blocks_perm|].
  unfold _sort_blocks_by_priority in Hsort.
  destruct (mapM _ blocks) as [keyed|e] eqn:Ekeyed; cbn [bind] in Hsort; [|done].
  injection Hsort as <-.
  assert (Hkeyed : Forall (fun p : block_score * Block =>
                             get_block_score set_order resource_manager cm p.2 = Ok p.1)
                     keyed).
  { apply mapM_Ok in Ekeyed. clear -Ekeyed.
    induction Ekeyed as [|b p l l' Hb _ IH]; constructor; [|done].
    destruct (get_block_score _ _ cm b) as [score|e] eqn:E; cbn [bind] in Hb; [|done].
    by injection Hb as <-. }
  assert (Hsorted : StronglySorted (fun p q : block_score * Block => score_ge p.1 q.1)
                      (sorted_by block_score_ltb fst keyed)).
  { apply (sorted_by_sorted block_score_ltb fst).
    - intros a b c. apply score_ge_trans.
    - intros a b. apply score_ltb_asym. }
  assert (Hkeyed' : Forall (fun p : block_score * Block =>
                              get_block_score set_order resource_manager cm p.2 = Ok p.1)
                      (sorted_by block_score_ltb fst keyed)).
  { apply Forall_forall. intros p Hp. apply sorted_by_elem_of in Hp.
    by apply (proj1 (Forall_forall _ _) Hkeyed). }
  generalize dependent (sorted_by block_score_ltb fst keyed). clear. intros l Hsorted Hkeyed.
  split.
  - exists (map fst l). split.
    + clear Hsorted. induction Hkeyed; cbn; constructor; done.
    + clear Hkeyed. induction Hsorted as [|p l _ IH Hall]; cbn; constructor; [done|].
      clear -Hall. induction Hall; cbn; constructor; done.
  - induction Hsorted as [|p l Hs IH Hall]; cbn; [constructor|].
    apply Forall_cons in Hkeyed as [Hp Hkeyed]. constructor; [by apply IH|].
    clear IH Hs. induction Hall as [|q l Hq _ IH]; cbn; constructor.
    + apply Forall_cons in Hkeyed as [Hq' _]. intros Hsingle.
      unfold get_block_score in Hp, Hq'.
      destruct (total_available _ _ cm p.2 _ 0) as [n|e]; cbn [bind] in Hp; [|done].
      destruct (total_available _ _ cm q.2 _ 0) as [n'|e]; cbn [bind] in Hq'; [|done].
      injection Hp as Hp. injection Hq' as Hq'. rewrite <- Hp, <- Hq' in Hq.
      apply score_ge_spec in Hq.
      destruct Hq as [[? ?]|[? _]]; congruence.
    + apply IH. by apply Forall_cons in Hkeyed as [_ ?].
Qed.

(** ** The stricter student check and the validator *)

(** The cohort and slot of an assignment, as [_check_student_conflicts]
    groups by them. *)
Definition cohort_key (a : Assignment) : string * Z * Day * time :=
  (Block.academic_list (Assignment.block a), Block.academic_level (Assignment.block a),
   day (Assignment.time_slot a), start_time (Assignment.time_slot a)).

Definition course_of (a : Assignment) : string :=
  CourseAssignment.course_code (Block.course_object (Assignment.block a)).

Lemma check_student_schedule_conflict_true block slot room assignments :
  check_student_schedule_conflict block slot room assignments = true
  <-> (forall existing, existing ∈ assignments ->
         cohort_key existing = cohort_key (Assignment.mk block slot room) ->
         Block.course_code (Assignment.block existing)
         = CourseAssignment.course_code (Block.course_object block)
         /\ Block.block_type (Assignment.block existing) = Block.block_type block
         /\ Block.group_number (Assignment.block existing) ≠ Block.group_number block).
Proof.
  induction assignments as [|existing rest IH]; cbn [check_student_schedule_conflict].
  - split; [|done]. intros _ ? Hin. by apply elem_of_nil in Hin.
  - destruct (_ && _) eqn:Ekey.
    + assert (Hkey : cohort_key existing = cohort_key (Assignment.mk block slot room)).
      { repeat (apply andb_true_iff in Ekey as [Ekey ?%bool_decide_eq_true]).
        apply bool_decide_eq_true in Ekey. unfold cohort_key. cbn. congruence. }
      clear Ekey. case_bool_decide as Hcode; cbn [negb].
      2:{ split; [done|]. intros Hall.
          by destruct (Hall existing (list_elem_of_here _ _) Hkey) as [? _]. }
      case_bool_decide as Htype; cbn [negb].
      2:{ split; [done|]. intros Hall.
          by destruct (Hall existing (list_elem_of_here _ _) Hkey) as (_ & ? & _). }
      case_bool_decide as Hgroup.
      { split; [done|]. intros Hall.
        by destruct (Hall existing (list_elem_of_here _ _) Hkey) as (_ & _ & ?). }
      rewrite IH. split.
      * intros Hall e [->|He]%elem_of_cons; [done | by apply Hall].
      * intros Hall e He. by apply Hall, list_elem_of_further.
    + rewrite IH. split.
      * intros Hall e [->|He]%elem_of_cons; [|by apply Hall].
        intros Hkey. exfalso. unfold cohort_key in Hkey. cbn in Hkey.
        injection Hkey as H1 H2 H3 H4.
        rewrite !bool_decide_eq_true_2 in Ekey by done. done.
      * intros Hall e He. by apply Hall, list_elem_of_further.
Qed.

Lemma elem_of_order {A} (l : list A) x y :
  x ∈ l -> y ∈ l ->
  x = y
  \/ (exists pre post, l = pre ++ y :: post /\ x ∈ pre)
  \/ (exists pre post, l = pre ++ x :: post /\ y ∈ pre).
Proof.
  induction l as [|z l IH]; intros Hx Hy; [by apply elem_of_nil in Hx|].
  apply elem_of_cons in Hx as [->|Hx], Hy as [->|Hy].
  - by left.
  - right. left. apply list_elem_of_split in Hy as (l1 & l2 & ->).
    exists (z :: l1), l2. split; [done | apply list_elem_of_here].
  - right. right. apply list_elem_of_split in Hx as (l1 & l2 & ->).
    exists (z :: l1), l2. split; [done | apply list_elem_of_here].
  - destruct (IH Hx Hy) as [->|[(pre & post & -> & Hin)|(pre & post & -> & Hin)]].
    + by left.
    + right. left. exists (z :: pre), post. split; [done | by apply list_elem_of_further].
    + right. right. exists (z :: pre), post. split; [done | by apply list_elem_of_further].
Qed.

Lemma remove_dups_same {A} `{EqDecision A} (l : list A) :
  (forall x y, x ∈ l -> y ∈ l -> x = y) -> (length (remove_dups l) <= 1)%nat.
Proof.
  intros Hsame. pose proof (NoDup_remove_dups l) as Hnd.
  destruct (remove_dups l) as [|a [|b t]] eqn:E; cbn; [lia | lia |].
  assert (Ha : a ∈ remove_dups l) by (rewrite E; apply list_elem_of_here).
  assert (Hb : b ∈ remove_dups l) by (rewrite E; apply list_elem_of_further, list_elem_of_here).
  apply (proj1 (elem_of_remove_dups _ _)) in Ha, Hb. rewrite (Hsame a b Ha Hb) in Hnd.
  apply NoDup_cons in Hnd as [Hnd _]. destruct Hnd. apply list_elem_of_here.
Qed.

Lemma course_codes_of_entries assignments entries :
  NoDup (dict_keys assignments) ->
  (forall item, item ∈ entries -> item ∈ assignments) ->
  mapM (course_code_of assignments) (map fst entries)
  = Ok (map (fun item => course_of item.2) entries).
Proof.
  intros Hnd. induction entries as [|[id a] entries IH]; intros Hsub; [done|].
  cbn [map mapM fst snd]. unfold course_code_of at 1, assignment_of.
  rewrite (dict_get_elem_of id a assignments Hnd) by apply Hsub, list_elem_of_here.
  cbn [bind]. rewrite IH; [done|]. intros item Hin. by apply Hsub, list_elem_of_further.
Qed.

(** X23. The stricter check suffices for the validator.  In a dictionary
    of assignments whose blocks carry the course code of their course, if
    every entry passes [check_student_schedule_conflict] against the entries
    stored before it, then [_check_student_conflicts] reports nothing. *)
Theorem strict_student_check_suffices (code_order : list string -> list string)
    (assignments : list (string * Assignment)) :
  NoDup (dict_keys assignments) ->
  (forall id a, (id, a) ∈ assignments ->
     Block.course_code (Assignment.block a) = course_of a) ->
  (forall before id a after,
     assignments = before ++ (id, a) :: after ->
     check_student_schedule_conflict (Assignment.block a) (Assignment.time_slot a)
       (Assignment.room a) (dict_values before) = true) ->
  _check_student_conflicts code_order assignments = Ok [].
Proof.
  intros Hnd Hcodes Hstrict. unfold _check_student_conflicts. apply mapM_all_nil.
  intros [[[[academic_list level] d] t] ids] [-> _]%group_by_elem_of.
  unfold student_conflict_report.
  set (entries := filter _ assignments).
  destruct (map fst entries) as [|? [|? ?]] eqn:Eids; [done | done |]. rewrite <- Eids.
  rewrite (course_codes_of_entries assignments entries Hnd)
    by (intros item [_ ?]%list_elem_of_filter; done).
  cbn [bind].
  assert (Hlen : (length (remove_dups (map (fun item => course_of item.2) entries)) <= 1)%nat).
  { apply remove_dups_same.
    assert (Hlater : forall before id a after x,
              assignments = before ++ (id, a) :: after -> x ∈ before ->
              cohort_key x.2 = cohort_key a -> course_of x.2 = course_of a).
    { intros before id a after [idx ax] Heq Hin Hkey.
      pose proof (Hstrict before id a after Heq) as Hcheck.
      rewrite check_student_schedule_conflict_true in Hcheck.
      destruct (Hcheck ax) as [Hcode _].
      - unfold dict_values. apply list_elem_of_fmap. by exists (idx, ax).
      - done.
      - cbn [snd]. rewrite <- (Hcodes idx ax); [done|]. rewrite Heq. apply elem_of_app. by left. }
    intros c1 c2 (x & -> & [Hkx Hx]%list_elem_of_filter)%list_elem_of_fmap
                 (y & -> & [Hky Hy]%list_elem_of_filter)%list_elem_of_fmap.
    assert (Hkey : cohort_key x.2 = cohort_key y.2) by (unfold cohort_key; congruence).
    destruct (elem_of_order assignments x y Hx Hy)
      as [->|[(pre & post & Heq & Hin)|(pre & post & Heq & Hin)]]; [done | |].
    - destruct y as [idy ay]. by eapply Hlater.
    - destruct x as [idx ax]. symmetry. by eapply Hlater. }
  destruct (remove_dups _) as [|? [|? ?]]; cbn in Hlen; [done | done | lia].
Qed.

(** ** The API format of a schedule *)

Lemma converted_entry_valid assignment :
  validate_entry (convert_single_assignment assignment) = true.
Proof. destruct assignment as [block slot [h|l]]; vm_compute; reflexivity. Qed.

(** X24. The backend check accepts what the conversion makes: for every
    dictionary of assignments [validate_schedule_data] answers [True] on the
    result of [convert_assignments_to_api_format] unless there is no
    assignment at all; each entry names exactly one of [hall_id] and
    [lab_id], the one of the room's kind. *)
Theorem api_format_passes_backend_check (assignments : list (string * Assignment))
    (schedule_name_en schedule_name_ar : string) :
  validate_schedule_data
    (convert_assignments_to_api_format assignments schedule_name_en schedule_name_ar)
  = negb (bool_decide (assignments = []))
  /\ (forall a,
        let entry := convert_single_assignment a in
        match Assignment.room a with
        | RHall h => dict_get "hall_id" entry = Some (AScalar (AInt (Hall.id h)))
                     /\ dict_get "lab_id" entry = Some (AScalar ANone)
        | RLab l => dict_get "hall_id" entry = Some (AScalar ANone)
                    /\ dict_get "lab_id" entry = Some (AScalar (AInt (Lab.id l)))
        end).
Proof.
  split.
  - unfold validate_schedule_data, convert_assignments_to_api_format.
    change (negb (forallb _ ["nameEn"; "nameAr"; "schedule"])) with false. cbn iota.
    change (dict_get "schedule" _)
      with (Some (AEntries (map (fun item => convert_single_assignment item.2) assignments))).
    cbn iota. rewrite length_map. destruct assignments as [|item rest]; [done|].
    cbn [length Nat.eqb]. rewrite bool_decide_eq_false_2 by done. cbn [negb].
    apply forallb_forall. intros entry Hin. apply in_map_iff in Hin as (a & <- & _).
    apply converted_entry_valid.
  - intros [block slot [h|l]]; split; reflexivity.
Qed.

(** ** The greedy placement of one block *)

Lemma find_none_all {A} (f : A -> bool) (l : list A) :
  List.find f l = None <-> forall x, x ∈ l -> f x = false.
Proof.
  induction l as [|y l IH]; cbn.
  - split; [intros _ x Hx; by apply elem_of_nil in Hx | done].
  - destruct (f y) eqn:Ey.
    + split; [done|]. intros Hall. rewrite (Hall y) in Ey by apply list_elem_of_here. done.
    + rewrite IH. split.
      * intros Hall x [->|Hx]%elem_of_cons; [done | by apply Hall].
      * intros Hall x Hx. by apply Hall, list_elem_of_further.
Qed.

Lemma find_some_first {A} (f : A -> bool) (l : list A) x :
  List.find f l = Some x ->
  f x = true
  /\ exists before after, l = before ++ x :: after /\ forall y, y ∈ before -> f y = false.
Proof.
  induction l as [|y l IH]; cbn; [done|]. destruct (f y) eqn:Ey.
  - intros [= ->]. split; [done|]. exists [], l. split; [done|].
    intros z Hz. by apply elem_of_nil in Hz.
  - intros (Hx & before & after & -> & Hall)%IH. split; [done|].
    exists (y :: before), after. split; [done|].
    intros z [->|Hz]%elem_of_cons; [done | by apply Hall].
Qed.

(** No candidate slot of [room] passes the hard constraints for [block]. *)
Definition no_slot_fits (set_order : list SlotKey -> list SlotKey)
    (resource_manager : ResourceManager) (cm : ConstraintManager) (block : Block)
    (room : Room) : Prop :=
  exists slots,
    get_available_slots set_order resource_manager block room (get_all_assignments cm)
    = Ok slots
    /\ forall slot, slot ∈ slots -> (can_assign cm block slot room).1 = false.

Lemma schedule_in_rooms_first_fit set_order resource_manager cm block rooms outcome :
  schedule_in_rooms set_order resource_manager cm block rooms = Ok outcome ->
  match outcome with
  | None => forall room, room ∈ rooms -> no_slot_fits set_order resource_manager cm block room
  | Some a =>
      Assignment.block a = block
      /\ exists rooms_before rooms_after slots_before slots_after,
           rooms = rooms_before ++ Assignment.room a :: rooms_after
           /\ (forall room, room ∈ rooms_before ->
                 no_slot_fits set_order resource_manager cm block room)
           /\ get_available_slots set_order resource_manager block (Assignment.room a)
                (get_all_assignments cm)
              = Ok (slots_before ++ Assignment.time_slot a :: slots_after)
           /\ (forall slot, slot ∈ slots_before ->
                 (can_assign cm block slot (Assignment.room a)).1 = false)
           /\ (can_assign cm block (Assignment.time_slot a) (Assignment.room a)).1 = true
  end.
Proof.
  revert outcome. induction rooms as [|room rooms IH]; intros outcome; cbn [schedule_in_rooms].
  - intros [= <-]. intros room Hin. by apply elem_of_nil in Hin.
  - destruct (get_available_slots _ _ block room _) as [slots|e] eqn:Eslots; cbn [bind];
      [|done].
    destruct (List.find _ slots) as [slot|] eqn:Efind.
    + intros [= <-]. cbn [Assignment.block Assignment.room Assignment.time_slot].
      apply find_some_first in Efind as (Hfit & before & after & -> & Hbefore).
      split; [done|]. exists [], rooms, before, after. split; [done|].
      split; [intros r Hr; by apply elem_of_nil in Hr|]. done.
    + intros Hrest. specialize (IH outcome Hrest).
      assert (Hroom : no_slot_fits set_order resource_manager cm block room).
      { exists slots. split; [done|]. by apply find_none_all. }
      destruct outcome as [a|].
      * destruct IH as (Hb & before & after & sb & sa & -> & Hbefore & Hrest').
        split; [done|]. exists (room :: before), after, sb, sa. split; [done|].
        split; [|done]. intros r [->|Hr]%elem_of_cons; [done | by apply Hbefore].
      * intros r [->|Hr]%elem_of_cons; [done | by apply IH].
Qed.

(** X25. [_schedule_single_block] is a first fit.  What it returns is the
    first slot passing all hard constraints in the first suitable room that
    has one, rooms being taken in the order of [get_suitable_rooms] and slots
    in the order of [get_available_slots]; it returns [None] only when no
    candidate slot of any suitable room passes. *)
Theorem schedule_single_block_first_fit
    (set_order : list SlotKey -> list SlotKey) (resource_manager : ResourceManager)
    (cm : ConstraintManager) (block : Block) (outcome : option Assignment) :
  _schedule_single_block set_order resource_manager cm block = Ok outcome ->
  match outcome with
  | None =>
      forall room, room ∈ get_suitable_rooms resource_manager block ->
                   no_slot_fits set_order resource_manager cm block room
  | Some a =>
      Assignment.block a = block
      /\ exists rooms_before rooms_after slots_before slots_after,
           get_suitable_rooms resource_manager block
           = rooms_before ++ Assignment.room a :: rooms_after
           /\ (forall room, room ∈ rooms_before ->
                 no_slot_fits set_order resource_manager cm block room)
           /\ get_available_slots set_order resource_manager block (Assignment.room a)
                (get_all_assignments cm)
              = Ok (slots_before ++ Assignment.time_slot a :: slots_after)
           /\ (forall slot, slot ∈ slots_before ->
                 (can_assign cm block slot (Assignment.room a)).1 = false)
           /\ (can_assign cm block (Assignment.time_slot a) (Assignment.room a)).1 = true
  end.
Proof. apply schedule_in_rooms_first_fit. Qed.

(** X26. In a manager reached by any sequence of calls, the assignment
    that [_schedule_single_block] finds for a block is committed by
    [make_assignment] unless the id of the block is already assigned: the
    commit of a found assignment fails for no other reason. *)
Theorem found_assignment_commits
    (set_order : list SlotKey -> list SlotKey) (resource_manager : ResourceManager)
    (ops : list op) (block : Block) (a : Assignment) :
  _schedule_single_block set_order resource_manager (run_ops ops) block = Ok (Some a) ->
  (make_assignment (run_ops ops) (Block.id block) a).1
  = negb (dict_mem (Block.id block) (current_assignments (run_ops ops))).
Proof.
  intros (Hb & _ & _ & Hcan)%schedule_in_rooms_Some.
  apply can_assign_true in Hcan as (Hroom & Hstaff & _). rewrite <- Hb in Hroom, Hstaff.
  pose proof (consistent_unbooked _ a (consistent_run_ops ops) Hroom Hstaff) as Hun.
  destruct (make_assignment_cases (run_ops ops) (Block.id block) a)
    as [(Hnew & _ & -> & _)|[Hno ->]].
  - by rewrite (proj2 (dict_mem_false _ _) Hnew).
  - cbn [fst]. destruct (dict_mem _ _) eqn:Emem; [done|].
    apply dict_mem_false in Emem. by destruct Hno.
Qed.

(** * Further scenarios *)

(** The first commit of the faculty's manager books hall A on Sunday 9:00. *)
Lemma make_assignment_books_one_slot_witness :
  can_assign (make_assignment initialize_fresh_state "L_CS101_1_1" lecture_101_sun9).2
    lecture_102 sun9 (RHall hall_a)
  = (false, Some "No double room booking").
Proof.
  apply (make_assignment_books_one_slot initialize_fresh_state
           (make_assignment initialize_fresh_state "L_CS101_1_1" lecture_101_sun9).2
           "L_CS101_1_1" lecture_101_sun9).
  vm_compute. reflexivity.
Defined.

Lemma verify_final_schedule_spec_witness :
  NoDup (dict_keys schedule_20x)
  /\ (_verify_final_schedule schedule_20x = true
      <-> (forall id1 a1 id2 a2,
             (id1, a1) ∈ schedule_20x -> (id2, a2) ∈ schedule_20x -> id1 ≠ id2 ->
             ¬ clashes a1 a2)).
Proof.
  assert (Hnd : NoDup (dict_keys schedule_20x))
    by (apply (bool_decide_unpack _); vm_compute; exact I).
  split; [exact Hnd|]. apply (verify_final_schedule_spec schedule_20x Hnd).
Defined.

Lemma schedule_passes_final_verification_witness :
  _verify_final_schedule schedule_20x = true
  /\ _verify_no_conflicts_in_assignments schedule_20x = true.
Proof.
  apply (schedule_passes_final_verification list_order example_rm [course_201; course_202]
           (mapping_of [course_201; course_202]) 100 schedule_20x schedule_20x_run).
Defined.

(** The schedule of the two courses with two lecture groups each is free of
    room, staff and availability conflicts; what the validator reports on it
    are student conflicts and capacity violations. *)
Lemma engine_schedule_validation_witness :
  _check_room_conflicts schedule_20x = Ok []
  /\ _check_staff_conflicts schedule_20x = Ok []
  /\ _check_room_availability_conflicts schedule_20x = []
  /\ exists students,
       _check_student_conflicts (fun codes => codes) schedule_20x = Ok students
       /\ validate_schedule_comprehensive (fun codes => codes) schedule_20x
          = Ok ((length (students ++ _check_capacity_violations schedule_20x) =? 0)%nat,
                students ++ _check_capacity_violations schedule_20x).
Proof.
  apply (engine_schedule_validation (fun codes => codes) list_order example_rm
           [course_201; course_202] (mapping_of [course_201; course_202]) 100 schedule_20x
           schedule_20x_run).
Defined.

Lemma engine_schedule_capacity_witness :
  RHall hall_a ∈ get_suitable_rooms example_rm lecture_101
  /\ capacity_ok default_ratio (Block.student_count lecture_101) (capacity (RHall hall_a)) = true
  /\ (0 <= Block.student_count lecture_101 < 2 ^ 50 ->
      4 * Block.student_count lecture_101 <= 5 * capacity (RHall hall_a))
  /\ (capacity_report ("L_CS101_1_1", lecture_101_sun9) ≠ [] ->
      capacity (RHall hall_a) < Block.student_count lecture_101).
Proof.
  apply (engine_schedule_capacity list_order example_rm [course_101] (mapping_of [course_101])
           100 schedule_101 "L_CS101_1_1" lecture_101_sun9 schedule_101_run).
  unfold schedule_101. in_list.
Defined.

Lemma generate_time_slots_grid_witness :
  exists grid,
    _generate_time_slots 2 0 = Some (Ok grid)
    /\ Forall (grid_slot 2) grid
    /\ forall hs ls, exists resource_manager,
         ResourceManager_init hs ls 2 0 = Some (Ok resource_manager)
         /\ time_slots resource_manager = grid
         /\ time_slot_duration resource_manager = 2.
Proof. apply (generate_time_slots_grid 2 0); lia. Defined.

Lemma generate_time_slots_zero_duration_diverges_witness :
  (forall fuel d, time_slots_day fuel 0 0 d (mk_time 9 0) = None)
  /\ _generate_time_slots 0 0 = None
  /\ forall hs ls, ResourceManager_init hs ls 0 0 = None.
Proof. apply (generate_time_slots_zero_duration_diverges 0). lia. Defined.

(** A course as [utils/api_study_plans.py] builds it when a lecturer could
    not be fetched: the entry holds the group count and no lecturer. *)
Definition course_placeholder : CourseAssignment :=
  CourseAssignment.mk 101 "CS101" 2 [mk_LecturerAssignment None 2] (Some 0) None true None
    false.

Lemma course_blocks_count_witness :
  (let blocks := course_blocks course_102 (plan_of [course_102]) in
   map Block.group_number (filter (fun b => Block.block_type b = LECTURE) blocks) = seqZ 1 1
   /\ map Block.group_number (filter (fun b => Block.block_type b = LAB) blocks) = seqZ 1 1
   /\ Z.of_nat (length blocks) = 1 + 1)
  /\ CourseAssignment_post_init course_placeholder = Constructed
  /\ course_blocks course_placeholder (plan_of [course_placeholder]) = []
  /\ map Block.group_number
       (filter (fun b => Block.block_type b = LECTURE)
          (course_blocks course_placeholder (plan_of [course_placeholder])))
     = seqZ 1 0.
Proof.
  split; [|split; [reflexivity|split; [reflexivity|]]].
  - apply (proj2 (course_blocks_count course_102 (plan_of [course_102]))).
    + reflexivity.
    + constructor; [split; [by eexists | cbn; lia] | constructor].
    + constructor; [split; [by eexists | cbn; lia] | constructor].
  - apply (proj1 (course_blocks_count course_placeholder (plan_of [course_placeholder]))).
Defined.

Lemma schedule_entries_are_blocks_witness :
  exists blocks,
    _convert_course_assignments_to_blocks [course_101] (mapping_of [course_101]) = Ok blocks
    /\ schedule_101 ≠ []
    /\ NoDup (dict_keys schedule_101)
    /\ (forall id a, (id, a) ∈ schedule_101 ->
          id = Block.id (Assignment.block a) /\ Assignment.block a ∈ blocks)
    /\ (length schedule_101 <= length (remove_dups (map Block.id blocks)))%nat.
Proof.
  apply (schedule_entries_are_blocks list_order example_rm [course_101]
           (mapping_of [course_101]) 100 schedule_101 schedule_101_run).
Defined.



Lemma max_attempts_beyond_one_is_idle_witness :
  schedule_blocks list_order example_rm [course_101] (mapping_of [course_101]) 1
  = schedule_blocks list_order example_rm [course_101] (mapping_of [course_101]) 100.
Proof. apply max_attempts_beyond_one_is_idle; lia. Defined.

(** A block of a course with two lecture groups is tried after the block
    of a single-group course, though it is listed first. *)
Definition lecture_201_1 : Block :=
  lecture_block course_201 (plan_of [course_201; course_202]) lecturer_1 1.
Definition lecture_201_2 : Block :=
  lecture_block course_201 (plan_of [course_201; course_202]) lecturer_2 2.

Lemma blocks_tried_in_priority_order_witness :
  [lecture_101; lecture_201_1] ≡ₚ [lecture_201_1; lecture_101]
  /\ (exists scores,
        Forall2 (fun block score =>
                   get_block_score list_order example_rm initialize_fresh_state block
                   = Ok score)
          [lecture_101; lecture_201_1] scores
        /\ StronglySorted score_ge scores)
  /\ StronglySorted (fun b1 b2 => Block.is_single_group_course b2 = true ->
                                  Block.is_single_group_course b1 = true)
       [lecture_101; lecture_201_1].
Proof.
  apply (blocks_tried_in_priority_order list_order example_rm initialize_fresh_state
           [lecture_201_1; lecture_101] [lecture_101; lecture_201_1]).
  vm_compute. reflexivity.
Defined.

(** The two lecture groups of one course, held in parallel in two halls. *)
Definition parallel_groups : list (string * Assignment) :=
  [("L_CS201_1_1", Assignment.mk lecture_201_1 sun9 (RHall hall_a));
   ("L_CS201_2_2", Assignment.mk lecture_201_2 sun9 (RHall hall_b))].

Lemma strict_student_check_suffices_witness :
  _check_student_conflicts (fun codes => codes) parallel_groups = Ok [].
Proof.
  apply (strict_student_check_suffices (fun codes => codes) parallel_groups).
  - apply (bool_decide_unpack _). vm_compute. exact I.
  - intros id a Hin. apply list_elem_of_In in Hin.
    destruct Hin as [[= <- <-]|[[= <- <-]|[]]]; reflexivity.
  - intros before id a after Heq. destruct before as [|x [|y before]]; cbn in Heq.
    + injection Heq as <- <- _. reflexivity.
    + injection Heq as <- <- <- _. vm_compute. reflexivity.
    + injection Heq as _ _ Heq. destruct before; discriminate.
Defined.

Lemma schedule_single_block_first_fit_witness :
  Assignment.block lecture_101_sun9 = lecture_101
  /\ exists rooms_before rooms_after slots_before slots_after,
       get_suitable_rooms example_rm lecture_101
       = rooms_before ++ Assignment.room lecture_101_sun9 :: rooms_after
       /\ (forall room, room ∈ rooms_before ->
             no_slot_fits list_order example_rm initialize_fresh_state lecture_101 room)
       /\ get_available_slots list_order example_rm lecture_101
            (Assignment.room lecture_101_sun9) (get_all_assignments initialize_fresh_state)
          = Ok (slots_before ++ Assignment.time_slot lecture_101_sun9 :: slots_after)
       /\ (forall slot, slot ∈ slots_before ->
             (can_assign initialize_fresh_state lecture_101 slot
                (Assignment.room lecture_101_sun9)).1 = false)
       /\ (can_assign initialize_fresh_state lecture_101
             (Assignment.time_slot lecture_101_sun9) (Assignment.room lecture_101_sun9)).1
          = true.
Proof.
  apply (schedule_single_block_first_fit list_order example_rm initialize_fresh_state
           lecture_101 (Some lecture_101_sun9)).
  vm_compute. reflexivity.
Defined.

(** The lecture of course 102 cannot go where that of course 101 sits; the
    slot found for it instead is committed. *)
Lemma found_assignment_commits_witness :
  (make_assignment (run_ops [MakeAssignment "L_CS101_1_1" lecture_101_sun9])
     (Block.id lecture_102) (Assignment.mk lecture_102 mon9 (RHall hall_a))).1
  = negb (dict_mem (Block.id lecture_102)
            (current_assignments (run_ops [MakeAssignment "L_CS101_1_1" lecture_101_sun9]))).
Proof.
  apply (found_assignment_commits list_order example_rm
           [MakeAssignment "L_CS101_1_1" lecture_101_sun9] lecture_102
           (Assignment.mk lecture_102 mon9 (RHall hall_a))).
  vm_compute. reflexivity.
Defined.
